(** * Pyrewall: a shallow embedding of the enforcement core

    The development follows the Python sources of the repository:

    - [core/security.py]        password hashing and the users table,
    - [core/dns_proxy.py]       the NXDOMAIN-answering DNS proxy,
    - [core/firewall_thread.py] blocklist sync, host extraction and the
                                per-packet pipeline of the filter thread,
    - [db/install.py]           the first-run bootstrap.

    Conventions.  A Python [str] is a Rocq [string] read as a sequence of
    code points below 256 (one [ascii] per character); [bytes] is
    [list byte].  Python sets are [gset], tables with a primary key are
    [gmap].  Code wrapped in [try/except] is written in the exception
    carrier [exc] and the handler is applied where the source has it. *)

From Stdlib Require Import ZArith NArith Strings.Ascii Strings.String Strings.Byte List Bool Lia.
From stdpp Require Import base option list gmap sets strings.

Local Open Scope string_scope.

(** ** Python built-ins used by the sources *)

Module Py.

(** The outcome of a block that may raise: a value, or an exception
    that reaches the enclosing handler. *)
Inductive exc (A : Type) : Type :=
| Ret (a : A)
| Raise.
Arguments Ret {A} a.
Arguments Raise {A}.

Definition bind {A B} (m : exc A) (k : A -> exc B) : exc B :=
  match m with
  | Ret a => k a
  | Raise => Raise
  end.

(** [try: m  except Exception: h] *)
Definition catch {A} (m : exc A) (h : A) : A :=
  match m with
  | Ret a => a
  | Raise => h
  end.

Definition of_option {A} (o : option A) : exc A :=
  match o with
  | Some a => Ret a
  | None => Raise
  end.

(** *** str *)

Definition code (c : ascii) : N := N_of_ascii c.

Definition in_range (lo hi n : N) : bool := ((lo <=? n) && (n <=? hi))%N.

(** Cased upper-case code points below 256: A-Z, and U+00C0..U+00DE
    without the multiplication sign U+00D7. *)
Definition is_upper (c : ascii) : bool :=
  in_range 65 90 (code c)
  || (in_range 192 222 (code c) && negb (code c =? 215)%N).

Definition lower_char (c : ascii) : ascii :=
  if is_upper c then ascii_of_N (code c + 32) else c.

(** [s.lower()] *)
Fixpoint lower (s : string) : string :=
  match s with
  | EmptyString => EmptyString
  | String c s' => String (lower_char c) (lower s')
  end.

(** [c.isspace()] below 256: TAB..CR, FS..US, space, NEL, NBSP. *)
Definition is_space (c : ascii) : bool :=
  in_range 9 13 (code c) || in_range 28 32 (code c)
  || (code c =? 133)%N || (code c =? 160)%N.

Fixpoint mem_char (c : ascii) (chars : string) : bool :=
  match chars with
  | EmptyString => false
  | String x chars' => Ascii.eqb c x || mem_char c chars'
  end.

(** Membership of a character in a string, as a proposition. *)
Fixpoint occurs (x : ascii) (s : string) : Prop :=
  match s with
  | EmptyString => False
  | String c s' => x = c \/ occurs x s'
  end.

(** [s.count(x)] for a one-character [x]. *)
Fixpoint count_char (x : ascii) (s : string) : nat :=
  match s with
  | EmptyString => 0
  | String c s' => (if Ascii.eqb x c then 1 else 0) + count_char x s'
  end.

(** [s.lstrip(chars)] and [s.rstrip(chars)], for a predicate on
    characters. *)
Fixpoint lstrip_by (p : ascii -> bool) (s : string) : string :=
  match s with
  | EmptyString => EmptyString
  | String c s' => if p c then lstrip_by p s' else s
  end.

Fixpoint rstrip_by (p : ascii -> bool) (s : string) : string :=
  match s with
  | EmptyString => EmptyString
  | String c s' =>
      match rstrip_by p s' with
      | EmptyString => if p c then EmptyString else String c EmptyString
      | r => String c r
      end
  end.

Definition lstrip (chars s : string) : string :=
  lstrip_by (fun c => mem_char c chars) s.
Definition rstrip (chars s : string) : string :=
  rstrip_by (fun c => mem_char c chars) s.

(** [s.strip()] *)
Definition strip (s : string) : string :=
  rstrip_by is_space (lstrip_by is_space s).

(** [s.startswith(p)] *)
Fixpoint startswith (s p : string) {struct p} : bool :=
  match p, s with
  | EmptyString, _ => true
  | String a p', String b s' => Ascii.eqb a b && startswith s' p'
  | String _ _, EmptyString => false
  end.

(** [s.endswith(suffix)]: some tail of [s] is [suffix]. *)
Fixpoint endswith (s suffix : string) : bool :=
  String.eqb s suffix
  || match s with
     | EmptyString => false
     | String _ s' => endswith s' suffix
     end.

Fixpoint rev_string (acc s : string) : string :=
  match s with
  | EmptyString => acc
  | String c s' => rev_string (String c acc) s'
  end.

(** The scanner behind [s.split(sep)] and [s.split(sep, maxsplit)]:
    [cur] is the current field reversed, [skip] counts the characters
    of a matched separator still to step over, [limit] is the number
    of splits still allowed ([None]: unbounded). *)
Fixpoint split_go (sep : string) (limit : option nat) (skip : nat)
    (cur : string) (s : string) : list string :=
  match s with
  | EmptyString => [rev_string EmptyString cur]
  | String c s' =>
      match skip with
      | S k => split_go sep limit k cur s'
      | O =>
          let can := match limit with Some O => false | _ => true end in
          if can && startswith s sep then
            rev_string EmptyString cur
              :: split_go sep (Nat.pred <$> limit) (String.length sep - 1)
                   EmptyString s'
          else split_go sep limit O (String c cur) s'
      end
  end.

(** [s.split(sep)], for a non-empty [sep]. *)
Definition split (sep s : string) : list string :=
  split_go sep None 0 EmptyString s.

(** [s.split(sep, maxsplit)], for a non-empty [sep]. *)
Definition split_max (sep : string) (maxsplit : nat) (s : string)
  : list string :=
  split_go sep (Some maxsplit) 0 EmptyString s.

(** [l[i]] on a list: IndexError out of range. *)
Definition index {A} (l : list A) (i : nat) : exc A := of_option (l !! i).

(** *** bytes *)

Definition byte_code (b : byte) : nat := N.to_nat (Byte.to_N b).

(** A bytes literal. *)
Definition b (s : string) : list byte := list_byte_of_string s.

(** [payload[lo:hi]]: slicing clips, it never raises. *)
Definition slice {A} (l : list A) (lo hi : nat) : list A :=
  take (hi - lo) (drop lo l).

(** [payload.startswith(prefix)] *)
Fixpoint bytes_startswith (l p : list byte) {struct p} : bool :=
  match p, l with
  | [], _ => true
  | x :: p', y :: l' => Byte.eqb x y && bytes_startswith l' p'
  | _ :: _, [] => false
  end.

(** [needle in haystack] *)
Fixpoint bytes_contains (needle hay : list byte) : bool :=
  bytes_startswith hay needle
  || match hay with
     | [] => false
     | _ :: hay' => bytes_contains needle hay'
     end.

(** [payload.lower()]: on bytes only A-Z change. *)
Definition bytes_lower_char (x : byte) : byte :=
  let c := ascii_of_byte x in
  if in_range 65 90 (code c) then byte_of_ascii (ascii_of_N (code c + 32))
  else x.
Definition bytes_lower (l : list byte) : list byte := map bytes_lower_char l.

(** [payload.decode("iso-8859-1")]: byte [n] is code point [n]. *)
Definition decode_latin1 (l : list byte) : string := string_of_list_byte l.

(** [s.encode()] (UTF-8) of a string over code points below 256. *)
Definition encode_char (c : ascii) : list byte :=
  let n := code c in
  if (n <? 128)%N then [byte_of_ascii c]
  else [byte_of_ascii (ascii_of_N (192 + n / 64));
        byte_of_ascii (ascii_of_N (128 + n mod 64))].
Fixpoint encode (s : string) : list byte :=
  match s with
  | EmptyString => []
  | String c s' => encode_char c ++ encode s'
  end.

(** [struct.unpack("!H", s)[0]]: struct.error unless [s] has two bytes. *)
Definition unpack_H (s : list byte) : exc nat :=
  match s with
  | [hi; lo] => Ret (256 * byte_code hi + byte_code lo)
  | _ => Raise
  end.

End Py.

Notation "'let*' x ':=' m 'in' k" := (Py.bind m (fun x => k))
  (at level 10, x name, m at level 100, k at level 200, only parsing).

(** ** core/security.py *)

Module Security.
Import Py.

Definition PBKDF2_ITERATIONS : Z := 150000.
Definition SALT_BYTES : nat := 16.
Definition INT_MAX : Z := 2147483647.

(** *** Text forms of numbers and bytes *)

Definition digit_char (d : N) : ascii := ascii_of_N (48 + d).

Fixpoint digits_go (fuel : nat) (n : N) (acc : string) : string :=
  match fuel with
  | O => acc
  | S f =>
      let acc' := String (digit_char (n mod 10)) acc in
      if (n <? 10)%N then acc' else digits_go f (n / 10) acc'
  end.

(** Decimal digits of a natural number; a number below [2^k] has at
    most [k] digits, which bounds the loop. *)
Definition digits (n : N) : string :=
  digits_go (S (N.to_nat (N.log2 n))) n EmptyString.

(** [str(z)], as the f-string renders an int. *)
Definition str_of_int (z : Z) : string :=
  if (z <? 0)%Z then String "-" (digits (Z.abs_N z)) else digits (Z.to_N z).

Definition digit_val (c : ascii) : option N :=
  if in_range 48 57 (code c) then Some (code c - 48)%N else None.

(** Digits of an int literal: single underscores are allowed between
    digits. [prev] tells whether the previous character was a digit. *)
Fixpoint int_digits (s : string) (acc : N) (prev : bool) : option N :=
  match s with
  | EmptyString => if prev then Some acc else None
  | String c s' =>
      if Ascii.eqb c "_" then
        if prev then int_digits s' acc false else None
      else
        match digit_val c with
        | Some d => int_digits s' (10 * acc + d)%N true
        | None => None
        end
  end.

(** [int(s)]: surrounding whitespace and a sign are accepted;
    ValueError otherwise. *)
Definition int (s : string) : exc Z :=
  let s := strip s in
  let '(neg, body) :=
    match s with
    | String c r =>
        if Ascii.eqb c "-" then (true, r)
        else if Ascii.eqb c "+" then (false, r)
        else (false, s)
    | EmptyString => (false, s)
    end in
  match int_digits body 0 false with
  | Some n => Ret (if neg : bool then (- Z.of_N n)%Z else Z.of_N n)
  | None => Raise
  end.

Definition hex_char (d : N) : ascii :=
  if (d <? 10)%N then ascii_of_N (48 + d) else ascii_of_N (87 + d).

(** [data.hex()] *)
Fixpoint hex (l : list byte) : string :=
  match l with
  | [] => EmptyString
  | x :: l' =>
      let n := Byte.to_N x in
      String (hex_char (n / 16)) (String (hex_char (n mod 16)) (hex l'))
  end.

Definition hex_val (c : ascii) : option N :=
  let n := code c in
  if in_range 48 57 n then Some (n - 48)%N
  else if in_range 97 102 n then Some (n - 87)%N
  else if in_range 65 70 n then Some (n - 55)%N
  else None.

(** ASCII whitespace, as [bytes.fromhex] skips it between bytes. *)
Definition is_ascii_space (c : ascii) : bool :=
  in_range 9 13 (code c) || (code c =? 32)%N.

(** [bytes.fromhex(s)]: two hex digits per byte; ValueError otherwise. *)
Fixpoint fromhex (s : string) : exc (list byte) :=
  match s with
  | EmptyString => Ret []
  | String c s' =>
      if is_ascii_space c then fromhex s'
      else
        match hex_val c, s' with
        | Some h, String c2 s'' =>
            match hex_val c2 with
            | Some l =>
                let* rest := fromhex s'' in
                Ret (byte_of_ascii (ascii_of_N (16 * h + l)) :: rest)
            | None => Raise
            end
        | _, _ => Raise
        end
  end.

Fixpoint bytes_eqb (x y : list byte) : bool :=
  match x, y with
  | [], [] => true
  | a :: x', c :: y' => Byte.eqb a c && bytes_eqb x' y'
  | _, _ => false
  end.

(** [hmac.compare_digest(a, b)]: its value is equality of the two
    byte strings (its running time is not part of the model). *)
Definition compare_digest (x y : list byte) : bool := bytes_eqb x y.

(** *** Hashing and verification *)

Section Hashing.

(** PBKDF2-HMAC-SHA256 itself (hashlib), on password bytes, salt
    and iteration count. *)
Variable pbkdf2_sha256 : list byte -> list byte -> Z -> list byte.

(** [hashlib.pbkdf2_hmac("sha256", password, salt, iterations)]:
    an iteration count below 1 or above INT_MAX raises. *)
Definition pbkdf2_hmac (password salt : list byte) (iterations : Z)
  : exc (list byte) :=
  if ((1 <=? iterations) && (iterations <=? INT_MAX))%Z
  then Ret (pbkdf2_sha256 password salt iterations)
  else Raise.

(** [hash_password(password, iterations)]; [salt] is what
    [os.urandom(SALT_BYTES)] returns in this call.  [Raise] is the
    ValueError for an empty password, or the one of [pbkdf2_hmac]. *)
Definition hash_password (salt : list byte) (password : string)
    (iterations : Z) : exc string :=
  if String.eqb password EmptyString then Raise
  else
    let* dk := pbkdf2_hmac (encode password) salt iterations in
    Ret (str_of_int iterations ++ "$" ++ hex salt ++ "$" ++ hex dk).

Definition verify_password (stored password : string) : bool :=
  catch
    (match split "$" stored with
     | [p0; p1; p2] =>
         let* iterations := int p0 in
         let* salt := fromhex p1 in
         let* expected := fromhex p2 in
         let* derived := pbkdf2_hmac (encode password) salt iterations in
         Ret (compare_digest expected derived)
     | _ => Ret false
     end)
    false.

(** *** The users table: username (primary key) -> password, role *)

Record User := { password : string; role : string }.

Definition has_admin (users : gmap string User) : bool :=
  existsb (fun kv => String.eqb (role kv.2) "admin") (map_to_list users).

(** [create_user]: the password is hashed first (an empty password
    raises out of the function); the INSERT fails with
    IntegrityError, answered by [False], when the username exists. *)
Definition create_user (salt : list byte) (username pw role : string)
    (users : gmap string User) : exc (bool * gmap string User) :=
  let* hashed := hash_password salt pw PBKDF2_ITERATIONS in
  match users !! username with
  | Some _ => Ret (false, users)
  | None => Ret (true, <[username := {| password := hashed; role := role |}]> users)
  end.

Definition validate_user (username pw : string)
    (users : gmap string User) : bool :=
  match users !! username with
  | None => false
  | Some u => verify_password (password u) pw
  end.

Definition is_admin (username : string) (users : gmap string User) : bool :=
  match users !! username with
  | None => false
  | Some u => String.eqb (lower (role u)) "admin"
  end.

(** [ensure_default_admin]: when no row has role 'admin', INSERT OR
    IGNORE the account admin/admin.  Its sqlite3 calls are under no
    [try]: on a users database that cannot be opened or read
    ([db_ok = false]) the error leaves the function. *)
Definition ensure_default_admin (db_ok : bool) (salt : list byte)
    (users : gmap string User) : exc (gmap string User) :=
  if negb db_ok then Raise
  else if has_admin users then Ret users
  else
    let* admin_hash := hash_password salt "admin" PBKDF2_ITERATIONS in
    match users !! "admin" with
    | Some _ => Ret users
    | None =>
        Ret (<["admin" := {| password := admin_hash; role := "admin" |}]> users)
    end.

(** [set_password]: the new password is hashed first (an empty one
    raises); the UPDATE changes the row of an existing user only, and
    the answer is whether a row was changed. *)
Definition set_password (salt : list byte) (username pw : string)
    (users : gmap string User) : exc (bool * gmap string User) :=
  let* hashed := hash_password salt pw PBKDF2_ITERATIONS in
  match users !! username with
  | Some u =>
      Ret (true, <[username := {| password := hashed; role := role u |}]> users)
  | None => Ret (false, users)
  end.

(** What importing the module runs (the INIT block at its end); an
    error of it makes the import fail. *)
Definition module_init (db_ok : bool) (salt : list byte)
    (users : gmap string User) : exc (gmap string User) :=
  ensure_default_admin db_ok salt users.

End Hashing.

End Security.

(** ** db/install.py *)

Module Install.
Import Py Security.

(** [DEFAULT_ADMIN] *)
Definition DEFAULT_ADMIN_username : string := "admin".
Definition DEFAULT_ADMIN_password : string := "password".
Definition DEFAULT_ADMIN_role : string := "admin".

(** The content of [first_run.json] that the login page reads. *)
Record Marker := {
  credentials_username : string;
  credentials_password : string;
  admin_created : bool
}.

(** What the bootstrap reads and writes: the marker file, the users
    table of the canonical users database (an absent table and an
    empty one are the same map), and whether the interpreter has
    already imported [pyrewall.core.security]. *)
Record Host := {
  marker_file : option Marker;
  users : gmap string User;
  security_imported : bool
}.

Inductive Status := fresh | not_fresh.

Section Bootstrap.

Variable pbkdf2_sha256 : list byte -> list byte -> Z -> list byte.

(** [from pyrewall.core import security]: the first import runs the
    module body, later ones find it in [sys.modules].  The bootstrap
    is followed on a users database that can be opened, the one
    [create_user] works on as well. *)
Definition import_security (salt : list byte) (h : Host) : exc Host :=
  if security_imported h then Ret h
  else
    let* us := module_init pbkdf2_sha256 true salt (users h) in
    Ret {| marker_file := marker_file h; users := us;
           security_imported := true |}.

(** [_create_default_admin]: any exception is answered by
    [{"created": False}]. *)
Definition _create_default_admin (salt_import salt_create : list byte)
    (h : Host) : bool * Host :=
  match import_security salt_import h with
  | Raise => (false, h)
  | Ret h1 =>
      match create_user pbkdf2_sha256 salt_create DEFAULT_ADMIN_username
              DEFAULT_ADMIN_password DEFAULT_ADMIN_role (users h1) with
      | Raise => (false, h1)
      | Ret (created, us) =>
          (created, {| marker_file := marker_file h1; users := us;
                       security_imported := security_imported h1 |})
      end
  end.

(** [ensure_fresh_installation].  Moving stray database files of the
    project root aside and creating the empty tables do not touch
    the rows of the users table, so they leave [Host] as it is. *)
Definition ensure_fresh_installation (salt_import salt_create : list byte)
    (h : Host) : Status * Host :=
  match marker_file h with
  | Some _ => (not_fresh, h)
  | None =>
      let '(created, h1) := _create_default_admin salt_import salt_create h in
      let marker_data :=
        {| credentials_username := DEFAULT_ADMIN_username;
           credentials_password := DEFAULT_ADMIN_password;
           admin_created := created |} in
      (fresh, {| marker_file := Some marker_data; users := users h1;
                 security_imported := security_imported h1 |})
  end.

End Bootstrap.

End Install.

(** ** db/storage.py: the user helpers

    These keep the password column as it is given.  [db_ok = false]
    stands for a database that cannot be opened: every helper answers
    that under its own [try/except]. *)

Module Storage.
Import Py Security.

(** [init_user_db]: the account admin/admin123 when no user is named
    admin.  It has no handler of its own. *)
Definition init_user_db (users : gmap string User) : gmap string User :=
  match users !! "admin" with
  | Some _ => users
  | None => <["admin" := {| password := "admin123"; role := "admin" |}]> users
  end.

(** [verify_user]: the row whose username and password column both
    equal the arguments, as (username, role). *)
Definition verify_user (db_ok : bool) (username pw : string)
    (users : gmap string User) : option (string * string) :=
  if db_ok then
    match users !! username with
    | Some u => if String.eqb (password u) pw then Some (username, role u) else None
    | None => None
    end
  else None.

(** [add_user]: INSERT OR IGNORE of the row as given. *)
Definition add_user (db_ok : bool) (username pw role : string)
    (users : gmap string User) : gmap string User :=
  if db_ok then
    match users !! username with
    | Some _ => users
    | None => <[username := {| password := pw; role := role |}]> users
    end
  else users.

(** [remove_user] *)
Definition remove_user (db_ok : bool) (username : string)
    (users : gmap string User) : gmap string User :=
  if db_ok then delete username users else users.

End Storage.

(** ** core/dns_proxy.py *)

Module DNSProxy.
Import Py.

(** *** The part of dnslib that the proxy uses

    A message header is six big-endian 16-bit fields; the flags live
    in [bitmap] and are read and written with [get_bits]/[set_bits]. *)

Record DNSHeader := {
  id : Z; bitmap : Z; q : Z; a : Z; auth : Z; ar : Z
}.

Definition get_bits (data offset bits : Z) : Z :=
  let mask := Z.shiftl (Z.shiftl 1 bits - 1) offset in
  Z.shiftr (Z.land data mask) offset.

Definition set_bits (data value offset bits : Z) : Z :=
  let mask := Z.shiftl (Z.shiftl 1 bits - 1) offset in
  let clear := Z.lxor 65535 mask in
  Z.lor (Z.land data clear) (Z.land (Z.shiftl value offset) mask).

Definition get_qr (h : DNSHeader) : Z := get_bits (bitmap h) 15 1.
Definition get_aa (h : DNSHeader) : Z := get_bits (bitmap h) 10 1.
Definition get_rd (h : DNSHeader) : Z := get_bits (bitmap h) 8 1.
Definition get_ra (h : DNSHeader) : Z := get_bits (bitmap h) 7 1.
Definition get_rcode (h : DNSHeader) : Z := get_bits (bitmap h) 0 4.

(** [RCODE.NXDOMAIN] *)
Definition NXDOMAIN : Z := 3.

(** [DNSHeader(id=.., qr=.., aa=.., ra=.., rcode=..)]: the bitmap
    starts at 0 with RD set, then the keyword arguments are applied
    in order; all four section counts are 0. *)
Definition DNSHeader_new (ident qr aa ra rcode : Z) : DNSHeader :=
  let bm := set_bits 0 1 8 1 in
  let bm := set_bits bm qr 15 1 in
  let bm := set_bits bm aa 10 1 in
  let bm := set_bits bm ra 7 1 in
  let bm := set_bits bm rcode 0 4 in
  {| id := ident; bitmap := bm; q := 0; a := 0; auth := 0; ar := 0 |}.

Definition byte_of_Z (z : Z) : byte :=
  byte_of_ascii (ascii_of_N (Z.to_N (z mod 256))).

(** [struct.pack("!H", z)] *)
Definition pack_H (z : Z) : list byte := [byte_of_Z (z / 256); byte_of_Z z].

Definition unpack_HZ (hi lo : byte) : Z :=
  256 * Z.of_N (Byte.to_N hi) + Z.of_N (Byte.to_N lo).

(** [DNSHeader.pack] *)
Definition DNSHeader_pack (h : DNSHeader) : list byte :=
  pack_H (id h) ++ pack_H (bitmap h) ++ pack_H (q h)
  ++ pack_H (a h) ++ pack_H (auth h) ++ pack_H (ar h).

(** [DNSHeader.parse]: the first twelve bytes of a message. *)
Definition DNSHeader_parse (data : list byte) : option DNSHeader :=
  match data with
  | i1 :: i0 :: b1 :: b0 :: q1 :: q0 :: a1 :: a0 :: n1 :: n0 :: r1 :: r0 :: _ =>
      Some {| id := unpack_HZ i1 i0; bitmap := unpack_HZ b1 b0;
              q := unpack_HZ q1 q0; a := unpack_HZ a1 a0;
              auth := unpack_HZ n1 n0; ar := unpack_HZ r1 r0 |}
  | _ => None
  end.

(** A parsed request, as far as the proxy looks at it: the header and
    [str(request.q.qname)]. *)
Record DNSRecord := { header : DNSHeader; q_qname : string }.

(** A record built from a header alone has no question, answer,
    authority or additional section: packing it gives the header. *)
Definition DNSRecord_pack_header_only (h : DNSHeader) : list byte :=
  DNSHeader_pack h.

(** *** The proxy *)

(** [_is_blocked(qname)] over the cache (a set of strings). *)
Definition domain_matches (qname d : string) : bool :=
  negb (String.eqb d EmptyString)
  && (let check := lstrip "*." (lower d) in
      String.eqb qname check || endswith qname ("." ++ check)).

Definition _is_blocked (cache : gset string) (qname : string) : bool :=
  let qname := lower (rstrip "." qname) in
  existsb (domain_matches qname) (elements cache).

(** What the handler does with the socket. *)
Inductive Action :=
| SendTo (data : list byte) (addr : string).

Section Handler.

(** The question part of [DNSRecord.parse]: the printed name of the
    first question, [None] when dnslib rejects the datagram. *)
Variable parse_qname : list byte -> option string.

(** [_forward_query]: the upstream's reply, [None] on timeout or
    error. *)
Variable forward_query : list byte -> option (list byte).

Definition DNSRecord_parse (data : list byte) : option DNSRecord :=
  h ← DNSHeader_parse data;
  n ← parse_qname data;
  Some {| header := h; q_qname := n |}.

(** [_handle_query(data, addr)] *)
Definition _handle_query (cache : gset string) (data : list byte)
    (addr : string) : list Action :=
  match DNSRecord_parse data with
  | None => []
  | Some request =>
      let qname := rstrip "." (q_qname request) in
      if _is_blocked cache qname then
        let reply :=
          DNSRecord_pack_header_only
            (DNSHeader_new (id (header request)) 1 1 1 NXDOMAIN) in
        [SendTo reply addr]
      else
        match forward_query data with
        | Some (x :: reply) => [SendTo (x :: reply) addr]
        | Some [] | None => []
        end
  end.

End Handler.

(** [_refresh_cache] on the rows of [blocked_domains]; a failing
    database leaves the cache as it was. *)
Definition _refresh_cache (rows : option (list string)) (cache : gset string)
  : gset string :=
  match rows with
  | None => cache
  | Some ds =>
      list_to_set
        (map (fun d => strip (lower d))
             (filter (fun d => d <> EmptyString) ds))
  end.

End DNSProxy.

(** ** core/firewall_thread.py: the store and the resolver *)

Module Firewall.
Import Py.

Definition TEMP_BLOCK_TTL_SECONDS : Z := 300.

(** A row of [blocked_ips] without its key [ip]; [expires_at] is the
    UTC time in seconds that the source stores as text
    [%Y-%m-%d %H:%M:%S] (text order is time order for that format). *)
Record BlockedIP := {
  domain : option string;
  expires_at : option Z;
  reason : option string
}.

(** A row of [app_signatures]. *)
Record AppSignature := {
  sig_id : Z;
  app_name : string;
  pattern : option string;
  ip_range : option string;
  sig_protocol : option string;
  domain_pattern : option string
}.

(** The firewall database, its availability, and the module-level
    reload event.  [online = false]: opening the database or running
    a statement raises.  [directory_missing] says why, while it is
    unavailable: the directory of the database file is not there and
    cannot be made, so that [os.makedirs] raises as well.  The
    database path is absolute ([paths.FIREWALL_DB]), so an available
    database has its directory: the flag is read only while [online]
    is false. *)
Record World := {
  tbl_blocked_domains : list string;
  tbl_blocked_ips : gmap string BlockedIP;
  tbl_app_signatures : list AppSignature;
  online : bool;
  directory_missing : bool;
  domain_update_event : bool
}.

Definition with_blocked_ips (t : gmap string BlockedIP) (w : World) : World :=
  {| tbl_blocked_domains := tbl_blocked_domains w;
     tbl_blocked_ips := t;
     tbl_app_signatures := tbl_app_signatures w;
     online := online w;
     directory_missing := directory_missing w;
     domain_update_event := domain_update_event w |}.

Definition with_blocked_domains (ds : list string) (w : World) : World :=
  {| tbl_blocked_domains := ds;
     tbl_blocked_ips := tbl_blocked_ips w;
     tbl_app_signatures := tbl_app_signatures w;
     online := online w;
     directory_missing := directory_missing w;
     domain_update_event := domain_update_event w |}.

Definition with_event (e : bool) (w : World) : World :=
  {| tbl_blocked_domains := tbl_blocked_domains w;
     tbl_blocked_ips := tbl_blocked_ips w;
     tbl_app_signatures := tbl_app_signatures w;
     online := online w;
     directory_missing := directory_missing w;
     domain_update_event := e |}.

(** A row inserted with its [ip] only: the other columns are NULL. *)
Definition null_row : BlockedIP :=
  {| domain := None; expires_at := None; reason := None |}.

(** [INSERT OR IGNORE INTO blocked_ips(ip) VALUES (?)] *)
Definition insert_or_ignore (t : gmap string BlockedIP) (ip : string)
  : gmap string BlockedIP :=
  match t !! ip with
  | Some _ => t
  | None => <[ip := null_row]> t
  end.

(** [os.makedirs(os.path.dirname(db_path), exist_ok=True)], which
    [reload_blocked_domains], [get_blocked_ips], [sync_blocked_ips],
    [add_blocked_domain] and [remove_blocked_domain] call before
    their [try]. *)
Definition makedirs (w : World) : exc unit :=
  if negb (online w) && directory_missing w then Raise else Ret tt.

(** [reload_blocked_domains]: the domains lowercased; [[]] on an
    error inside its [try]; the error of [os.makedirs] leaves the
    function. *)
Definition reload_blocked_domains (w : World) : exc (list string) :=
  let* made := makedirs w in
  Ret (if online w then map lower (tbl_blocked_domains w) else []).

(** [get_blocked_ips]: the keys of the table; the empty set on an
    error inside its [try]; the error of [os.makedirs] leaves the
    function. *)
Definition get_blocked_ips (w : World) : exc (gset string) :=
  let* made := makedirs w in
  Ret (if online w then dom (tbl_blocked_ips w) else ∅).

Section Resolver.

(** [socket.getaddrinfo(host, None, family=AF_INET)] reduced to the
    addresses it lists; [None] when it raises. *)
Variable getaddrinfo : string -> option (list string).

Definition variants (d : string) : list string :=
  [d; "www." ++ d; "m." ++ d; "api." ++ d; "cdn." ++ d;
   "video." ++ d; "static." ++ d; "media." ++ d].

Definition try_resolve (resolved : gset string) (d : string) : gset string :=
  match getaddrinfo d with
  | Some infos => foldl (fun acc ip => {[ip]} ∪ acc) resolved infos
  | None => resolved
  end.

(** [resolve_domain_to_ips(domain)]: [list(resolved)]. *)
Definition resolve_domain_to_ips (d : string) : list string :=
  elements (foldl try_resolve ∅ (variants d)).

(** [sync_blocked_ips]: the database after the call.  Nothing is
    committed when a statement raises, so an unavailable database is
    left as it is (with its directory missing, the call itself raises
    at [os.makedirs]). *)
Definition sync_blocked_ips (w : World) : World :=
  if online w then
    let t := (∅ : gmap string BlockedIP) in      (* DELETE FROM blocked_ips *)
    let domains := tbl_blocked_domains w in
    let all_ips : gset string :=
      foldl (fun acc d =>
               foldl (fun acc ip => {[ip]} ∪ acc) acc (resolve_domain_to_ips d))
            ∅ domains in
    let t := foldl insert_or_ignore t (elements all_ips) in
    with_blocked_ips t w
  else w.

(** [add_blocked_domain] and [remove_blocked_domain]: the database
    after the call, that is the table change, the resync, then the
    reload event; on an unavailable database nothing of it happens
    (with its directory missing, the call itself raises at
    [os.makedirs]). *)
Definition add_blocked_domain (d : string) (w : World) : World :=
  if online w then
    let d := lower d in
    let ds := tbl_blocked_domains w in
    let ds := if bool_decide (d ∈ ds) then ds else (ds ++ [d])%list in
    with_event true (sync_blocked_ips (with_blocked_domains ds w))
  else w.

Definition remove_blocked_domain (d : string) (w : World) : World :=
  if online w then
    let d := lower d in
    let ds := filter (fun x => x <> d) (tbl_blocked_domains w) in
    with_event true (sync_blocked_ips (with_blocked_domains ds w))
  else w.

End Resolver.

(** ** Packet parsing helpers *)

Definition CRLF : string := String "013" (String "010" EmptyString).

Definition http_methods : list (list byte) :=
  [b "GET "; b "POST "; b "HEAD "; b "PUT "; b "OPTIONS "].

(** The loop over the lines of [extract_http_host]. *)
Fixpoint host_of_lines (lines : list string) : exc (option string) :=
  match lines with
  | [] => Ret None
  | line :: rest =>
      if startswith (lower line) "host:" then
        let* v := index (split_max ":" 1 line) 1 in
        let host := strip v in
        let* h := index (split ":" host) 0 in
        Ret (Some (lower h))
      else host_of_lines rest
  end.

Definition extract_http_host_body (payload : list byte) : exc (option string) :=
  match payload with
  | [] => Ret None
  | _ =>
      if negb (existsb (bytes_startswith payload) http_methods) then Ret None
      else host_of_lines (split CRLF (decode_latin1 payload))
  end.

(** [extract_http_host(payload)] *)
Definition extract_http_host (payload : list byte) : option string :=
  catch (extract_http_host_body payload) None.

Definition byte_at (payload : list byte) (i : nat) : exc nat :=
  let* x := index payload i in Ret (byte_code x).

(** A loop result: [None] when the fuel is used up. *)
Definition and_then {A B} (m : exc A) (k : A -> option (exc B))
  : option (exc B) :=
  match m with
  | Ret x => k x
  | Raise => Some Raise
  end.

Section TLS.

Local Open Scope nat_scope.

(** [bytes.decode("utf-8", errors="ignore")] *)
Variable decode_utf8_ignore : list byte -> string.

(** The inner [while offset + 3 <= sn_end] loop. *)
Fixpoint sn_loop (fuel : nat) (payload : list byte) (offset sn_end : nat)
  : option (exc (option string)) :=
  match fuel with
  | O => None
  | S fuel' =>
      if offset + 3 <=? sn_end then
        and_then (byte_at payload offset) (fun name_type =>
        and_then (unpack_H (slice payload (offset + 1) (offset + 3)))
          (fun name_len =>
        let offset := offset + 3 in
        if sn_end <? offset + name_len then Some (Ret None)
        else if name_type =? 0 then
          let server_name :=
            decode_utf8_ignore (slice payload offset (offset + name_len)) in
          and_then (index (split ":" server_name) 0) (fun h =>
          Some (Ret (Some (lower h))))
        else sn_loop fuel' payload (offset + name_len) sn_end))
      else Some (Ret None)
  end.

(** The outer [while offset + 4 <= end_ext] loop. *)
Fixpoint ext_loop (fuel : nat) (payload : list byte) (offset end_ext : nat)
  : option (exc (option string)) :=
  match fuel with
  | O => None
  | S fuel' =>
      if offset + 4 <=? end_ext then
        and_then (unpack_H (slice payload offset (offset + 2))) (fun ext_type =>
        and_then (unpack_H (slice payload (offset + 2) (offset + 4)))
          (fun ext_size =>
        let offset := offset + 4 in
        if ext_type =? 0 then
          if end_ext <? offset + 2 then Some (Ret None)
          else
            and_then (unpack_H (slice payload offset (offset + 2)))
              (fun sn_list_len =>
            let offset := offset + 2 in
            let sn_end := offset + sn_list_len in
            sn_loop (S (length payload)) payload offset sn_end)
        else ext_loop fuel' payload (offset + ext_size) end_ext))
      else Some (Ret None)
  end.

Definition extract_tls_sni_body (payload : list byte)
  : option (exc (option string)) :=
  let n := length payload in
  if n <? 5 then Some (Ret None) else
  and_then (byte_at payload 0) (fun p0 =>
  if negb (p0 =? 22) then Some (Ret None) else
  if n <? 6 then Some (Ret None) else
  and_then (byte_at payload 5) (fun p5 =>
  if negb (p5 =? 1) then Some (Ret None) else
  let offset := 5 + 4 in
  if n <? offset + 34 then Some (Ret None) else
  let offset := offset + 34 in
  if n <? offset + 1 then Some (Ret None) else
  and_then (byte_at payload offset) (fun sid_len =>
  let offset := offset + 1 + sid_len in
  if n <? offset + 2 then Some (Ret None) else
  and_then (unpack_H (slice payload offset (offset + 2))) (fun cs_len =>
  let offset := offset + 2 + cs_len in
  if n <? offset + 1 then Some (Ret None) else
  and_then (byte_at payload offset) (fun comp_len =>
  let offset := offset + 1 + comp_len in
  if n <? offset + 2 then Some (Ret None) else
  and_then (unpack_H (slice payload offset (offset + 2))) (fun ext_len =>
  let offset := offset + 2 in
  let end_ext := offset + ext_len in
  if n <? end_ext then Some (Ret None) else
  ext_loop (S (length payload)) payload offset end_ext)))))).

(** [extract_tls_sni(payload)]: every exception is answered by
    [None].  The fuel given to the loops is never used up (lemma
    [extract_tls_sni_body_terminates]). *)
Definition extract_tls_sni (payload : list byte) : option string :=
  match extract_tls_sni_body payload with
  | Some r => catch r None
  | None => None
  end.

End TLS.

(** A decoder for running examples: exact on ASCII input, where
    UTF-8 decoding keeps every byte. *)
Definition decode_ascii (l : list byte) : string :=
  string_of_list_byte
    (filter (fun x => (Byte.to_N x < 128)%N) l).

Definition DOH_HOST_FRAGMENTS : list (list byte) :=
  [b "dns.google"; b "cloudflare-dns.com"; b "mozilla.cloudflare-dns.com";
   b "one.one.one.one"].

(** ** The firewall thread *)

(** [pydivert.Protocol], as far as the filter can capture it. *)
Inductive Protocol := ICMP | TCP | UDP | OtherProtocol (number : Z).

Definition is_UDP (p : Protocol) : bool :=
  match p with UDP => true | _ => false end.

(** The value of the attribute [pkt.protocol].  pydivert's
    [Packet.protocol] is a pair: the protocol of the next header
    ([None] for a malformed packet) and the offset where that header
    starts.  A bare member of [pydivert.Protocol] is the kind of value
    that line 761 compares the attribute with. *)
Inductive ProtocolAttr :=
| ProtocolPair (proto : option Protocol) (next_header_start : Z)
| ProtocolMember (p : Protocol).

(** [protocol == pydivert.Protocol.UDP]: a tuple and a member of the
    enumeration are never equal, and the comparison does not raise. *)
Definition eq_Protocol_UDP (a : ProtocolAttr) : bool :=
  match a with
  | ProtocolMember p => is_UDP p
  | ProtocolPair _ _ => false
  end.

(** The attributes of a captured packet that [run] reads; an absent
    attribute is [None].  A packet that pydivert has captured carries
    a [ProtocolPair]. *)
Record Packet := {
  dst_addr : option string;
  dst_port : option Z;
  protocol : option ProtocolAttr;
  payload : option (list byte)
}.

(** A column value of a fetched row. *)
Inductive SqlValue := Null | Int (z : Z) | Text (s : string).

Definition sql_text (o : option string) : SqlValue :=
  match o with Some s => Text s | None => Null end.

(** [get_all_signatures()]: six columns per row, in [app_name] order
    (the table is kept in that order); raises when the database is
    unavailable. *)
Definition signature_row (g : AppSignature) : list SqlValue :=
  [Int (sig_id g); Text (app_name g); sql_text (pattern g);
   sql_text (ip_range g); sql_text (sig_protocol g);
   sql_text (domain_pattern g)].

Definition get_all_signatures (w : World) : exc (list (list SqlValue)) :=
  if online w then Ret (map signature_row (tbl_app_signatures w)) else Raise.

Record Timers := {
  _last_reload : Z;
  _last_blocked_flush : Z;
  _last_blocked_ips_cleanup : Z;
  _last_app_reload : Z;
  _last_domain_ip_resolve : Z
}.

(** The fields of [FirewallThread] that the loop works on.  Clock
    values are in milliseconds. *)
Record FirewallThread := {
  domains : list string;
  blocked_ips : gset string;
  app_signatures : list (list SqlValue);
  _critical_ips : gset string;
  _blocked_counters : gmap string nat;
  timers : Timers
}.

Definition set_lists (ds : list string) (ips : gset string)
    (self : FirewallThread) : FirewallThread :=
  {| domains := ds; blocked_ips := ips;
     app_signatures := app_signatures self;
     _critical_ips := _critical_ips self;
     _blocked_counters := _blocked_counters self;
     timers := timers self |}.

Definition set_blocked_ips (ips : gset string) (self : FirewallThread)
  : FirewallThread := set_lists (domains self) ips self.

Definition set_app_signatures (sigs : list (list SqlValue))
    (self : FirewallThread) : FirewallThread :=
  {| domains := domains self; blocked_ips := blocked_ips self;
     app_signatures := sigs;
     _critical_ips := _critical_ips self;
     _blocked_counters := _blocked_counters self;
     timers := timers self |}.

Definition set_counters (c : gmap string nat) (self : FirewallThread)
  : FirewallThread :=
  {| domains := domains self; blocked_ips := blocked_ips self;
     app_signatures := app_signatures self;
     _critical_ips := _critical_ips self;
     _blocked_counters := c;
     timers := timers self |}.

Definition set_timers (t : Timers) (self : FirewallThread) : FirewallThread :=
  {| domains := domains self; blocked_ips := blocked_ips self;
     app_signatures := app_signatures self;
     _critical_ips := _critical_ips self;
     _blocked_counters := _blocked_counters self;
     timers := t |}.

(** The public resolvers that are always protected. *)
Definition protected_resolvers : list string :=
  ["8.8.8.8"; "1.1.1.1"; "9.9.9.9"; "208.67.222.222"].

(** The critical set that [__init__] computes; [gateway] is the
    default IPv4 gateway when netifaces finds one. *)
Definition critical_ips (gateway : option string) : gset string :=
  let base : gset string := list_to_set ["127.0.0.1"; "0.0.0.0"; "localhost"] in
  let base := match gateway with Some gw => {[gw]} ∪ base | None => base end in
  foldl (fun acc ip => {[ip]} ∪ acc) base protected_resolvers.

(** [FirewallThread.__init__]: loading the signatures is not guarded,
    so its exception leaves the constructor. *)
Definition __init__ (gateway : option string) (w : World) : exc FirewallThread :=
  let* sigs := get_all_signatures w in
  Ret {| domains := []; blocked_ips := ∅; app_signatures := sigs;
         _critical_ips := critical_ips gateway;
         _blocked_counters := ∅;
         timers := {| _last_reload := 0; _last_blocked_flush := 0;
                      _last_blocked_ips_cleanup := 0; _last_app_reload := 0;
                      _last_domain_ip_resolve := 0 |} |}.

(** [_reload_lists]: the two assignments under one [try]; when a
    reader raises, what has not been assigned yet keeps its value. *)
Definition _reload_lists (self : FirewallThread) (w : World) : FirewallThread :=
  match reload_blocked_domains w with
  | Raise => self
  | Ret ds =>
      let self := set_lists ds (blocked_ips self) self in
      match get_blocked_ips w with
      | Raise => self
      | Ret ips => set_blocked_ips ips self
      end
  end.

(** [self.blocked_ips = get_blocked_ips(self.db_path)] as the last
    statement of a [try] block: when the call raises, the attribute
    keeps its value. *)
Definition refresh_blocked_ips (self : FirewallThread) (w : World)
  : FirewallThread :=
  match get_blocked_ips w with
  | Raise => self
  | Ret ips => set_blocked_ips ips self
  end.

(** UTC seconds of a millisecond clock value. *)
Definition utc_seconds (now : Z) : Z := (now / 1000)%Z.

(** [_add_temporary_block_ip(ip, domain_hit, ttl_seconds)] at clock
    value [now]: INSERT OR REPLACE of the full row, then the
    in-memory set is read back. *)
Definition _add_temporary_block_ip (self : FirewallThread) (w : World)
    (now : Z) (ip domain_hit : string) (ttl_seconds : Z)
  : FirewallThread * World :=
  if String.eqb ip EmptyString then (self, w)
  else if bool_decide (ip ∈ _critical_ips self) then (self, w)
  else if online w then
    let row := {| domain := Some domain_hit;
                  expires_at := Some (utc_seconds now + ttl_seconds)%Z;
                  reason := Some "auto-temp" |} in
    let w' := with_blocked_ips (<[ip := row]> (tbl_blocked_ips w)) w in
    (refresh_blocked_ips self w', w')
  else (self, w).

Definition expired (now : Z) (row : BlockedIP) : bool :=
  match expires_at row with
  | Some e => (e <=? utc_seconds now)%Z
  | None => false
  end.

(** [_cleanup_expired_blocked_ips] *)
Definition _cleanup_expired_blocked_ips (self : FirewallThread) (w : World)
    (now : Z) : FirewallThread * World :=
  if online w then
    let t := filter (fun kv => expired now kv.2 = false) (tbl_blocked_ips w) in
    let w' := with_blocked_ips t w in
    (refresh_blocked_ips self w', w')
  else (self, w).

Section Engine.

Variable getaddrinfo : string -> option (list string).
Variable decode_utf8_ignore : list byte -> string.
(** [fnmatch.fnmatch(name, pattern)] *)
Variable fnmatch : string -> string -> bool.

(** [_resolve_and_store_ips(domain_hit)]: nothing is committed when
    the lookup raises. *)
Definition _resolve_and_store_ips (self : FirewallThread) (w : World)
    (domain_hit : string) : FirewallThread * World :=
  if online w then
    match getaddrinfo domain_hit with
    | None => (self, w)
    | Some resolved =>
        let w' := with_blocked_ips
                    (foldl insert_or_ignore (tbl_blocked_ips w) resolved) w in
        match resolved with
        | [] => (self, w')
        | _ => (refresh_blocked_ips self w', w')
        end
    end
  else (self, w).

(** Truth value of a [str]-or-[None]. *)
Definition truthy (o : option string) : bool :=
  match o with
  | Some s => negb (String.eqb s EmptyString)
  | None => false
  end.

(** [x or y] *)
Definition or_else (x y : option string) : option string :=
  if truthy x then x else y.

(** [host == d or host.endswith("." + d)] *)
Definition host_matches (host d : string) : bool :=
  String.eqb host d || endswith host ("." ++ d).

(** [d.encode() in low_payload] *)
Definition payload_mentions (low_payload : list byte) (d : string) : bool :=
  bytes_contains (encode d) low_payload.

(** Steps 3 and 4 of the pipeline: [host] and [domain_hit]. *)
Definition find_host (payload : list byte) : option string :=
  or_else (extract_http_host payload)
          (extract_tls_sni decode_utf8_ignore payload).

Definition domain_hit_by_host (host : option string) (ds : list string)
  : option string :=
  match host with
  | Some h => if truthy host then List.find (host_matches h) ds else None
  | None => None
  end.

Definition find_domain_hit (host : option string) (payload : list byte)
    (ds : list string) : option string :=
  let domain_hit := domain_hit_by_host host ds in
  if negb (truthy domain_hit) then
    List.find (payload_mentions (bytes_lower payload)) ds
  else domain_hit.

(** [pattern and fnmatch.fnmatch(host, pattern)]: the pattern when
    it hits; a non-text, non-zero value makes fnmatch raise. *)
Definition pattern_hit (host : string) (pat : SqlValue) : exc (option string) :=
  match pat with
  | Null => Ret None
  | Int z => if (z =? 0)%Z then Ret None else Raise
  | Text p =>
      if negb (String.eqb p EmptyString) && fnmatch host p
      then Ret (Some p) else Ret None
  end.

(** The loop over the application signatures: each row is unpacked
    into five names (ValueError for any other width), then its
    pattern is tried. *)
Fixpoint app_match (host : string) (sigs : list (list SqlValue))
  : exc (option (SqlValue * string)) :=
  match sigs with
  | [] => Ret None
  | row :: rest =>
      match row with
      | [_; app; pat; _; _] =>
          match pattern_hit host pat with
          | Raise => Raise
          | Ret (Some p) => Ret (Some (app, p))
          | Ret None => app_match host rest
          end
      | _ => Raise
      end
  end.

Inductive DropReason :=
| BlockedIPHit
| QUIC
| DoH
| BlockedDomain (d : string)
| AppBlock (app : SqlValue).

(** What happens to a captured packet: it is dropped ([continue]
    without [send]), handed to [w.send], or its processing raised
    (the handler logs and the loop goes on without sending it). *)
Inductive Verdict :=
| Drop (why : DropReason)
| Reinject
| Failed.

Definition count_blocked (self : FirewallThread) (now : Z) (ip : string)
  : FirewallThread :=
  let n := default 0 (_blocked_counters self !! ip) in
  let self := set_counters (<[ip := S n]> (_blocked_counters self)) self in
  let t := timers self in
  if (now - _last_blocked_flush t >=? 1000)%Z then
    set_timers {| _last_reload := _last_reload t;
                  _last_blocked_flush := now;
                  _last_blocked_ips_cleanup := _last_blocked_ips_cleanup t;
                  _last_app_reload := _last_app_reload t;
                  _last_domain_ip_resolve := _last_domain_ip_resolve t |}
      (set_counters ∅ self)
  else self.

Definition temp_block_dst (self : FirewallThread) (w : World) (now : Z)
    (dst_ip tag : string) : FirewallThread * World :=
  if String.eqb dst_ip EmptyString then (self, w)
  else _add_temporary_block_ip self w now dst_ip tag TEMP_BLOCK_TTL_SECONDS.

(** The application stage and the final re-injection. *)
Definition app_stage (self : FirewallThread) (w : World) (now : Z)
    (dst_ip : string) (host : option string)
  : Verdict * FirewallThread * World :=
  match (if truthy host
         then app_match (default EmptyString host) (app_signatures self)
         else Ret None) with
  | Raise => (Failed, self, w)
  | Ret (Some (app, p)) =>
      let '(self', w') := temp_block_dst self w now dst_ip p in
      (Drop (AppBlock app), self', w')
  | Ret None => (Reinject, self, w)
  end.

(** Step 2: [is_udp and dst_port == 443].  The comparison of
    [is_udp] does not raise, so its textual fallback is never
    reached. *)
Definition is_quic (pkt : Packet) : bool :=
  let is_udp := match protocol pkt with
                | Some a => eq_Protocol_UDP a
                | None => false
                end in
  is_udp && bool_decide (dst_port pkt = Some 443%Z).

Definition has_doh_fragment (payload : list byte) : bool :=
  existsb (fun fragment => bytes_contains fragment (bytes_lower payload))
    DOH_HOST_FRAGMENTS.

(** The body of the loop from [recv] on, for one packet. *)
Definition process_packet (self : FirewallThread) (w : World) (now : Z)
    (pkt : Packet) : Verdict * FirewallThread * World :=
  let dst_ip := default EmptyString (dst_addr pkt) in
  (* 1) fast IP-level block *)
  if negb (String.eqb dst_ip EmptyString)
     && bool_decide (dst_ip ∈ blocked_ips self)
  then (Drop BlockedIPHit, count_blocked self now dst_ip, w)
  (* 2) QUIC (UDP/443) *)
  else if is_quic pkt then (Drop QUIC, self, w)
  else
    (* 3) host, 4) domain hit with its fallback scan *)
    let payload := default [] (payload pkt) in
    let host := find_host payload in
    let domain_hit := find_domain_hit host payload (domains self) in
    (* 5) DoH fragments *)
    if has_doh_fragment payload then (Drop DoH, self, w)
    else
      match domain_hit with
      | Some d =>
          if truthy domain_hit then
            let '(self', w') := temp_block_dst self w now dst_ip d in
            (Drop (BlockedDomain d), self', w')
          else app_stage self w now dst_ip host
      | None => app_stage self w now dst_ip host
      end.

(** *** The loop of [run] *)

(** What one turn of the loop meets: the clock, whether the database
    can be opened (and, when it cannot, whether its directory is
    missing), whether another thread has set the reload event since
    the last turn, and the packet that [recv] returns, if any. *)
Record Turn := {
  now : Z;
  db_online : bool;
  db_directory_missing : bool;
  reload_signal : bool;
  received : option Packet
}.

Definition meet (i : Turn) (w : World) : World :=
  {| tbl_blocked_domains := tbl_blocked_domains w;
     tbl_blocked_ips := tbl_blocked_ips w;
     tbl_app_signatures := tbl_app_signatures w;
     online := db_online i;
     directory_missing := db_directory_missing i;
     domain_update_event := domain_update_event w || reload_signal i |}.

Definition stamp_reload (t : Z) (tm : Timers) : Timers :=
  {| _last_reload := t;
     _last_blocked_flush := _last_blocked_flush tm;
     _last_blocked_ips_cleanup := _last_blocked_ips_cleanup tm;
     _last_app_reload := _last_app_reload tm;
     _last_domain_ip_resolve := _last_domain_ip_resolve tm |}.

Definition stamp_cleanup (t : Z) (tm : Timers) : Timers :=
  {| _last_reload := _last_reload tm;
     _last_blocked_flush := _last_blocked_flush tm;
     _last_blocked_ips_cleanup := t;
     _last_app_reload := _last_app_reload tm;
     _last_domain_ip_resolve := _last_domain_ip_resolve tm |}.

Definition stamp_app_reload (t : Z) (tm : Timers) : Timers :=
  {| _last_reload := _last_reload tm;
     _last_blocked_flush := _last_blocked_flush tm;
     _last_blocked_ips_cleanup := _last_blocked_ips_cleanup tm;
     _last_app_reload := t;
     _last_domain_ip_resolve := _last_domain_ip_resolve tm |}.

Definition stamp_resolve (t : Z) (tm : Timers) : Timers :=
  {| _last_reload := _last_reload tm;
     _last_blocked_flush := _last_blocked_flush tm;
     _last_blocked_ips_cleanup := _last_blocked_ips_cleanup tm;
     _last_app_reload := _last_app_reload tm;
     _last_domain_ip_resolve := t |}.

(** Reload on the event or every 3 s. *)
Definition maintain_reload (t : Z) (sw : FirewallThread * World)
  : FirewallThread * World :=
  let '(self, w) := sw in
  if domain_update_event w || (t - _last_reload (timers self) >? 3000)%Z then
    let self := _reload_lists self w in
    (set_timers (stamp_reload t (timers self)) self, with_event false w)
  else (self, w).

(** Sweep of expired rows every 60 s. *)
Definition maintain_cleanup (t : Z) (sw : FirewallThread * World)
  : FirewallThread * World :=
  let '(self, w) := sw in
  if (t - _last_blocked_ips_cleanup (timers self) >? 60000)%Z then
    let '(self, w) := _cleanup_expired_blocked_ips self w t in
    (set_timers (stamp_cleanup t (timers self)) self, w)
  else (self, w).

(** Reload of the application signatures every 60 s; a failure
    keeps the old list. *)
Definition maintain_signatures (t : Z) (sw : FirewallThread * World)
  : FirewallThread * World :=
  let '(self, w) := sw in
  if (t - _last_app_reload (timers self) >? 60000)%Z then
    let self := match get_all_signatures w with
                | Ret sigs => set_app_signatures sigs self
                | Raise => self
                end in
    (set_timers (stamp_app_reload t (timers self)) self, w)
  else (self, w).

(** Re-resolution of every blocked domain every 300 s: each address
    becomes a temporary row. *)
Definition resolve_all (t : Z) (sw : FirewallThread * World)
  : FirewallThread * World :=
  foldl (fun sw d =>
           foldl (fun sw ip =>
                    _add_temporary_block_ip sw.1 sw.2 t ip d
                      TEMP_BLOCK_TTL_SECONDS)
                 sw (resolve_domain_to_ips getaddrinfo d))
        sw (domains sw.1).

Definition maintain_resolve (t : Z) (sw : FirewallThread * World)
  : FirewallThread * World :=
  let '(self, w) := sw in
  if (t - _last_domain_ip_resolve (timers self) >? 300000)%Z then
    let '(self, w) := resolve_all t (self, w) in
    (set_timers (stamp_resolve t (timers self)) self, w)
  else (self, w).

(** One turn of [while not self._stop_event.is_set()]: the four
    maintenance steps, then the packet, if one was received. *)
Definition run_turn (sw : FirewallThread * World) (i : Turn)
  : option (Packet * Verdict) * (FirewallThread * World) :=
  let t := now i in
  let sw := (sw.1, meet i sw.2) in
  let sw := maintain_resolve t
              (maintain_signatures t (maintain_cleanup t (maintain_reload t sw))) in
  match received i with
  | None => (None, sw)
  | Some pkt =>
      let '(v, self, w) := process_packet sw.1 sw.2 t pkt in
      (Some (pkt, v), (self, w))
  end.

(** The loop over a sequence of turns, with the packets it handled
    and what became of each. *)
Fixpoint run_loop (sw : FirewallThread * World) (turns : list Turn)
  : list (Packet * Verdict) * (FirewallThread * World) :=
  match turns with
  | [] => ([], sw)
  | i :: rest =>
      let '(o, sw') := run_turn sw i in
      let '(log, sw'') := run_loop sw' rest in
      (match o with Some e => e :: log | None => log end, sw'')
  end.

(** The packets handed to [w.send]. *)
Definition is_reinject (v : Verdict) : bool :=
  match v with Reinject => true | _ => false end.

Definition reinjected (log : list (Packet * Verdict)) : list Packet :=
  map fst (List.filter (fun e => is_reinject e.2) log).

(** [run], from the initial load on: the lists are read once, the
    reload clock is set, then the loop takes its turns.  [t0] is the
    clock at the initial load, which is not under a [try]: the
    exception of a reader ends the thread before it captures
    anything. *)
Definition run (self : FirewallThread) (w : World) (t0 : Z)
    (turns : list Turn)
  : exc (list (Packet * Verdict) * (FirewallThread * World)) :=
  let* ds := reload_blocked_domains w in
  let* ips := get_blocked_ips w in
  let self := set_lists ds ips self in
  let self := set_timers (stamp_reload t0 (timers self)) self in
  Ret (run_loop (self, w) turns).

End Engine.

(** A step of the thread spares the address [c] when it keeps the
    critical set and leaves no row for [c] that was not there before. *)
Definition spares (c : string) (before after : FirewallThread * World) : Prop :=
  _critical_ips after.1 = _critical_ips before.1
  /\ forall row, tbl_blocked_ips after.2 !! c = Some row ->
                 tbl_blocked_ips before.2 !! c = Some row.

End Firewall.

(** ** ui/tabs/network_control_tab.py: the domain normalizer *)

Module NetworkControl.
Import Py.

(** [sub in s] *)
Fixpoint contains (sub s : string) : bool :=
  startswith s sub
  || match s with
     | EmptyString => false
     | String _ s' => contains sub s'
     end.

(** [s.strip(chars)] *)
Definition strip_chars (chars s : string) : string :=
  rstrip chars (lstrip chars s).

(** [if sep in s: s = s.split(sep, 1)[0]] *)
Definition cut_at (sep s : string) : exc string :=
  if contains sep s then index (split_max sep 1 s) 0 else Ret s.

(** [_normalize_domain(raw)]; [Raise] stands for an IndexError leaving
    the function. *)
Definition _normalize_domain (raw : string) : exc (option string) :=
  if String.eqb raw EmptyString then Ret None
  else
    let s := lower (strip raw) in
    let* s := (if startswith s "http://" || startswith s "https://"
               then index (split_max "://" 1 s) 1
               else Ret s) in
    let* s := cut_at "/" s in
    let* s := cut_at "?" s in
    let* s := cut_at "#" s in
    let* s := cut_at ":" s in
    let s := strip_chars "." (strip s) in
    if String.eqb s EmptyString || contains " " s || negb (contains "." s)
    then Ret None
    else Ret (Some s).

End NetworkControl.

(** ** Concrete inputs for the examples *)

Module Samples.
Import Py Security Install DNSProxy Firewall.

(** A stand-in for PBKDF2 that keeps its inputs visible. *)
Definition toy_kdf (password salt : list byte) (iterations : Z) : list byte :=
  (password ++ salt)%list.

Definition salt_a : list byte := repeat Byte.x00 16.
Definition salt_b : list byte := repeat Byte.x01 16.

(** A machine before its first run: no marker, no user, the
    credential module not yet imported. *)
Definition first_run : Host :=
  {| marker_file := None; users := ∅; security_imported := false |}.

Definition no_resolver : string -> option (list string) := fun _ => None.

(** A resolver that knows one name, [dns.google]. *)
Definition dns_google_resolver (d : string) : option (list string) :=
  if String.eqb d "dns.google" then Some ["8.8.8.8"; "8.8.4.4"] else None.

Definition no_fnmatch : string -> string -> bool := fun _ _ => false.

Definition world_dns_google : World :=
  {| tbl_blocked_domains := ["dns.google"];
     tbl_blocked_ips := ∅;
     tbl_app_signatures := [];
     online := true;
     directory_missing := false;
     domain_update_event := false |}.

Definition temp_row : BlockedIP :=
  {| domain := Some "youtube.com";
     expires_at := Some 1700000300%Z;
     reason := Some "auto-temp" |}.

Definition world_with_temp_row : World :=
  {| tbl_blocked_domains := [];
     tbl_blocked_ips := {["142.250.190.14" := temp_row]};
     tbl_app_signatures := [];
     online := true;
     directory_missing := false;
     domain_update_event := false |}.

Definition world_facebook : World :=
  {| tbl_blocked_domains := ["facebook.com"];
     tbl_blocked_ips := {["157.240.1.35" := null_row]};
     tbl_app_signatures := [];
     online := true;
     directory_missing := false;
     domain_update_event := false |}.

(** A filter thread that has loaded [world_facebook]. *)
Definition thread_facebook : FirewallThread :=
  {| domains := ["facebook.com"];
     blocked_ips := {["157.240.1.35"]};
     app_signatures := [];
     _critical_ips := critical_ips (Some "192.168.137.1");
     _blocked_counters := ∅;
     timers := {| _last_reload := 0; _last_blocked_flush := 0;
                  _last_blocked_ips_cleanup := 0; _last_app_reload := 0;
                  _last_domain_ip_resolve := 0 |} |}.

(** An HTTP request to a host that is not blocked, with a blocked
    name in its query string. *)
Definition http_share_request : list byte :=
  b ("GET /share?u=facebook.com HTTP/1.1" ++ CRLF
     ++ "Host: example.org" ++ CRLF ++ CRLF).

Definition pkt_share : Packet :=
  {| dst_addr := Some "93.184.216.34"; dst_port := Some 80%Z;
     protocol := Some (ProtocolPair (Some TCP) 20);
     payload := Some http_share_request |}.

(** An HTTP/3 datagram to an address that is not blocked, as
    pydivert hands it over: its protocol attribute is the pair of UDP
    and the offset of the UDP header. *)
Definition pkt_quic : Packet :=
  {| dst_addr := Some "93.184.216.34"; dst_port := Some 443%Z;
     protocol := Some (ProtocolPair (Some UDP) 20);
     payload := Some (b "quic") |}.

(** A turn in which the database cannot be read and a reload was
    requested, then a turn that receives the HTTP/3 datagram. *)
Definition turns_failed_reload : list Turn :=
  [ {| now := 10000; db_online := false; db_directory_missing := false;
       reload_signal := true; received := None |};
    {| now := 10500; db_online := false; db_directory_missing := false;
       reload_signal := false; received := Some pkt_quic |} ].

(** A DNS query for [www.facebook.com] with id 0x1234, and a question
    parser that knows it. *)
Definition query_header : list byte :=
  [Byte.x12; Byte.x34; Byte.x01; Byte.x00; Byte.x00; Byte.x01;
   Byte.x00; Byte.x00; Byte.x00; Byte.x00; Byte.x00; Byte.x00].

Definition parse_www_facebook (data : list byte) : option string :=
  Some "www.facebook.com.".

Definition query_request : DNSRecord :=
  {| header := {| DNSProxy.id := 4660; bitmap := 256; q := 1; a := 0;
                  auth := 0; ar := 0 |};
     q_qname := "www.facebook.com." |}.

Definition no_upstream (data : list byte) : option (list byte) := None.

(** [world_facebook] while its database cannot be opened. *)
Definition world_offline : World :=
  {| tbl_blocked_domains := ["facebook.com"];
     tbl_blocked_ips := {["157.240.1.35" := null_row]};
     tbl_app_signatures := [];
     online := false;
     directory_missing := false;
     domain_update_event := true |}.

(** [world_facebook] while the directory of its database is missing
    and cannot be made. *)
Definition world_no_directory : World :=
  {| tbl_blocked_domains := ["facebook.com"];
     tbl_blocked_ips := {["157.240.1.35" := null_row]};
     tbl_app_signatures := [];
     online := false;
     directory_missing := true;
     domain_update_event := true |}.

(** A DNS-over-HTTPS request to an address that is not blocked. *)
Definition pkt_doh : Packet :=
  {| dst_addr := Some "93.184.216.34"; dst_port := Some 443%Z;
     protocol := Some (ProtocolPair (Some TCP) 20);
     payload := Some (b ("POST /dns-query HTTP/1.1" ++ CRLF
                         ++ "Host: dns.google" ++ CRLF ++ CRLF)) |}.

(** A turn in which the database cannot be read and a reload was
    requested, then a turn that receives the DNS-over-HTTPS
    request. *)
Definition turns_failed_reload_doh : list Turn :=
  [ {| now := 10000; db_online := false; db_directory_missing := false;
       reload_signal := true; received := None |};
    {| now := 10500; db_online := false; db_directory_missing := false;
       reload_signal := false; received := Some pkt_doh |} ].

Definition bytes_of_nats (l : list nat) : list byte :=
  map (fun n => byte_of_ascii (ascii_of_nat n)) l.

(** The fixed start of a ClientHello: record header, handshake
    header, version and 32 random bytes; then an empty session id,
    one cipher suite and one compression method. *)
Definition client_hello_prefix : list byte :=
  (bytes_of_nats [22; 3; 1; 0; 0;  1; 0; 0; 0;  3; 3]
   ++ repeat Byte.x07 32
   ++ bytes_of_nats [0;  0; 2; 19; 1;  1; 0])%list.

(** A ClientHello with the server name [Video.YouTube.com]. *)
Definition client_hello_youtube : list byte :=
  (client_hello_prefix
   ++ bytes_of_nats [0; 26;  0; 0; 0; 22;  0; 20;  0; 0; 17]
   ++ b "Video.YouTube.com")%list.

(** A ClientHello whose server-name list claims 200 bytes but holds
    one four-byte entry of another type. *)
Definition client_hello_overrun : list byte :=
  (client_hello_prefix
   ++ bytes_of_nats [0; 10;  0; 0; 0; 6;  0; 200;  1; 0; 1; 65])%list.

(** A ClientHello whose extension block claims more than is there. *)
Definition client_hello_short : list byte :=
  (client_hello_prefix ++ bytes_of_nats [1; 0;  0; 0; 0; 6])%list.

End Samples.

(** ** Further inputs *)

Module MoreSamples.
Import Py Security Install DNSProxy Firewall Samples.

(** A users table with one administrator, [root]. *)
Definition users_root : gmap string User :=
  {["root" := {| password := "150000$00$00"; role := "admin" |}]}.

(** A users table whose [admin] is an ordinary user. *)
Definition users_plain_admin : gmap string User :=
  {["admin" := {| password := "150000$00$00"; role := "user" |}]}.

(** A machine before its first run whose users database already has
    the administrator [root]. *)
Definition first_run_with_root : Host :=
  {| marker_file := None; users := users_root; security_imported := false |}.

(** A turn with the database available, no reload request and no
    packet. *)
Definition turn_idle : Turn :=
  {| now := 10000; db_online := true; db_directory_missing := false;
     reload_signal := false; received := None |}.

(** A database with one application signature, and a filter thread
    that has loaded it. *)
Definition signature_tiktok : AppSignature :=
  {| sig_id := 1; app_name := "TikTok"; pattern := Some "*.tiktok.com";
     ip_range := None; sig_protocol := None; domain_pattern := None |}.

Definition world_signature : World :=
  {| tbl_blocked_domains := [];
     tbl_blocked_ips := ∅;
     tbl_app_signatures := [signature_tiktok];
     online := true;
     directory_missing := false;
     domain_update_event := false |}.

Definition thread_signature : FirewallThread :=
  {| domains := [];
     blocked_ips := ∅;
     app_signatures := [signature_row signature_tiktok];
     _critical_ips := critical_ips None;
     _blocked_counters := ∅;
     timers := {| _last_reload := 0; _last_blocked_flush := 0;
                  _last_blocked_ips_cleanup := 0; _last_app_reload := 0;
                  _last_domain_ip_resolve := 0 |} |}.

End MoreSamples.

(** ** Well-formed inputs: the layout of a TLS ClientHello

    The record that [extract_tls_sni] walks through, built from its
    parts (RFC 8446, 4.1.2 and RFC 6066, 3): used to state what the
    parser returns on a well-formed message. *)

Module ClientHello.
Import Py.

Local Open Scope nat_scope.

(** One byte and two bytes (big endian) for a number. *)
Definition u8 (n : nat) : list byte := [byte_of_ascii (ascii_of_nat n)].

Definition u16 (n : nat) : list byte :=
  [byte_of_ascii (ascii_of_nat (n / 256));
   byte_of_ascii (ascii_of_nat (n mod 256))].

Record Extension := { ext_type : nat; ext_data : list byte }.

Definition extension_bytes (e : Extension) : list byte :=
  (u16 (ext_type e) ++ u16 (length (ext_data e)) ++ ext_data e)%list.

Definition extension_block (exts : list Extension) : list byte :=
  concat (map extension_bytes exts).

(** The server_name extension (type 0) with one entry of type
    host_name (0). *)
Definition server_name (name : list byte) : Extension :=
  {| ext_type := 0;
     ext_data := (u16 (3 + length name) ++ u8 0 ++ u16 (length name)
                  ++ name)%list |}.

(** A handshake record holding a ClientHello: content type 22, four
    more bytes of record header, handshake type 1 and its three
    length bytes, version and random (34 bytes), then session id,
    cipher suites, compression methods and extensions, each behind
    its length. *)
Definition client_hello (record_rest handshake_len version_random
    sid cs comp : list byte) (exts : list Extension) : list byte :=
  ([Byte.x16] ++ record_rest ++ [Byte.x01] ++ handshake_len
   ++ version_random
   ++ u8 (length sid) ++ sid
   ++ u16 (length cs) ++ cs
   ++ u8 (length comp) ++ comp
   ++ u16 (length (extension_block exts)) ++ extension_block exts)%list.

End ClientHello.

(** * Properties *)

Set Default Proof Using "Type".

(** ** Strings and bytes *)

Section PyFacts.
Import Py.

Lemma lower_char_idem (c : ascii) : lower_char (lower_char c) = lower_char c.
Proof. destruct c as [[] [] [] [] [] [] [] []]; reflexivity. Qed.

Lemma lower_idem (s : string) : lower (lower s) = lower s.
Proof.
  induction s as [|c s IH]; simpl; [reflexivity|].
  by rewrite lower_char_idem, IH.
Qed.

Lemma string_app_cons (c : ascii) (s t : string) :
  String c s ++ t = String c (s ++ t).
Proof. reflexivity. Qed.

Lemma string_app_nil (t : string) : EmptyString ++ t = t.
Proof. reflexivity. Qed.

Lemma endswith_spec (s suffix : string) :
  endswith s suffix = true <-> exists pre, s = pre ++ suffix.
Proof.
  induction s as [|c s IH].
  - change (endswith EmptyString suffix)
      with (String.eqb EmptyString suffix || false).
    rewrite orb_false_r, String.eqb_eq. split.
    + intros <-. by exists EmptyString.
    + intros [[|x pre] H]; [done | discriminate].
  - change (endswith (String c s) suffix)
      with (String.eqb (String c s) suffix || endswith s suffix).
    rewrite orb_true_iff, String.eqb_eq, IH. split.
    + intros [<- | [pre ->]]; [by exists EmptyString | by exists (String c pre)].
    + intros [[|x pre] H]; [by left | right].
      rewrite string_app_cons in H. injection H as -> ->. by exists pre.
Qed.

Lemma string_app_empty (s : string) : s ++ EmptyString = s.
Proof.
  induction s as [|c s IH]; [reflexivity|].
  by rewrite string_app_cons, IH.
Qed.

Lemma rev_string_app (cur acc s : string) :
  rev_string acc cur ++ s = rev_string (acc ++ s) cur.
Proof.
  revert acc. induction cur as [|c cur IH]; intros acc; simpl; [reflexivity|].
  apply (IH (String c acc)).
Qed.

Lemma occurs_app x s t : occurs x (s ++ t) <-> occurs x s \/ occurs x t.
Proof.
  induction s as [|c s IH]; [rewrite string_app_nil; simpl; tauto|].
  rewrite string_app_cons. simpl. rewrite IH. tauto.
Qed.

(** Splitting at a one-character separator: a field without the
    separator is cut off at the first separator, ... *)
Lemma split_go_field (x : ascii) (s rest cur : string) :
  ~ occurs x s ->
  split_go (String x EmptyString) None 0 cur (s ++ String x rest)
  = (rev_string EmptyString cur ++ s)
      :: split_go (String x EmptyString) None 0 EmptyString rest.
Proof.
  revert cur. induction s as [|c s IH]; intros cur Hno.
  - rewrite string_app_nil, string_app_empty. simpl.
    by rewrite Ascii.eqb_refl.
  - simpl in Hno. rewrite string_app_cons. simpl.
    destruct (Ascii.eqb x c) eqn:E.
    + apply Ascii.eqb_eq in E. tauto.
    + simpl. rewrite IH by tauto. f_equal.
      rewrite !rev_string_app. reflexivity.
Qed.

(** ... and a last field without the separator is kept whole. *)
Lemma split_go_last (x : ascii) (s cur : string) :
  ~ occurs x s ->
  split_go (String x EmptyString) None 0 cur s
  = [rev_string EmptyString cur ++ s].
Proof.
  revert cur. induction s as [|c s IH]; intros cur Hno.
  - simpl. by rewrite string_app_empty.
  - simpl in Hno. simpl.
    destruct (Ascii.eqb x c) eqn:E.
    + apply Ascii.eqb_eq in E. tauto.
    + simpl. rewrite IH by tauto. f_equal.
      rewrite !rev_string_app. reflexivity.
Qed.

Lemma split_three (x : ascii) (s1 s2 s3 : string) :
  ~ occurs x s1 -> ~ occurs x s2 -> ~ occurs x s3 ->
  split (String x EmptyString) (s1 ++ String x (s2 ++ String x s3))
  = [s1; s2; s3].
Proof.
  intros H1 H2 H3. unfold split.
  rewrite split_go_field by done. rewrite split_go_field by done.
  rewrite split_go_last by done. reflexivity.
Qed.

Lemma lstrip_by_none (p : ascii -> bool) (s : string) :
  (forall c, occurs c s -> p c = false) -> lstrip_by p s = s.
Proof.
  destruct s as [|c s]; simpl; [done|].
  intros H. by rewrite (H c) by tauto.
Qed.

Lemma rstrip_by_none (p : ascii -> bool) (s : string) :
  (forall c, occurs c s -> p c = false) -> rstrip_by p s = s.
Proof.
  induction s as [|c s IH]; simpl; [done|].
  intros H. rewrite IH by (intros; apply H; tauto).
  rewrite (H c) by tauto. by destruct s.
Qed.

Lemma rstrip_by_idem (p : ascii -> bool) (s : string) :
  rstrip_by p (rstrip_by p s) = rstrip_by p s.
Proof.
  induction s as [|c s IH]; [reflexivity|].
  cbn [rstrip_by]. destruct (rstrip_by p s) as [|x r] eqn:E.
  - destruct (p c) eqn:Ec; [reflexivity|]. cbn [rstrip_by]. by rewrite Ec.
  - cbn [rstrip_by] in *. by rewrite IH.
Qed.

Lemma strip_none (s : string) :
  (forall c, occurs c s -> is_space c = false) -> strip s = s.
Proof.
  intros H. unfold strip. rewrite lstrip_by_none by done.
  by apply rstrip_by_none.
Qed.

Lemma byte_of_to_N (x : byte) : byte_of_ascii (ascii_of_N (Byte.to_N x)) = x.
Proof. destruct x; reflexivity. Qed.

End PyFacts.

(** ** Password hashing *)

Section SecurityFacts.
Import Py Security.

Lemma digit_val_plain (c : ascii) (d : N) :
  digit_val c = Some d ->
  Ascii.eqb c "_" = false /\ Ascii.eqb c "-" = false /\ Ascii.eqb c "+" = false
  /\ is_space c = false /\ c <> "$"%char.
Proof.
  destruct c as [[] [] [] [] [] [] [] []]; vm_compute; intros H;
    try discriminate H; repeat split; discriminate.
Qed.

Lemma digit_char_val (d : N) : (d < 10)%N -> digit_val (digit_char d) = Some d.
Proof.
  intros H.
  assert (d = 0 \/ d = 1 \/ d = 2 \/ d = 3 \/ d = 4 \/ d = 5 \/ d = 6
          \/ d = 7 \/ d = 8 \/ d = 9)%N as Hd by lia.
  repeat (destruct Hd as [-> | Hd]; [reflexivity|]). by subst.
Qed.

Lemma int_digits_digit (d : N) (s : string) (acc : N) (prev : bool) :
  (d < 10)%N ->
  int_digits (String (digit_char d) s) acc prev
  = int_digits s (10 * acc + d)%N true.
Proof.
  intros H. pose proof (digit_char_val d H) as Hv.
  destruct (digit_val_plain _ _ Hv) as (Hu & _).
  cbn [int_digits]. by rewrite Hu, Hv.
Qed.

Lemma digits_go_parse (fuel : nat) :
  forall (n : N) (acc : string) (prev : bool),
    (n < 2 ^ N.of_nat fuel)%N -> 1 <= fuel ->
    int_digits (digits_go fuel n acc) 0 prev = int_digits acc n true.
Proof.
  induction fuel as [|fuel IH]; intros n acc prev Hn Hf; [lia|].
  cbn [digits_go].
  destruct (n <? 10)%N eqn:E.
  - apply N.ltb_lt in E. rewrite N.mod_small by done.
    rewrite int_digits_digit by done. f_equal; lia.
  - apply N.ltb_ge in E.
    assert (n / 10 < 2 ^ N.of_nat fuel)%N as Hq.
    { rewrite Nat2N.inj_succ, N.pow_succ_r' in Hn.
      apply N.Div0.div_lt_upper_bound. lia. }
    assert (1 <= n / 10)%N as Hq1.
    { apply N.div_le_lower_bound; lia. }
    assert (1 <= fuel) as Hf'.
    { destruct fuel; [simpl in Hq; lia | lia]. }
    rewrite IH by done.
    rewrite int_digits_digit by (apply N.mod_lt; lia).
    f_equal. rewrite (N.div_mod n 10) at 3 by lia. lia.
Qed.

Lemma digits_go_chars (fuel : nat) :
  forall (n : N) (acc : string) (x : ascii),
    occurs x (digits_go fuel n acc) ->
    occurs x acc \/ exists d, digit_val x = Some d.
Proof.
  induction fuel as [|fuel IH]; intros n acc x H; [by left|].
  cbn [digits_go] in H.
  assert (digit_val (digit_char (n mod 10)) = Some (n mod 10)%N) as Hd
    by (apply digit_char_val, N.mod_lt; lia).
  destruct (n <? 10)%N.
  - destruct H as [-> | H]; [right; eauto | by left].
  - apply IH in H as [[-> | H] | H]; [right; eauto | by left | by right].
Qed.

Lemma digits_chars (n : N) (x : ascii) :
  occurs x (digits n) -> exists d, digit_val x = Some d.
Proof. intros H. by apply digits_go_chars in H as [[] | H]. Qed.

Lemma digits_parse (n : N) : int_digits (digits n) 0 false = Some n.
Proof.
  unfold digits. rewrite digits_go_parse; [reflexivity | | lia].
  rewrite Nat2N.inj_succ, N2Nat.id.
  destruct (decide (n = 0%N)) as [-> | Hn]; [reflexivity|].
  apply N.log2_spec. lia.
Qed.

Lemma int_digits_string (n : N) : int (digits n) = Ret (Z.of_N n).
Proof.
  unfold int. rewrite strip_none.
  2:{ intros c Hc. apply digits_chars in Hc as [d Hd].
      by apply digit_val_plain in Hd as (_ & _ & _ & ? & _). }
  pose proof (digits_parse n) as Hp.
  pose proof (digits_chars n) as Hc.
  destruct (digits n) as [|c r]; [discriminate Hp|].
  destruct (Hc c) as [d Hd]; [by left|].
  apply digit_val_plain in Hd as (_ & -> & -> & _).
  by rewrite Hp.
Qed.

Lemma int_str_of_int (z : Z) : (0 <= z)%Z -> int (str_of_int z) = Ret z.
Proof.
  intros H. unfold str_of_int.
  destruct (z <? 0)%Z eqn:E; [apply Z.ltb_lt in E; lia|].
  rewrite int_digits_string. f_equal. lia.
Qed.

Lemma str_of_int_no_dollar (z : Z) :
  (0 <= z)%Z -> ~ occurs "$"%char (str_of_int z).
Proof.
  intros H. unfold str_of_int.
  destruct (z <? 0)%Z eqn:E; [apply Z.ltb_lt in E; lia|].
  intros Hc. apply digits_chars in Hc as [d Hd].
  by apply digit_val_plain in Hd as (_ & _ & _ & _ & ?).
Qed.

Lemma fromhex_hex_byte (x : byte) (rest : string) :
  fromhex (String (hex_char (Byte.to_N x / 16))
             (String (hex_char (Byte.to_N x mod 16)) rest))
  = bind (fromhex rest) (fun r => Ret (x :: r)).
Proof. destruct x; reflexivity. Qed.

Lemma fromhex_hex (l : list byte) : fromhex (hex l) = Ret l.
Proof.
  induction l as [|x l IH]; [reflexivity|].
  cbn [hex]. by rewrite fromhex_hex_byte, IH.
Qed.

Lemma hex_no_dollar (l : list byte) : ~ occurs "$"%char (hex l).
Proof.
  induction l as [|x l IH]; [by intros []|].
  cbn [hex occurs]. intros [H | [H | H]]; [| | by apply IH].
  - by destruct x.
  - by destruct x.
Qed.

Lemma bytes_eqb_refl (l : list byte) : bytes_eqb l l = true.
Proof.
  induction l as [|x l IH]; [reflexivity|].
  cbn [bytes_eqb]. rewrite IH, andb_true_r. by destruct x.
Qed.

Lemma bytes_eqb_eq (x y : list byte) : bytes_eqb x y = true <-> x = y.
Proof.
  split; [|intros ->; apply bytes_eqb_refl].
  revert y. induction x as [|c x IH]; intros [|d y] H; try done.
  cbn [bytes_eqb] in H. apply andb_true_iff in H as [H1 H2].
  apply Byte.byte_dec_bl in H1. f_equal; [done | by apply IH].
Qed.

Variable pbkdf2_sha256 : list byte -> list byte -> Z -> list byte.

Lemma hex_length (l : list byte) : String.length (hex l) = 2 * length l.
Proof.
  induction l as [|x l IH]; [reflexivity|].
  cbn [hex String.length length]. rewrite IH. lia.
Qed.

(** Verifying against a well-formed stored string compares the
    stored key with the key derived from the candidate password. *)
Lemma verify_password_stored (salt dk : list byte) (iterations : Z)
    (candidate : string) :
  (1 <= iterations <= INT_MAX)%Z ->
  verify_password pbkdf2_sha256
    (str_of_int iterations ++ "$" ++ hex salt ++ "$" ++ hex dk) candidate
  = compare_digest dk (pbkdf2_sha256 (encode candidate) salt iterations).
Proof.
  intros Hit. unfold verify_password.
  assert (split "$" (str_of_int iterations ++ "$" ++ hex salt ++ "$" ++ hex dk)
          = [str_of_int iterations; hex salt; hex dk]) as ->.
  { apply (split_three "$"%char);
      [apply str_of_int_no_dollar; lia | apply hex_no_dollar..]. }
  rewrite int_str_of_int by lia. cbn [bind].
  rewrite !fromhex_hex. cbn [bind]. unfold pbkdf2_hmac.
  destruct (1 <=? iterations)%Z eqn:E1; [|apply Z.leb_gt in E1; lia].
  destruct (iterations <=? INT_MAX)%Z eqn:E2; [|apply Z.leb_gt in E2; lia].
  reflexivity.
Qed.

(** Hashing then verifying succeeds for every iteration count that
    PBKDF2 accepts. *)
Lemma verify_hash_password (salt : list byte) (p : string) (iterations : Z) :
  p <> EmptyString -> (1 <= iterations <= INT_MAX)%Z ->
  let dk := pbkdf2_sha256 (encode p) salt iterations in
  let stored := str_of_int iterations ++ "$" ++ hex salt ++ "$" ++ hex dk in
  hash_password pbkdf2_sha256 salt p iterations = Ret stored
  /\ split "$" stored = [str_of_int iterations; hex salt; hex dk]
  /\ verify_password pbkdf2_sha256 stored p = true.
Proof.
  intros Hp Hit dk stored.
  assert (pbkdf2_hmac pbkdf2_sha256 (encode p) salt iterations = Ret dk) as Hk.
  { unfold pbkdf2_hmac.
    destruct (1 <=? iterations)%Z eqn:E1; [|apply Z.leb_gt in E1; lia].
    destruct (iterations <=? INT_MAX)%Z eqn:E2; [|apply Z.leb_gt in E2; lia].
    reflexivity. }
  assert (split "$" stored = [str_of_int iterations; hex salt; hex dk]) as Hs.
  { apply (split_three "$"%char);
      [apply str_of_int_no_dollar; lia | apply hex_no_dollar..]. }
  split; [|split; [done|]].
  - unfold hash_password.
    destruct (String.eqb p EmptyString) eqn:E;
      [by apply String.eqb_eq in E|].
    by rewrite Hk.
  - unfold verify_password. rewrite Hs.
    rewrite int_str_of_int by lia. cbn [bind].
    rewrite !fromhex_hex. cbn [bind]. rewrite Hk. cbn [bind catch].
    apply bytes_eqb_refl.
Qed.

End SecurityFacts.

(** ** The DNS proxy *)

Section DNSFacts.
Import Py DNSProxy.

Lemma domain_matches_spec (qname d : string) :
  domain_matches qname d = true <->
  d <> EmptyString
  /\ (qname = lstrip "*." (lower d)
      \/ exists pre, qname = pre ++ "." ++ lstrip "*." (lower d)).
Proof.
  unfold domain_matches.
  rewrite andb_true_iff, negb_true_iff, String.eqb_neq.
  rewrite orb_true_iff, String.eqb_eq, endswith_spec. reflexivity.
Qed.

Lemma is_blocked_spec (cache : gset string) (qname : string) :
  _is_blocked cache qname = true <->
  exists d, d ∈ cache /\ domain_matches (lower (rstrip "." qname)) d = true.
Proof.
  unfold _is_blocked. rewrite existsb_exists. split.
  - intros (d & Hin & Hm). exists d. split; [|done].
    by apply elem_of_elements, list_elem_of_In.
  - intros (d & Hin & Hm). exists d. split; [|done].
    by apply list_elem_of_In, elem_of_elements.
Qed.

Lemma to_N_below_256 (x : byte) : (0 <= Z.of_N (Byte.to_N x) < 256)%Z.
Proof. pose proof (Byte.to_N_bounded x). lia. Qed.

Lemma byte_of_Z_to_N (x : byte) : byte_of_Z (Z.of_N (Byte.to_N x)) = x.
Proof.
  unfold byte_of_Z. rewrite Z.mod_small by apply to_N_below_256.
  rewrite N2Z.id. apply byte_of_to_N.
Qed.

(** Packing what was unpacked gives the two bytes back. *)
Lemma pack_H_unpack (hi lo : byte) : pack_H (unpack_HZ hi lo) = [hi; lo].
Proof.
  unfold pack_H, unpack_HZ.
  pose proof (to_N_below_256 hi) as Hh. pose proof (to_N_below_256 lo) as Hl.
  set (h := Z.of_N (Byte.to_N hi)) in *. set (l := Z.of_N (Byte.to_N lo)) in *.
  assert ((256 * h + l) / 256 = h)%Z as ->.
  { rewrite Z.mul_comm, Z.div_add_l by lia. rewrite Z.div_small by lia. lia. }
  assert (byte_of_Z (256 * h + l) = byte_of_Z l) as ->.
  { unfold byte_of_Z. do 3 f_equal.
    rewrite Z.add_comm, Z.mul_comm. apply Z.mod_add. lia. }
  subst h l. by rewrite !byte_of_Z_to_N.
Qed.

Lemma DNSHeader_parse_id (data : list byte) (h : DNSHeader) :
  DNSHeader_parse data = Some h -> exists hi lo, id h = unpack_HZ hi lo.
Proof.
  unfold DNSHeader_parse. intros H.
  do 12 (destruct data as [|? data]; [discriminate H|]).
  injection H as <-. eauto.
Qed.

(** The NXDOMAIN reply on the wire, read back. *)
Lemma nxdomain_reply_parse (hi lo : byte) :
  let reply := DNSRecord_pack_header_only
                 (DNSHeader_new (unpack_HZ hi lo) 1 1 1 NXDOMAIN) in
  length reply = 12
  /\ exists h, DNSHeader_parse reply = Some h
     /\ id h = unpack_HZ hi lo
     /\ get_qr h = 1%Z /\ get_aa h = 1%Z /\ get_ra h = 1%Z
     /\ get_rcode h = NXDOMAIN
     /\ q h = 0%Z /\ a h = 0%Z /\ auth h = 0%Z /\ ar h = 0%Z.
Proof.
  intros reply. subst reply.
  unfold DNSRecord_pack_header_only, DNSHeader_pack.
  cbn [id DNSHeader_new]. rewrite pack_H_unpack.
  split; [reflexivity|].
  eexists. split; [reflexivity|]. repeat split; reflexivity.
Qed.

End DNSFacts.

(** ** Host extraction *)

Section ExtractionFacts.
Import Py Firewall.

Variable decode_utf8_ignore : list byte -> string.

Lemma byte_at_in_range (payload : list byte) (i v : nat) :
  byte_at payload i = Ret v -> i < length payload.
Proof.
  unfold byte_at, index. destruct (payload !! i) eqn:E; [|discriminate].
  intros _. by apply lookup_lt_Some in E.
Qed.

Lemma unpack_H_in_range (payload : list byte) (lo v : nat) :
  unpack_H (slice payload lo (lo + 2)) = Ret v -> lo + 2 <= length payload.
Proof.
  unfold unpack_H, slice. intros H.
  assert (length (take (lo + 2 - lo) (drop lo payload)) = 2) as Hlen.
  { destruct (take _ _) as [|? [|? [|? ?]]]; try discriminate H. reflexivity. }
  rewrite length_take, length_drop in Hlen. lia.
Qed.

(** Reads behind the end raise, so both loops stop within the fuel
    they are given. *)
Lemma sn_loop_terminates (payload : list byte) (sn_end : nat) (fuel : nat) :
  forall offset, 1 <= fuel -> length payload < offset + fuel ->
    exists r, sn_loop decode_utf8_ignore fuel payload offset sn_end = Some r.
Proof.
  induction fuel as [|fuel IH]; intros offset H1 Hf; [lia|].
  cbn [sn_loop].
  destruct (offset + 3 <=? sn_end)%nat; [|eauto].
  destruct (byte_at payload offset) as [name_type|] eqn:E1; [|simpl; eauto].
  apply byte_at_in_range in E1.
  destruct (unpack_H _) as [name_len|]; [|simpl; eauto].
  cbn [and_then].
  destruct (sn_end <? _)%nat; [eauto|].
  destruct (name_type =? 0)%nat.
  - destruct (index _ 0); simpl; eauto.
  - apply IH; lia.
Qed.

Lemma ext_loop_terminates (payload : list byte) (end_ext : nat) (fuel : nat) :
  forall offset, 1 <= fuel -> length payload < offset + fuel ->
    exists r, ext_loop decode_utf8_ignore fuel payload offset end_ext = Some r.
Proof.
  induction fuel as [|fuel IH]; intros offset H1 Hf; [lia|].
  cbn [ext_loop].
  destruct (offset + 4 <=? end_ext)%nat; [|eauto].
  destruct (unpack_H (slice payload offset (offset + 2))) as [ext_type|] eqn:E1;
    [|simpl; eauto].
  apply unpack_H_in_range in E1.
  destruct (unpack_H _) as [ext_size|]; [|simpl; eauto].
  cbn [and_then].
  destruct (ext_type =? 0)%nat.
  - destruct (end_ext <? _)%nat; [eauto|].
    destruct (unpack_H _) as [sn_list_len|]; [|simpl; eauto].
    cbn [and_then]. apply sn_loop_terminates; lia.
  - apply IH; lia.
Qed.

(** One step through the straight-line part of the TLS parser: a
    guarded read either raises or goes on, a length check either
    returns or goes on; [tac] closes the branch that stops. *)
Ltac parser_step tac :=
  match goal with
  | |- context [and_then ?m _] => destruct m; cbn [and_then]; [|tac]
  | |- context [if ?c then Some (Ret None) else _] => destruct c; [tac|]
  end.

Lemma extract_tls_sni_body_terminates (payload : list byte) :
  exists r, extract_tls_sni_body decode_utf8_ignore payload = Some r.
Proof.
  unfold extract_tls_sni_body.
  repeat parser_step ltac:(by eauto).
  apply ext_loop_terminates; lia.
Qed.

(** What the loops return is a lowercased name. *)
Lemma sn_loop_lower (payload : list byte) (sn_end : nat) (fuel : nat) :
  forall offset h,
    sn_loop decode_utf8_ignore fuel payload offset sn_end = Some (Ret (Some h)) ->
    lower h = h.
Proof.
  induction fuel as [|fuel IH]; intros offset h H; [discriminate H|].
  cbn [sn_loop] in H.
  destruct (offset + 3 <=? sn_end)%nat; [|discriminate H].
  destruct (byte_at payload offset) as [name_type|]; [|discriminate H].
  destruct (unpack_H _) as [name_len|]; [|discriminate H].
  cbn [and_then] in H.
  destruct (sn_end <? _)%nat; [discriminate H|].
  destruct (name_type =? 0)%nat.
  - destruct (index _ 0) as [x|]; [|discriminate H].
    cbn [and_then] in H. injection H as <-. apply lower_idem.
  - by apply IH in H.
Qed.

Lemma ext_loop_lower (payload : list byte) (end_ext : nat) (fuel : nat) :
  forall offset h,
    ext_loop decode_utf8_ignore fuel payload offset end_ext = Some (Ret (Some h)) ->
    lower h = h.
Proof.
  induction fuel as [|fuel IH]; intros offset h H; [discriminate H|].
  cbn [ext_loop] in H.
  destruct (offset + 4 <=? end_ext)%nat; [|discriminate H].
  destruct (unpack_H (slice payload offset (offset + 2))) as [ext_type|];
    [|discriminate H].
  destruct (unpack_H _) as [ext_size|]; [|discriminate H].
  cbn [and_then] in H.
  destruct (ext_type =? 0)%nat.
  - destruct (end_ext <? _)%nat; [discriminate H|].
    destruct (unpack_H _) as [sn_list_len|]; [|discriminate H].
    cbn [and_then] in H. by apply sn_loop_lower in H.
  - by apply IH in H.
Qed.

Lemma extract_tls_sni_lower (payload : list byte) (h : string) :
  extract_tls_sni decode_utf8_ignore payload = Some h -> lower h = h.
Proof.
  unfold extract_tls_sni.
  destruct (extract_tls_sni_body _ _) as [[[x|]|]|] eqn:E; cbn [catch];
    try discriminate.
  intros [= ->]. revert E. unfold extract_tls_sni_body.
  repeat parser_step ltac:(discriminate).
  apply ext_loop_lower.
Qed.

Lemma host_of_lines_lower (lines : list string) (h : string) :
  host_of_lines lines = Ret (Some h) -> lower h = h.
Proof.
  induction lines as [|line rest IH]; [discriminate|].
  cbn [host_of_lines].
  destruct (startswith _ _); [|done].
  destruct (index _ 1) as [v|]; [|discriminate]. cbn [bind].
  destruct (index _ 0) as [x|]; [|discriminate]. cbn [bind].
  intros [= <-]. apply lower_idem.
Qed.

Lemma extract_http_host_lower (payload : list byte) (h : string) :
  extract_http_host payload = Some h -> lower h = h.
Proof.
  unfold extract_http_host, extract_http_host_body.
  destruct payload as [|x payload]; [discriminate|].
  destruct (negb _); [discriminate|].
  destruct (host_of_lines _) as [[y|]|] eqn:E; cbn [catch]; try discriminate.
  intros [= ->]. by apply host_of_lines_lower in E.
Qed.

End ExtractionFacts.

(** ** The blocklist store *)

Section StoreFacts.
Import Py Firewall.

(** On an available database [os.makedirs] succeeds and the readers
    return what the tables hold. *)
Lemma makedirs_online (w : World) : online w = true -> makedirs w = Ret tt.
Proof. unfold makedirs. by intros ->. Qed.

Lemma reload_blocked_domains_online (w : World) :
  online w = true ->
  reload_blocked_domains w = Ret (map lower (tbl_blocked_domains w)).
Proof.
  intros H. unfold reload_blocked_domains.
  rewrite makedirs_online by done. cbn [bind]. by rewrite H.
Qed.

Lemma get_blocked_ips_online (w : World) :
  online w = true -> get_blocked_ips w = Ret (dom (tbl_blocked_ips w)).
Proof.
  intros H. unfold get_blocked_ips.
  rewrite makedirs_online by done. cbn [bind]. by rewrite H.
Qed.

Lemma refresh_blocked_ips_online (self : FirewallThread) (w : World) :
  online w = true ->
  refresh_blocked_ips self w = set_blocked_ips (dom (tbl_blocked_ips w)) self.
Proof.
  intros H. unfold refresh_blocked_ips. by rewrite get_blocked_ips_online.
Qed.

Lemma reload_lists_online (self : FirewallThread) (w : World) :
  online w = true ->
  _reload_lists self w
  = set_lists (map lower (tbl_blocked_domains w)) (dom (tbl_blocked_ips w))
      self.
Proof.
  intros H. unfold _reload_lists.
  by rewrite reload_blocked_domains_online, get_blocked_ips_online.
Qed.

(** A refresh of the in-memory set touches nothing else. *)
Lemma refresh_blocked_ips_frame (self : FirewallThread) (w : World) :
  domains (refresh_blocked_ips self w) = domains self
  /\ app_signatures (refresh_blocked_ips self w) = app_signatures self
  /\ _critical_ips (refresh_blocked_ips self w) = _critical_ips self
  /\ _blocked_counters (refresh_blocked_ips self w) = _blocked_counters self
  /\ timers (refresh_blocked_ips self w) = timers self.
Proof. unfold refresh_blocked_ips. by destruct (get_blocked_ips w). Qed.

Lemma reload_lists_frame (self : FirewallThread) (w : World) :
  app_signatures (_reload_lists self w) = app_signatures self
  /\ _critical_ips (_reload_lists self w) = _critical_ips self
  /\ _blocked_counters (_reload_lists self w) = _blocked_counters self
  /\ timers (_reload_lists self w) = timers self.
Proof.
  unfold _reload_lists. destruct (reload_blocked_domains w); [|done].
  by destruct (get_blocked_ips w).
Qed.

Lemma foldl_add_elem_of (l : list string) (acc : gset string) (x : string) :
  x ∈ foldl (fun acc ip => {[ip]} ∪ acc) acc l <-> x ∈ acc \/ x ∈ l.
Proof.
  revert acc. induction l as [|y l IH]; intros acc; cbn [foldl].
  - rewrite elem_of_nil. tauto.
  - rewrite IH, elem_of_union, elem_of_singleton, elem_of_cons. tauto.
Qed.

Lemma foldl_insert_or_ignore_lookup (l : list string)
    (t : gmap string BlockedIP) (ip : string) :
  foldl insert_or_ignore t l !! ip
  = match t !! ip with
    | Some row => Some row
    | None => if bool_decide (ip ∈ l) then Some null_row else None
    end.
Proof.
  revert t. induction l as [|x l IH]; intros t; cbn [foldl].
  - by destruct (t !! ip).
  - rewrite IH. unfold insert_or_ignore.
    destruct (decide (x = ip)) as [-> | Hne].
    + destruct (t !! ip) eqn:E; [by rewrite E|].
      rewrite lookup_insert_eq.
      by rewrite bool_decide_eq_true_2 by left.
    + assert (bool_decide (ip ∈ x :: l) = bool_decide (ip ∈ l)) as ->.
      { apply bool_decide_ext. rewrite elem_of_cons.
        split; [intros [-> | H]; [by destruct Hne | done] | by right]. }
      destruct (t !! x); [done|]. by rewrite lookup_insert_ne.
Qed.

(** A temporary block never touches the row of a critical address. *)
Lemma add_temporary_block_ip_critical (self : FirewallThread) (w : World)
    (now : Z) (ip tag : string) (ttl : Z) (c : string) :
  c ∈ _critical_ips self ->
  tbl_blocked_ips (_add_temporary_block_ip self w now ip tag ttl).2 !! c
  = tbl_blocked_ips w !! c.
Proof.
  intros Hc. unfold _add_temporary_block_ip.
  destruct (String.eqb ip EmptyString); [done|].
  case_bool_decide as Hip; [done|].
  destruct (online w); [|done].
  cbn [snd tbl_blocked_ips with_blocked_ips].
  apply lookup_insert_ne. by intros ->.
Qed.

Lemma add_temporary_block_ip_critical_set (self : FirewallThread) (w : World)
    (now : Z) (ip tag : string) (ttl : Z) :
  _critical_ips (_add_temporary_block_ip self w now ip tag ttl).1
  = _critical_ips self.
Proof.
  unfold _add_temporary_block_ip.
  destruct (String.eqb ip EmptyString); [done|].
  case_bool_decide; [done|]. destruct (online w); [|done].
  apply refresh_blocked_ips_frame.
Qed.

Lemma critical_ips_elem_of (gateway : option string) (x : string) :
  x ∈ critical_ips gateway <->
  x ∈ ["127.0.0.1"; "0.0.0.0"; "localhost"] \/ gateway = Some x
  \/ x ∈ protected_resolvers.
Proof.
  unfold critical_ips. rewrite foldl_add_elem_of.
  destruct gateway as [gw|].
  - rewrite elem_of_union, elem_of_singleton, elem_of_list_to_set.
    split; [intros [[-> | H] | H]; auto | intros [H | [[= ->] | H]]; auto].
  - rewrite elem_of_list_to_set.
    split; [intros [H | H]; auto | intros [H | [[=] | H]]; auto].
Qed.

Variable getaddrinfo : string -> option (list string).

Lemma all_ips_elem_of (domains : list string) (acc : gset string) (x : string) :
  x ∈ foldl (fun acc d =>
               foldl (fun acc ip => {[ip]} ∪ acc) acc
                     (resolve_domain_to_ips getaddrinfo d))
            acc domains
  <-> x ∈ acc
      \/ exists d, d ∈ domains /\ x ∈ resolve_domain_to_ips getaddrinfo d.
Proof.
  revert acc. induction domains as [|d ds IH]; intros acc; cbn [foldl].
  - split; [by left | intros [H | (d & Hd & _)]; [done | by apply elem_of_nil in Hd]].
  - rewrite IH, foldl_add_elem_of. split.
    + intros [[H | H] | (d' & Hd & Hx)].
      * by left.
      * right. exists d. split; [left | done].
      * right. exists d'. split; [by right | done].
    + intros [H | (d' & Hd & Hx)]; [by left; left|].
      apply elem_of_cons in Hd as [-> | Hd]; [by left; right|].
      right. by exists d'.
Qed.

(** The table that a resync leaves: exactly the resolved addresses,
    each with NULL in the other columns. *)
Lemma sync_blocked_ips_lookup (w : World) (ip : string) (row : BlockedIP) :
  online w = true ->
  tbl_blocked_ips (sync_blocked_ips getaddrinfo w) !! ip = Some row
  <-> row = null_row
      /\ exists d, d ∈ tbl_blocked_domains w
                   /\ ip ∈ resolve_domain_to_ips getaddrinfo d.
Proof.
  intros Hon. unfold sync_blocked_ips. rewrite Hon.
  cbn [tbl_blocked_ips with_blocked_ips].
  rewrite foldl_insert_or_ignore_lookup, lookup_empty.
  case_bool_decide as Hin.
  - apply elem_of_elements, all_ips_elem_of in Hin as [Hin | Hin];
      [set_solver|].
    split; [intros [= <-]; by split | intros [-> _]; done].
  - split; [discriminate|]. intros [_ Hd]. exfalso. apply Hin.
    apply elem_of_elements, all_ips_elem_of. by right.
Qed.

Lemma sync_blocked_ips_offline (w : World) :
  online w = false -> sync_blocked_ips getaddrinfo w = w.
Proof. intros H. unfold sync_blocked_ips. by rewrite H. Qed.

Lemma sync_blocked_ips_event (w : World) :
  domain_update_event (sync_blocked_ips getaddrinfo w) = domain_update_event w
  /\ tbl_blocked_domains (sync_blocked_ips getaddrinfo w) = tbl_blocked_domains w
  /\ online (sync_blocked_ips getaddrinfo w) = online w.
Proof.
  unfold sync_blocked_ips. destruct (online w) eqn:E; [|by rewrite E].
  by repeat split.
Qed.

End StoreFacts.

(** ** The packet pipeline *)

Section EngineFacts.
Import Py Firewall.

Variable getaddrinfo : string -> option (list string).
Variable decode_utf8_ignore : list byte -> string.
Variable fnmatch : string -> string -> bool.

Lemma host_matches_spec (h d : string) :
  host_matches h d = true <-> h = d \/ exists pre, h = pre ++ "." ++ d.
Proof.
  unfold host_matches.
  by rewrite orb_true_iff, String.eqb_eq, endswith_spec.
Qed.

Lemma find_none_all {A} (f : A -> bool) (l : list A) :
  (forall x, x ∈ l -> f x = false) -> List.find f l = None.
Proof.
  induction l as [|x l IH]; intros H; [reflexivity|].
  cbn [List.find]. rewrite (H x) by left.
  apply IH. intros y Hy. apply H. by right.
Qed.

(** The application stage drops for an application only. *)
Lemma app_stage_drop (self : FirewallThread) (w : World) (t : Z)
    (ip : string) (host : option string) (why : DropReason) :
  (app_stage fnmatch self w t ip host).1.1 = Drop why ->
  exists app, why = AppBlock app.
Proof.
  unfold app_stage.
  destruct (if truthy host then _ else _) as [[[app p]|]|]; [|done|done].
  destruct (temp_block_dst self w t ip p). cbn. intros [= <-]. by exists app.
Qed.

(** When the test of step 2 is false, no verdict is a QUIC drop. *)
Lemma process_packet_not_quic (self : FirewallThread) (w : World) (t : Z)
    (pkt : Packet) :
  is_quic pkt = false ->
  (process_packet decode_utf8_ignore fnmatch self w t pkt).1.1 <> Drop QUIC.
Proof.
  intros Hq. unfold process_packet. rewrite Hq.
  destruct (negb _ && bool_decide _); [done|].
  destruct (has_doh_fragment _); [done|].
  assert (forall ip host,
            (app_stage fnmatch self w t ip host).1.1 <> Drop QUIC) as Happ.
  { intros ip host H. by destruct (app_stage_drop _ _ _ _ _ _ H). }
  destruct (find_domain_hit _ _ _) as [d|]; [|apply Happ].
  destruct (truthy (Some d)); [|apply Happ].
  by destruct (temp_block_dst self w t _ d).
Qed.

(** Every entry of the log is the verdict of the pipeline on that
    packet, in some state of the thread. *)
Lemma run_turn_log (sw : FirewallThread * World) (i : Turn)
    (pkt : Packet) (v : Verdict) :
  (run_turn getaddrinfo decode_utf8_ignore fnmatch sw i).1 = Some (pkt, v) ->
  exists self w t,
    (process_packet decode_utf8_ignore fnmatch self w t pkt).1.1 = v.
Proof.
  unfold run_turn. destruct (received i) as [p|]; [|discriminate].
  intros H.
  match type of H with
  | context [process_packet _ _ ?s ?w ?t p] =>
      destruct (process_packet decode_utf8_ignore fnmatch s w t p)
        as [[v' s'] w'] eqn:E; exists s, w, t
  end.
  cbn [fst] in H. injection H as -> ->. by rewrite E.
Qed.

Lemma run_loop_log (turns : list Turn) :
  forall (sw : FirewallThread * World) (pkt : Packet) (v : Verdict),
    (pkt, v) ∈ (run_loop getaddrinfo decode_utf8_ignore fnmatch sw turns).1 ->
    exists self w t,
      (process_packet decode_utf8_ignore fnmatch self w t pkt).1.1 = v.
Proof.
  induction turns as [|i rest IH]; intros sw pkt v Hin.
  - by apply elem_of_nil in Hin.
  - cbn [run_loop] in Hin.
    destruct (run_turn _ _ _ sw i) as [o sw'] eqn:E1.
    destruct (run_loop _ _ _ sw' rest) as [log sw''] eqn:E2.
    cbn [fst] in Hin.
    assert ((pkt, v) ∈ log -> exists self w t,
               (process_packet decode_utf8_ignore fnmatch self w t pkt).1.1 = v)
      as Hrest.
    { intros H. apply (IH sw'). by rewrite E2. }
    destruct o as [e|]; [|by apply Hrest].
    apply elem_of_cons in Hin as [<- | Hin]; [|by apply Hrest].
    apply (run_turn_log sw i). by rewrite E1.
Qed.

Lemma reinjected_elem_of (log : list (Packet * Verdict)) (pkt : Packet) :
  pkt ∈ reinjected log <-> (pkt, Reinject) ∈ log.
Proof.
  unfold reinjected. rewrite list_elem_of_In, in_map_iff. split.
  - intros ([p v] & <- & Hf). apply filter_In in Hf as [Hin Hv].
    cbn [fst snd] in *. destruct v; try discriminate Hv.
    by apply list_elem_of_In.
  - intros Hin. exists (pkt, Reinject). split; [done|].
    apply filter_In. split; [by apply list_elem_of_In | done].
Qed.

(** With empty lists, steps 1, 4 and 7 cannot fire. *)
Lemma process_packet_empty_lists (self : FirewallThread) (w : World) (t : Z)
    (pkt : Packet) :
  domains self = [] -> blocked_ips self = ∅ ->
  process_packet decode_utf8_ignore fnmatch self w t pkt
  = if is_quic pkt then (Drop QUIC, self, w)
    else if has_doh_fragment (default [] (payload pkt)) then (Drop DoH, self, w)
    else app_stage fnmatch self w t (default EmptyString (dst_addr pkt))
           (find_host decode_utf8_ignore (default [] (payload pkt))).
Proof.
  intros Hd Hb. unfold process_packet. rewrite Hd, Hb.
  rewrite bool_decide_eq_false_2 by apply not_elem_of_empty.
  rewrite andb_false_r.
  destruct (is_quic pkt); [done|].
  destruct (has_doh_fragment _); [done|].
  assert (forall host p, find_domain_hit host p [] = None) as ->; [|done].
  intros host p. unfold find_domain_hit, domain_hit_by_host.
  destruct host as [h|]; [destruct (truthy (Some h))|]; reflexivity.
Qed.

(** *** The critical set along the loop *)

Lemma spares_refl (c : string) (sw : FirewallThread * World) : spares c sw sw.
Proof. by split. Qed.

Lemma spares_trans (c : string) (x y z : FirewallThread * World) :
  spares c x y -> spares c y z -> spares c x z.
Proof.
  intros [H1 H2] [H3 H4]. split; [by rewrite H3|].
  intros row H. by apply H2, H4.
Qed.

Lemma add_temporary_block_ip_spares (c : string) (self : FirewallThread)
    (w : World) (t : Z) (ip tag : string) (ttl : Z) :
  c ∈ _critical_ips self ->
  spares c (self, w) (_add_temporary_block_ip self w t ip tag ttl).
Proof.
  intros Hc. split.
  - apply add_temporary_block_ip_critical_set.
  - intros row. by rewrite add_temporary_block_ip_critical.
Qed.

Lemma temp_block_dst_spares (c : string) (self : FirewallThread)
    (w : World) (t : Z) (dst_ip tag : string) :
  c ∈ _critical_ips self ->
  spares c (self, w) (temp_block_dst self w t dst_ip tag).
Proof.
  intros Hc. unfold temp_block_dst.
  destruct (String.eqb dst_ip EmptyString); [apply spares_refl|].
  by apply add_temporary_block_ip_spares.
Qed.

Lemma cleanup_spares (c : string) (self : FirewallThread) (w : World) (t : Z) :
  spares c (self, w) (_cleanup_expired_blocked_ips self w t).
Proof.
  unfold _cleanup_expired_blocked_ips.
  destruct (online w); [|apply spares_refl].
  split; [apply refresh_blocked_ips_frame|]. intros row.
  cbn [snd tbl_blocked_ips with_blocked_ips].
  intros H. by apply map_lookup_filter_Some in H as [H _].
Qed.

Lemma foldl_spares {A} (c : string)
    (f : FirewallThread * World -> A -> FirewallThread * World) (l : list A) :
  (forall sw x, c ∈ _critical_ips sw.1 -> spares c sw (f sw x)) ->
  forall sw, c ∈ _critical_ips sw.1 -> spares c sw (foldl f sw l).
Proof.
  intros Hf. induction l as [|x l IH]; intros sw Hc; [apply spares_refl|].
  cbn [foldl]. pose proof (Hf sw x Hc) as Hx.
  apply (spares_trans c sw (f sw x)); [done|].
  apply IH. destruct Hx as [-> _]. done.
Qed.

Lemma resolve_all_spares (c : string) (t : Z) (sw : FirewallThread * World) :
  c ∈ _critical_ips sw.1 -> spares c sw (resolve_all getaddrinfo t sw).
Proof.
  intros Hc. unfold resolve_all.
  generalize (domains sw.1). intros ds.
  apply foldl_spares; [|done].
  intros sw1 d Hc1. apply foldl_spares; [|done].
  intros [self w] ip Hc2. by apply add_temporary_block_ip_spares.
Qed.

Lemma process_packet_spares (c : string) (self : FirewallThread) (w : World)
    (t : Z) (pkt : Packet) :
  c ∈ _critical_ips self ->
  spares c (self, w)
    ((process_packet decode_utf8_ignore fnmatch self w t pkt).1.2,
     (process_packet decode_utf8_ignore fnmatch self w t pkt).2).
Proof.
  intros Hc.
  assert (forall host dst,
            spares c (self, w)
              ((app_stage fnmatch self w t dst host).1.2,
               (app_stage fnmatch self w t dst host).2)) as Happ.
  { intros host dst. unfold app_stage.
    destruct (if truthy host then _ else _) as [[[app p]|]|];
      [|apply spares_refl..].
    pose proof (temp_block_dst_spares c self w t dst p Hc) as H.
    by destruct (temp_block_dst self w t dst p). }
  unfold process_packet.
  destruct (negb _ && bool_decide _).
  { split; [|done]. cbn [fst snd]. unfold count_blocked.
    by destruct (_ >=? _)%Z. }
  destruct (is_quic pkt); [apply spares_refl|].
  destruct (has_doh_fragment _); [apply spares_refl|].
  destruct (find_domain_hit _ _ _) as [d|] eqn:E; [|apply Happ].
  destruct (truthy (Some d)); [|apply Happ].
  pose proof (temp_block_dst_spares c self w t
                (default EmptyString (dst_addr pkt)) d Hc) as H.
  by destruct (temp_block_dst self w t _ d).
Qed.

Lemma run_turn_spares (c : string) (sw : FirewallThread * World) (i : Turn) :
  c ∈ _critical_ips sw.1 ->
  spares c sw (run_turn getaddrinfo decode_utf8_ignore fnmatch sw i).2.
Proof.
  intros Hc. destruct sw as [self w]. unfold run_turn.
  set (s0 := ((self, w).1, meet i (self, w).2)).
  assert (spares c (self, w) s0) as H0 by (by split).
  set (s1 := maintain_reload (now i) s0).
  assert (spares c s0 s1) as H1.
  { subst s1 s0. unfold maintain_reload. cbn [fst snd].
    destruct (_ || _); [|apply spares_refl].
    split; [|done]. cbn [fst _critical_ips set_timers].
    apply reload_lists_frame. }
  set (s2 := maintain_cleanup (now i) s1).
  assert (spares c s1 s2) as H2.
  { subst s2. destruct s1 as [a x]. unfold maintain_cleanup.
    destruct (_ >? _)%Z; [|apply spares_refl].
    pose proof (cleanup_spares c a x (now i)) as H.
    by destruct (_cleanup_expired_blocked_ips a x (now i)). }
  set (s3 := maintain_signatures (now i) s2).
  assert (spares c s2 s3) as H3.
  { subst s3. destruct s2 as [a x]. unfold maintain_signatures.
    destruct (_ >? _)%Z; [|apply spares_refl].
    by destruct (get_all_signatures x). }
  assert (spares c (self, w) s3) as H03
    by (eapply spares_trans; [|eapply spares_trans]; eauto using spares_trans).
  assert (c ∈ _critical_ips s3.1) as Hc3 by (destruct H03 as [-> _]; done).
  set (s4 := maintain_resolve getaddrinfo (now i) s3).
  assert (spares c s3 s4) as H4.
  { subst s4. destruct s3 as [a x]. unfold maintain_resolve.
    destruct (_ >? _)%Z; [|apply spares_refl].
    pose proof (resolve_all_spares c (now i) (a, x) Hc3) as H.
    by destruct (resolve_all getaddrinfo (now i) (a, x)). }
  assert (spares c (self, w) s4) as H04 by (by eapply spares_trans).
  destruct (received i) as [pkt|]; [|done].
  assert (c ∈ _critical_ips s4.1) as Hc4 by (destruct H04 as [-> _]; done).
  pose proof (process_packet_spares c s4.1 s4.2 (now i) pkt Hc4) as H5.
  destruct (process_packet _ _ s4.1 s4.2 (now i) pkt) as [[v a] x].
  cbn [fst snd] in *. eapply spares_trans; [exact H04|].
  by destruct s4.
Qed.

(** Along any run of the loop the row of a critical address is never
    written: if there is one afterwards, it was there before. *)
Lemma run_loop_spares (c : string) (turns : list Turn) :
  forall sw, c ∈ _critical_ips sw.1 ->
    spares c sw (run_loop getaddrinfo decode_utf8_ignore fnmatch sw turns).2.
Proof.
  induction turns as [|i rest IH]; intros sw Hc; [apply spares_refl|].
  cbn [run_loop].
  pose proof (run_turn_spares c sw i Hc) as H1.
  destruct (run_turn _ _ _ sw i) as [o sw1]. cbn [snd] in H1.
  assert (c ∈ _critical_ips sw1.1) as Hc1 by (destruct H1 as [-> _]; done).
  pose proof (IH sw1 Hc1) as H2.
  destruct (run_loop _ _ _ sw1 rest) as [log sw2].
  cbn [snd] in *. by eapply spares_trans.
Qed.

(** Rows as [get_all_signatures] returns them have six columns, so the
    five-name unpacking of the application stage raises as soon as a
    signature exists. *)
Lemma app_match_fetched_rows (host : string) (g : AppSignature)
    (gs : list AppSignature) :
  app_match fnmatch host (map signature_row (g :: gs)) = Raise.
Proof. reflexivity. Qed.

End EngineFacts.

(** ** The first-run bootstrap *)

Section InstallFacts.
Import Py Security Install.

Variable pbkdf2_sha256 : list byte -> list byte -> Z -> list byte.

Lemma hash_password_default (salt : list byte) (p : string) :
  p <> EmptyString ->
  hash_password pbkdf2_sha256 salt p PBKDF2_ITERATIONS
  = Ret ("150000" ++ "$" ++ hex salt ++ "$"
         ++ hex (pbkdf2_sha256 (encode p) salt 150000)).
Proof.
  intros Hp.
  by destruct (verify_hash_password pbkdf2_sha256 salt p PBKDF2_ITERATIONS Hp)
    as (-> & _).
Qed.

(** On a machine without users, importing the credential module
    creates admin/admin, and the bootstrap's own [create_user] then
    finds the name taken. *)
Lemma create_default_admin_first_run (salt_import salt_create : list byte) :
  _create_default_admin pbkdf2_sha256 salt_import salt_create Samples.first_run
  = (false,
     {| marker_file := None;
        users := {["admin" :=
                    {| password := "150000" ++ "$" ++ hex salt_import ++ "$"
                         ++ hex (pbkdf2_sha256 (encode "admin") salt_import 150000);
                       role := "admin" |}]};
        security_imported := true |}).
Proof.
  unfold _create_default_admin, import_security, module_init,
    ensure_default_admin, create_user.
  cbn [security_imported users marker_file Samples.first_run negb].
  assert (has_admin ∅ = false) as -> by (unfold has_admin; by rewrite map_to_list_empty).
  rewrite !hash_password_default by discriminate.
  cbn [bind]. rewrite lookup_empty.
  cbn [bind users marker_file security_imported].
  unfold DEFAULT_ADMIN_username. rewrite lookup_insert_eq.
  by rewrite insert_empty.
Qed.

End InstallFacts.

(** * The claims of the specification *)

Section Claims.
Import Py Security Install DNSProxy Firewall.

Variable getaddrinfo : string -> option (list string).
Variable decode_utf8_ignore : list byte -> string.
Variable fnmatch : string -> string -> bool.
Variable pbkdf2_sha256 : list byte -> list byte -> Z -> list byte.

(** C1, the defect.  For an address [c] of the critical set that
    [__init__] computes (loopback, 0.0.0.0, the detected gateway,
    the four public resolvers), [_add_temporary_block_ip] never
    writes the row of [c] and keeps the set, so no run of the filter
    loop leaves a row for [c] that was not there before.
    [sync_blocked_ips], a module-level function that never sees the
    set, writes the row of [c] as soon as a blocked domain resolves
    to [c], and the next reload puts [c] into the blocked set of the
    thread. *)
Theorem critical_ips_blocked_by_resync
    (gateway : option string) (self : FirewallThread) (w : World)
    (t : Z) (ip tag : string) (ttl : Z) (c : string) :
  _critical_ips self = critical_ips gateway ->
  (c ∈ ["127.0.0.1"; "0.0.0.0"; "8.8.8.8"; "1.1.1.1"; "9.9.9.9";
        "208.67.222.222"] \/ gateway = Some c) ->
  tbl_blocked_ips (_add_temporary_block_ip self w t ip tag ttl).2 !! c
  = tbl_blocked_ips w !! c
  /\ _critical_ips (_add_temporary_block_ip self w t ip tag ttl).1
     = critical_ips gateway
  /\ (forall turns row,
        tbl_blocked_ips
          (run_loop getaddrinfo decode_utf8_ignore fnmatch (self, w) turns).2.2
          !! c = Some row ->
        tbl_blocked_ips w !! c = Some row)
  /\ (forall d, online w = true -> d ∈ tbl_blocked_domains w ->
        c ∈ resolve_domain_to_ips getaddrinfo d ->
        tbl_blocked_ips (sync_blocked_ips getaddrinfo w) !! c = Some null_row
        /\ c ∈ blocked_ips
                 (_reload_lists self (sync_blocked_ips getaddrinfo w))).
Proof.
  intros Hcrit Hc.
  assert (c ∈ _critical_ips self) as Hin.
  { rewrite Hcrit. apply critical_ips_elem_of.
    destruct Hc as [Hc | Hc]; [|by right; left].
    rewrite !elem_of_cons in Hc. unfold protected_resolvers.
    rewrite !elem_of_cons.
    destruct Hc as [-> | [-> | [-> | [-> | [-> | [-> | Hc]]]]]]; auto 10.
    all: by apply elem_of_nil in Hc. }
  split; [by apply add_temporary_block_ip_critical|].
  split; [by rewrite add_temporary_block_ip_critical_set|].
  split.
  - intros turns row.
    destruct (run_loop_spares getaddrinfo decode_utf8_ignore fnmatch c
                turns (self, w) Hin) as [_ H].
    exact (H row).
  - intros d Hon Hd Hres.
    assert (tbl_blocked_ips (sync_blocked_ips getaddrinfo w) !! c
            = Some null_row) as Hrow.
    { apply sync_blocked_ips_lookup; [done|]. split; [done | by exists d]. }
    split; [done|].
    destruct (sync_blocked_ips_event getaddrinfo w) as (_ & _ & Hon').
    rewrite reload_lists_online by (by rewrite Hon').
    cbn [blocked_ips set_lists]. apply elem_of_dom. by eexists.
Qed.

(** C2, as the code has it.  The proxy answers a parsed query with
    its own NXDOMAIN reply iff the name is blocked, and forwards it
    otherwise.  A query name, with trailing dots stripped and
    lowercased, is blocked iff some non-empty cached domain [d],
    lowercased and with every leading [*] and [.] stripped, equals it
    or is a suffix of it behind a dot.  A cached [*.facebook.com]
    therefore matches both [www.facebook.com] and [facebook.com], as a
    cached [facebook.com] does. *)
Theorem dns_block_rule (cache : gset string) (qname : string) :
  (_is_blocked cache qname = true <->
   exists d, d ∈ cache /\ d <> EmptyString
             /\ (lower (rstrip "." qname) = lstrip "*." (lower d)
                 \/ exists pre,
                      lower (rstrip "." qname)
                      = pre ++ "." ++ lstrip "*." (lower d)))
  /\ (forall parse_qname forward_query data addr request,
        DNSRecord_parse parse_qname data = Some request ->
        _handle_query parse_qname forward_query cache data addr
        = if _is_blocked cache (q_qname request)
          then [SendTo (DNSRecord_pack_header_only
                          (DNSHeader_new (DNSProxy.id (header request)) 1 1 1
                             NXDOMAIN)) addr]
          else match forward_query data with
               | Some (x :: reply) => [SendTo (x :: reply) addr]
               | _ => []
               end)
  /\ _is_blocked {["*.facebook.com"]} "www.facebook.com" = true
  /\ _is_blocked {["*.facebook.com"]} "facebook.com" = true
  /\ _is_blocked {["facebook.com"]} "www.facebook.com" = true
  /\ _is_blocked {["facebook.com"]} "facebook.com" = true.
Proof.
  split.
  { rewrite is_blocked_spec. split.
    - intros (d & Hin & Hm). apply domain_matches_spec in Hm. by exists d.
    - intros (d & Hin & Hm). exists d. split; [done|].
      by apply domain_matches_spec. }
  split; [|by vm_compute].
  intros parse_qname forward_query data addr request Hparse.
  unfold _handle_query. rewrite Hparse.
  assert (_is_blocked cache (rstrip "." (q_qname request))
          = _is_blocked cache (q_qname request)) as ->.
  { unfold _is_blocked, rstrip. by rewrite rstrip_by_idem. }
  destruct (_is_blocked cache (q_qname request)); [reflexivity|].
  by destruct (forward_query data) as [[|x reply]|].
Qed.

(** C3, as the code has it.  On an available database
    [sync_blocked_ips] deletes every row of [blocked_ips], temporary
    ones included: afterwards every row is one that the resync has
    written, with no domain, expiry or reason, for an address that
    some blocked domain resolves to, and every such address outside
    the critical set has its row; the change is committed as a whole
    (an unavailable database is left as it was).  It does not touch
    the reload event: its callers [add_blocked_domain] and
    [remove_blocked_domain] set it after the resync. *)
Theorem sync_blocked_ips_replaces_table (w : World) :
  online w = true ->
  (forall ip row,
      tbl_blocked_ips (sync_blocked_ips getaddrinfo w) !! ip = Some row ->
      row = null_row
      /\ exists d, d ∈ tbl_blocked_domains w
                   /\ ip ∈ resolve_domain_to_ips getaddrinfo d)
  /\ (forall gateway d ip,
        d ∈ tbl_blocked_domains w ->
        ip ∈ resolve_domain_to_ips getaddrinfo d ->
        ip ∉ critical_ips gateway ->
        tbl_blocked_ips (sync_blocked_ips getaddrinfo w) !! ip = Some null_row)
  /\ tbl_blocked_domains (sync_blocked_ips getaddrinfo w) = tbl_blocked_domains w
  /\ domain_update_event (sync_blocked_ips getaddrinfo w) = domain_update_event w
  /\ (forall d, domain_update_event (add_blocked_domain getaddrinfo d w) = true
                /\ domain_update_event (remove_blocked_domain getaddrinfo d w) = true)
  /\ (forall w0, online w0 = false -> sync_blocked_ips getaddrinfo w0 = w0).
Proof.
  intros Hon.
  split; [intros ip row; by apply sync_blocked_ips_lookup|].
  split.
  { intros gateway d ip Hd Hip _. apply sync_blocked_ips_lookup; [done|].
    split; [done | by exists d]. }
  destruct (sync_blocked_ips_event getaddrinfo w) as (He & Hd & _).
  split; [done|]. split; [done|].
  split; [|apply sync_blocked_ips_offline].
  intros d. unfold add_blocked_domain, remove_blocked_domain.
  by rewrite Hon.
Qed.

(** C4, the defect.  pydivert hands the protocol of a captured
    packet over as a pair, and the pair of a UDP datagram does not
    equal [pydivert.Protocol.UDP]: for a captured UDP datagram to
    port 443 the test of step 2 is false, along no run of the loop
    is the packet dropped as QUIC, and when no other rule holds it
    (its address is not blocked, it carries no DoH fragment, no
    blocked domain and no host) it is re-injected, the thread and the
    database staying as they were. *)
Theorem captured_udp_443_is_reinjected (self : FirewallThread) (w : World)
    (t : Z) (pkt : Packet) (next_header_start : Z) :
  protocol pkt = Some (ProtocolPair (Some UDP) next_header_start) ->
  dst_port pkt = Some 443%Z ->
  is_quic pkt = false
  /\ (forall sw turns v,
        (pkt, v) ∈ (run_loop getaddrinfo decode_utf8_ignore fnmatch sw turns).1 ->
        v <> Drop QUIC)
  /\ (default EmptyString (dst_addr pkt) ∉ blocked_ips self ->
      has_doh_fragment (default [] (payload pkt)) = false ->
      find_domain_hit
        (find_host decode_utf8_ignore (default [] (payload pkt)))
        (default [] (payload pkt)) (domains self) = None ->
      truthy (find_host decode_utf8_ignore (default [] (payload pkt))) = false ->
      process_packet decode_utf8_ignore fnmatch self w t pkt
      = (Reinject, self, w)).
Proof.
  intros Hp Hport.
  assert (is_quic pkt = false) as Hq.
  { unfold is_quic. by rewrite Hp. }
  split; [done|]. split.
  - intros sw turns v Hin.
    destruct (run_loop_log getaddrinfo decode_utf8_ignore fnmatch turns
                sw pkt v Hin) as (s1 & w1 & t1 & <-).
    by apply process_packet_not_quic.
  - intros Hip Hdoh Hhit Hhost. unfold process_packet.
    rewrite Hq, Hdoh, Hhit.
    rewrite bool_decide_eq_false_2 by done. rewrite andb_false_r.
    unfold app_stage. by rewrite Hhost.
Qed.

(** C5, as the code has it.  An extracted host [h] matches a blocked
    domain [d] iff [h = d] or [h] ends with ["." ++ d]; the substring
    scan of the lowercased payload runs whenever that match produced
    nothing, that is when no host was extracted and also when the
    extracted host matches no blocked domain; it is skipped when the
    host matched a (non-empty) blocked domain. *)
Theorem domain_match_then_fallback_scan (host : option string)
    (payload : list byte) (ds : list string) :
  (forall h d, host_matches h d = true
               <-> h = d \/ exists pre, h = pre ++ "." ++ d)
  /\ ((truthy host = false
       \/ forall d, d ∈ ds -> host_matches (default EmptyString host) d = false) ->
      find_domain_hit host payload ds
      = List.find (payload_mentions (bytes_lower payload)) ds)
  /\ (forall d, truthy host = true ->
        List.find (host_matches (default EmptyString host)) ds = Some d ->
        d <> EmptyString ->
        find_domain_hit host payload ds = Some d).
Proof.
  split; [apply host_matches_spec|]. split.
  - intros H. unfold find_domain_hit, domain_hit_by_host.
    destruct host as [h|]; [|reflexivity].
    destruct (truthy (Some h)) eqn:Et; [|reflexivity].
    destruct H as [H | H]; [discriminate H|].
    change (default EmptyString (Some h)) with h in H.
    by rewrite (find_none_all _ _ H).
  - intros d Ht Hf Hd. unfold find_domain_hit, domain_hit_by_host.
    destruct host as [h|]; [|discriminate Ht].
    rewrite Ht. change (default EmptyString (Some h)) with h in Hf.
    rewrite Hf.
    cbn [truthy negb].
    destruct (String.eqb d EmptyString) eqn:E; [|reflexivity].
    by apply String.eqb_eq in E.
Qed.

(** C6.  For a datagram that dnslib parses and whose question name is
    blocked, the proxy sends one reply to the client: a twelve-byte
    message (a header with no record behind it) whose id is the id of
    the request and whose flags read QR=1, AA=1, RA=1,
    RCODE=NXDOMAIN, with all four section counts 0. *)
Theorem blocked_query_gets_nxdomain
    (parse_qname : list byte -> option string)
    (forward_query : list byte -> option (list byte))
    (cache : gset string) (data : list byte) (addr : string)
    (request : DNSRecord) :
  DNSRecord_parse parse_qname data = Some request ->
  _is_blocked cache (rstrip "." (q_qname request)) = true ->
  exists reply h,
    _handle_query parse_qname forward_query cache data addr = [SendTo reply addr]
    /\ length reply = 12
    /\ DNSHeader_parse reply = Some h
    /\ DNSProxy.id h = DNSProxy.id (header request)
    /\ get_qr h = 1%Z /\ get_aa h = 1%Z /\ get_ra h = 1%Z
    /\ get_rcode h = NXDOMAIN
    /\ q h = 0%Z /\ a h = 0%Z /\ auth h = 0%Z /\ ar h = 0%Z.
Proof.
  intros Hparse Hblocked. unfold _handle_query. rewrite Hparse, Hblocked.
  assert (exists hi lo, DNSProxy.id (header request) = unpack_HZ hi lo)
    as (hi & lo & Hid).
  { unfold DNSRecord_parse in Hparse.
    destruct (DNSHeader_parse data) as [h|] eqn:Eh; [|discriminate Hparse].
    destruct (parse_qname data); [|discriminate Hparse].
    injection Hparse as <-. by apply (DNSHeader_parse_id data). }
  rewrite Hid.
  destruct (nxdomain_reply_parse hi lo) as (Hlen & h & Hh & Hrest).
  eexists _, h. split; [reflexivity|]. by split.
Qed.

(** C7, evaluated at a first run.  With no marker, no user and the
    credential module not yet imported, the bootstrap reports a fresh
    install and writes a marker that advertises admin/password with
    [admin_created = false]; the only account is [admin], its stored
    hash is the one of "admin" (created by the import of the
    credential module), so "admin" validates and, for every key
    derivation that tells the two passwords apart, "password" does
    not. *)
Theorem first_run_admin_has_import_password
    (salt_import salt_create : list byte) :
  pbkdf2_sha256 (encode "admin") salt_import 150000
    <> pbkdf2_sha256 (encode "password") salt_import 150000 ->
  let r := ensure_fresh_installation pbkdf2_sha256 salt_import salt_create
             Samples.first_run in
  r.1 = fresh
  /\ marker_file r.2
     = Some {| credentials_username := "admin";
               credentials_password := "password";
               admin_created := false |}
  /\ dom (users r.2) = {["admin"]}
  /\ validate_user pbkdf2_sha256 "admin" "admin" (users r.2) = true
  /\ validate_user pbkdf2_sha256 "admin" "password" (users r.2) = false.
Proof.
  intros Hkdf r. subst r. unfold ensure_fresh_installation.
  cbn [marker_file Samples.first_run].
  change {| marker_file := None; users := ∅; security_imported := false |}
    with Samples.first_run.
  rewrite create_default_admin_first_run.
  cbn [fst snd marker_file users security_imported].
  split; [reflexivity|]. split; [reflexivity|].
  split; [by rewrite dom_singleton_L|].
  unfold validate_user. rewrite lookup_singleton_eq. cbn [password].
  change ("150000" ++ "$" ++ hex salt_import ++ "$"
          ++ hex (pbkdf2_sha256 (encode "admin") salt_import 150000))
    with (str_of_int 150000 ++ "$" ++ hex salt_import ++ "$"
          ++ hex (pbkdf2_sha256 (encode "admin") salt_import 150000)).
  rewrite !verify_password_stored by (unfold INT_MAX; lia).
  split; [apply bytes_eqb_refl|].
  unfold compare_digest.
  destruct (bytes_eqb _ _) eqn:E; [|reflexivity].
  by apply bytes_eqb_eq in E.
Qed.

(** C8.  For a non-empty password and a 16-byte salt,
    [hash_password] returns the three [$]-separated fields
    [150000], the salt in hex (32 digits) and the PBKDF2-HMAC-SHA256
    key in hex; [verify_password] on that string compares the stored
    key with the key derived from the candidate through
    [compare_digest], and so accepts the password that was hashed. *)
Theorem hash_then_verify (salt : list byte) (p : string) :
  p <> EmptyString -> length salt = SALT_BYTES ->
  exists dk stored,
    dk = pbkdf2_sha256 (encode p) salt PBKDF2_ITERATIONS
    /\ stored = "150000" ++ "$" ++ hex salt ++ "$" ++ hex dk
    /\ hash_password pbkdf2_sha256 salt p PBKDF2_ITERATIONS = Ret stored
    /\ split "$" stored = ["150000"; hex salt; hex dk]
    /\ String.length (hex salt) = 32
    /\ (forall candidate,
          verify_password pbkdf2_sha256 stored candidate
          = compare_digest dk
              (pbkdf2_sha256 (encode candidate) salt PBKDF2_ITERATIONS))
    /\ verify_password pbkdf2_sha256 stored p = true.
Proof.
  intros Hp Hsalt.
  assert (1 <= PBKDF2_ITERATIONS <= INT_MAX)%Z as Hit
    by (unfold PBKDF2_ITERATIONS, INT_MAX; lia).
  destruct (verify_hash_password pbkdf2_sha256 salt p PBKDF2_ITERATIONS Hp Hit)
    as (Hh & Hs & Hv).
  eexists _, _. split; [reflexivity|]. split; [reflexivity|].
  split; [exact Hh|]. split; [exact Hs|].
  split; [rewrite hex_length, Hsalt; reflexivity|].
  split; [|exact Hv].
  intros candidate.
  exact (verify_password_stored pbkdf2_sha256 salt _ PBKDF2_ITERATIONS
           candidate Hit).
Qed.

(** C9, as the code has it.  When the database cannot be read while
    its directory is there, [reload_blocked_domains] returns the empty
    list and [get_blocked_ips] the empty set, so [_reload_lists]
    empties both in-memory lists.  From then on the address check and
    the domain match drop nothing, but a captured packet that carries
    a DoH fragment is still dropped, and one that carries none is
    left to the application stage, which drops it when a fetched
    signature matches its host; only what passes both is
    re-injected. *)
Theorem failed_reload_empties_lists (self : FirewallThread) (w : World) :
  online w = false ->
  directory_missing w = false ->
  reload_blocked_domains w = Ret []
  /\ get_blocked_ips w = Ret ∅
  /\ domains (_reload_lists self w) = []
  /\ blocked_ips (_reload_lists self w) = ∅
  /\ forall (w' : World) (t : Z) (pkt : Packet),
       (process_packet decode_utf8_ignore fnmatch (_reload_lists self w) w' t pkt).1.1
       <> Drop BlockedIPHit
       /\ (forall d,
             (process_packet decode_utf8_ignore fnmatch
                (_reload_lists self w) w' t pkt).1.1
             <> Drop (BlockedDomain d))
       /\ (forall proto next_header_start,
             protocol pkt = Some (ProtocolPair proto next_header_start) ->
             process_packet decode_utf8_ignore fnmatch (_reload_lists self w) w' t pkt
             = if has_doh_fragment (default [] (payload pkt))
               then (Drop DoH, _reload_lists self w, w')
               else app_stage fnmatch (_reload_lists self w) w' t
                      (default EmptyString (dst_addr pkt))
                      (find_host decode_utf8_ignore (default [] (payload pkt)))).
Proof.
  intros Hoff Hdir.
  assert (reload_blocked_domains w = Ret []) as Hd
    by (unfold reload_blocked_domains, makedirs; by rewrite Hoff, Hdir).
  assert (get_blocked_ips w = Ret ∅) as Hb
    by (unfold get_blocked_ips, makedirs; by rewrite Hoff, Hdir).
  assert (domains (_reload_lists self w) = []) as Hd'
    by (unfold _reload_lists; by rewrite Hd, Hb).
  assert (blocked_ips (_reload_lists self w) = ∅) as Hb'
    by (unfold _reload_lists; by rewrite Hd, Hb).
  repeat (split; [done|]).
  intros w' t pkt.
  rewrite (process_packet_empty_lists decode_utf8_ignore fnmatch _ w' t pkt Hd' Hb').
  split; [|split].
  - destruct (is_quic pkt); [done|].
    destruct (has_doh_fragment _); [done|].
    intros H. by destruct (app_stage_drop _ _ _ _ _ _ _ H).
  - intros d. destruct (is_quic pkt); [done|].
    destruct (has_doh_fragment _); [done|].
    intros H. by destruct (app_stage_drop _ _ _ _ _ _ _ H).
  - intros proto start Hp.
    assert (is_quic pkt = false) as -> by (unfold is_quic; by rewrite Hp).
    done.
Qed.

(** C10.  On every payload both extractors return [None] or a host
    that is its own lowercase form; an exception inside either
    (an index or an unpack behind the end of the payload) is answered
    by [None], and the loops of the TLS parser always come to an end
    within the payload. *)
Theorem host_extractors_total (payload : list byte) :
  (extract_http_host payload = None
   \/ exists h, extract_http_host payload = Some h /\ lower h = h)
  /\ (extract_tls_sni decode_utf8_ignore payload = None
      \/ exists h, extract_tls_sni decode_utf8_ignore payload = Some h
                   /\ lower h = h)
  /\ (exists r, extract_tls_sni_body decode_utf8_ignore payload = Some r
                /\ extract_tls_sni decode_utf8_ignore payload = catch r None)
  /\ extract_http_host payload = catch (extract_http_host_body payload) None.
Proof.
  split.
  { destruct (extract_http_host payload) as [h|] eqn:E; [right | by left].
    exists h. split; [done | by apply extract_http_host_lower in E]. }
  split.
  { destruct (extract_tls_sni decode_utf8_ignore payload) as [h|] eqn:E;
      [right | by left].
    exists h. split; [done | by apply extract_tls_sni_lower in E]. }
  split; [|reflexivity].
  destruct (extract_tls_sni_body_terminates decode_utf8_ignore payload)
    as [r Hr].
  exists r. split; [done|]. unfold extract_tls_sni. by rewrite Hr.
Qed.

End Claims.

(** * The claims at concrete inputs *)

Section Instances.
Import Py Security Install DNSProxy Firewall Samples.

(** The resolver 8.8.8.8 is critical and has no row; a temporary
    block and the loop leave it alone; a resync of [dns.google]
    writes its row, and the reload that follows blocks it. *)
Lemma critical_ips_blocked_by_resync_witness :
  _critical_ips thread_facebook = critical_ips (Some "192.168.137.1")
  /\ tbl_blocked_ips world_dns_google !! "8.8.8.8" = None
  /\ tbl_blocked_ips
       (_add_temporary_block_ip thread_facebook world_dns_google 5000
          "8.8.8.8" "dns.google" 300).2 !! "8.8.8.8"
     = tbl_blocked_ips world_dns_google !! "8.8.8.8"
  /\ (forall row,
        tbl_blocked_ips
          (run_loop dns_google_resolver decode_ascii no_fnmatch
             (thread_facebook, world_dns_google) turns_failed_reload).2.2
          !! "8.8.8.8" = Some row ->
        tbl_blocked_ips world_dns_google !! "8.8.8.8" = Some row)
  /\ tbl_blocked_ips (sync_blocked_ips dns_google_resolver world_dns_google)
       !! "8.8.8.8" = Some null_row
  /\ "8.8.8.8" ∈ blocked_ips
                   (_reload_lists thread_facebook
                      (sync_blocked_ips dns_google_resolver world_dns_google)).
Proof.
  assert (_critical_ips thread_facebook = critical_ips (Some "192.168.137.1"))
    as H1 by reflexivity.
  assert ("8.8.8.8" ∈ ["127.0.0.1"; "0.0.0.0"; "8.8.8.8"; "1.1.1.1";
                       "9.9.9.9"; "208.67.222.222"]
          \/ Some "192.168.137.1" = Some "8.8.8.8") as H2.
  { left. do 2 apply list_elem_of_further. apply list_elem_of_here. }
  destruct (critical_ips_blocked_by_resync dns_google_resolver
              decode_ascii no_fnmatch
              (Some "192.168.137.1") thread_facebook world_dns_google 5000
              "8.8.8.8" "dns.google" 300 "8.8.8.8" H1 H2)
    as (Ha & _ & Hl & Hs).
  split; [exact H1|]. split; [reflexivity|]. split; [exact Ha|].
  split; [exact (Hl turns_failed_reload)|].
  apply (Hs "dns.google"); [reflexivity | apply list_elem_of_here |].
  vm_compute. apply list_elem_of_further, list_elem_of_here.
Defined.

(** Against C2: a cached [*.facebook.com] blocks [facebook.com]. *)
Lemma wildcard_entry_blocks_apex :
  _is_blocked {["*.facebook.com"]} "facebook.com" = true.
Proof. by vm_compute. Qed.

Lemma dns_block_rule_witness :
  _handle_query parse_www_facebook no_upstream {["*.facebook.com"]}
    query_header "10.0.0.2"
  = if _is_blocked {["*.facebook.com"]} (q_qname query_request)
    then [SendTo (DNSRecord_pack_header_only
                    (DNSHeader_new (DNSProxy.id (header query_request)) 1 1 1
                       NXDOMAIN)) "10.0.0.2"]
    else match no_upstream query_header with
         | Some (x :: reply) => [SendTo (x :: reply) "10.0.0.2"]
         | _ => []
         end.
Proof.
  assert (DNSRecord_parse parse_www_facebook query_header = Some query_request)
    as H by reflexivity.
  exact (proj1 (proj2 (dns_block_rule {["*.facebook.com"]} "www.facebook.com."))
           parse_www_facebook no_upstream query_header "10.0.0.2"
           query_request H).
Defined.

Lemma sync_blocked_ips_replaces_table_witness :
  online world_dns_google = true
  /\ (forall ip row,
        tbl_blocked_ips (sync_blocked_ips dns_google_resolver world_dns_google)
          !! ip = Some row ->
        row = null_row)
  /\ tbl_blocked_ips (sync_blocked_ips dns_google_resolver world_dns_google)
       !! "8.8.4.4" = Some null_row
  /\ tbl_blocked_domains (sync_blocked_ips dns_google_resolver world_dns_google)
     = ["dns.google"]
  /\ domain_update_event (sync_blocked_ips dns_google_resolver world_dns_google)
     = false
  /\ domain_update_event
       (add_blocked_domain dns_google_resolver "example.org" world_dns_google)
     = true.
Proof.
  assert (online world_dns_google = true) as H by reflexivity.
  destruct (sync_blocked_ips_replaces_table dns_google_resolver
              world_dns_google H) as (Hr & Hi & Hd & He & Ha & _).
  split; [exact H|].
  split; [intros ip row Hrow; exact (proj1 (Hr ip row Hrow))|].
  split.
  { apply (Hi None "dns.google" "8.8.4.4").
    - apply list_elem_of_here.
    - vm_compute. apply list_elem_of_here.
    - apply (bool_decide_eq_false_1 ("8.8.4.4" ∈ critical_ips None)).
      vm_compute. reflexivity. }
  split; [exact Hd|]. split; [exact He|].
  exact (proj1 (Ha "example.org")).
Defined.

(** Against C3: a row with an expiry does not survive a resync. *)
Lemma sync_deletes_temporary_rows :
  tbl_blocked_ips world_with_temp_row !! "142.250.190.14" = Some temp_row
  /\ expires_at temp_row = Some 1700000300%Z
  /\ online world_with_temp_row = true
  /\ tbl_blocked_ips (sync_blocked_ips no_resolver world_with_temp_row)
       !! "142.250.190.14" = None.
Proof. repeat split; by vm_compute. Qed.

(** A captured HTTP/3 datagram to an address that is not blocked is
    re-injected. *)
Lemma captured_udp_443_is_reinjected_witness :
  protocol pkt_quic = Some (ProtocolPair (Some UDP) 20)
  /\ dst_port pkt_quic = Some 443%Z
  /\ is_quic pkt_quic = false
  /\ process_packet decode_ascii no_fnmatch thread_facebook world_facebook
       10500 pkt_quic
     = (Reinject, thread_facebook, world_facebook)
  /\ (run_loop no_resolver decode_ascii no_fnmatch
        (thread_facebook, world_facebook)
        [ {| now := 10500; db_online := true; db_directory_missing := false;
             reload_signal := false; received := Some pkt_quic |} ]).1
     = [(pkt_quic, Reinject)]
  /\ reinjected
       (run_loop no_resolver decode_ascii no_fnmatch
          (thread_facebook, world_facebook) turns_failed_reload).1
     = [pkt_quic].
Proof.
  assert (protocol pkt_quic = Some (ProtocolPair (Some UDP) 20))
    as H1 by reflexivity.
  assert (dst_port pkt_quic = Some 443%Z) as H2 by reflexivity.
  destruct (captured_udp_443_is_reinjected no_resolver decode_ascii no_fnmatch
              thread_facebook world_facebook 10500 pkt_quic 20 H1 H2)
    as (Hq & _ & Hr).
  split; [exact H1|]. split; [exact H2|]. split; [exact Hq|].
  split; [|split; by vm_compute].
  apply Hr.
  - apply (bool_decide_eq_false_1
             (default EmptyString (dst_addr pkt_quic)
                ∈ blocked_ips thread_facebook)).
    vm_compute. reflexivity.
  - vm_compute. reflexivity.
  - vm_compute. reflexivity.
  - vm_compute. reflexivity.
Defined.

Lemma domain_match_then_fallback_scan_witness :
  (forall d, d ∈ ["facebook.com"] ->
     host_matches (default EmptyString (Some "example.org")) d = false)
  /\ find_domain_hit (Some "example.org") http_share_request ["facebook.com"]
     = List.find (payload_mentions (bytes_lower http_share_request))
         ["facebook.com"].
Proof.
  assert (forall d, d ∈ ["facebook.com"] ->
            host_matches (default EmptyString (Some "example.org")) d = false)
    as H.
  { intros d Hd. apply list_elem_of_singleton in Hd. subst d. reflexivity. }
  split; [exact H|].
  exact (proj1 (proj2 (domain_match_then_fallback_scan (Some "example.org")
                         http_share_request ["facebook.com"]))
           (or_intror H)).
Defined.

(** Against C5: the request carries the host [example.org], which
    matches no blocked domain, and is still dropped for
    [facebook.com], found by the substring scan. *)
Lemma fallback_scan_runs_with_host :
  find_host decode_ascii http_share_request = Some "example.org"
  /\ List.find (host_matches "example.org") (domains thread_facebook) = None
  /\ find_domain_hit (Some "example.org") http_share_request
       (domains thread_facebook) = Some "facebook.com"
  /\ (process_packet decode_ascii no_fnmatch thread_facebook world_facebook
        5000 pkt_share).1.1
     = Drop (BlockedDomain "facebook.com").
Proof. repeat split; by vm_compute. Qed.

Lemma blocked_query_gets_nxdomain_witness :
  exists reply h,
    _handle_query parse_www_facebook no_upstream {["facebook.com"]}
      query_header "10.0.0.2" = [SendTo reply "10.0.0.2"]
    /\ length reply = 12
    /\ DNSHeader_parse reply = Some h
    /\ DNSProxy.id h = 4660%Z
    /\ get_qr h = 1%Z /\ get_aa h = 1%Z /\ get_ra h = 1%Z
    /\ get_rcode h = NXDOMAIN
    /\ q h = 0%Z /\ a h = 0%Z /\ auth h = 0%Z /\ ar h = 0%Z.
Proof.
  assert (DNSRecord_parse parse_www_facebook query_header = Some query_request)
    as H1 by reflexivity.
  assert (_is_blocked {["facebook.com"]} (rstrip "." (q_qname query_request))
          = true) as H2 by (by vm_compute).
  exact (blocked_query_gets_nxdomain parse_www_facebook no_upstream
           {["facebook.com"]} query_header "10.0.0.2" query_request H1 H2).
Defined.

Lemma first_run_admin_has_import_password_witness :
  validate_user toy_kdf "admin" "admin"
    (users (ensure_fresh_installation toy_kdf salt_a salt_b first_run).2) = true
  /\ validate_user toy_kdf "admin" "password"
       (users (ensure_fresh_installation toy_kdf salt_a salt_b first_run).2)
     = false.
Proof.
  assert (toy_kdf (encode "admin") salt_a 150000
          <> toy_kdf (encode "password") salt_a 150000) as H
    by discriminate.
  destruct (first_run_admin_has_import_password toy_kdf salt_a salt_b H)
    as (_ & _ & _ & Ha & Hp).
  split; [exact Ha | exact Hp].
Defined.

Lemma hash_then_verify_witness :
  exists dk stored,
    dk = toy_kdf (encode "password") salt_a PBKDF2_ITERATIONS
    /\ stored = "150000" ++ "$" ++ hex salt_a ++ "$" ++ hex dk
    /\ hash_password toy_kdf salt_a "password" PBKDF2_ITERATIONS = Ret stored
    /\ split "$" stored = ["150000"; hex salt_a; hex dk]
    /\ String.length (hex salt_a) = 32
    /\ (forall candidate,
          verify_password toy_kdf stored candidate
          = compare_digest dk
              (toy_kdf (encode candidate) salt_a PBKDF2_ITERATIONS))
    /\ verify_password toy_kdf stored "password" = true.
Proof.
  assert ("password" <> EmptyString) as H1 by discriminate.
  assert (length salt_a = SALT_BYTES) as H2 by reflexivity.
  exact (hash_then_verify toy_kdf salt_a "password" H1 H2).
Defined.

Lemma failed_reload_empties_lists_witness :
  online world_offline = false
  /\ directory_missing world_offline = false
  /\ domains (_reload_lists thread_facebook world_offline) = []
  /\ blocked_ips (_reload_lists thread_facebook world_offline) = ∅
  /\ process_packet decode_ascii no_fnmatch
       (_reload_lists thread_facebook world_offline) world_offline 10500 pkt_doh
     = (Drop DoH, _reload_lists thread_facebook world_offline, world_offline).
Proof.
  assert (online world_offline = false) as H by reflexivity.
  assert (directory_missing world_offline = false) as H' by reflexivity.
  destruct (failed_reload_empties_lists decode_ascii no_fnmatch
              thread_facebook world_offline H H') as (_ & _ & Hd & Hb & Hp).
  split; [exact H|]. split; [exact H'|]. split; [exact Hd|].
  split; [exact Hb|].
  destruct (Hp world_offline 10500%Z pkt_doh) as (_ & _ & Hdoh).
  exact (Hdoh (Some TCP) 20%Z eq_refl).
Defined.

(** Against C9: after a reload that failed on a database error, the
    lists are empty and the next packet, a DNS-over-HTTPS request to
    an address that was never blocked, is dropped, not re-injected;
    and when the directory of the database is missing, the readers
    raise and the reload keeps the lists it had. *)
Lemma failed_reload_still_drops_doh :
  let r := run_loop no_resolver decode_ascii no_fnmatch
             (thread_facebook, world_facebook) turns_failed_reload_doh in
  domains r.2.1 = []
  /\ elements (blocked_ips r.2.1) = []
  /\ r.1 = [(pkt_doh, Drop DoH)]
  /\ reinjected r.1 = []
  /\ reload_blocked_domains world_no_directory = Raise
  /\ get_blocked_ips world_no_directory = Raise
  /\ domains (_reload_lists thread_facebook world_no_directory)
     = ["facebook.com"]
  /\ elements (blocked_ips (_reload_lists thread_facebook world_no_directory))
     = ["157.240.1.35"].
Proof. repeat split; by vm_compute. Qed.

(** The TLS parser on three ClientHello messages: a well-formed one,
    one whose server-name list runs past the payload (the read
    raises and the handler answers [None]), and one whose extension
    block is longer than the payload. *)
Example extract_tls_sni_samples :
  extract_tls_sni decode_ascii client_hello_youtube = Some "video.youtube.com"
  /\ extract_tls_sni_body decode_ascii client_hello_overrun = Some Raise
  /\ extract_tls_sni decode_ascii client_hello_overrun = None
  /\ extract_tls_sni_body decode_ascii client_hello_short = Some (Ret None)
  /\ extract_tls_sni decode_ascii client_hello_short = None.
Proof. repeat split; by vm_compute. Qed.

Example extract_http_host_samples :
  extract_http_host http_share_request = Some "example.org"
  /\ extract_http_host (b "GET / HTTP/1.1") = None
  /\ extract_http_host [] = None
  /\ extract_http_host (b "CONNECT example.org:443 HTTP/1.1") = None.
Proof. repeat split; by vm_compute. Qed.

(** The string and number helpers on inputs whose Python results are
    known. *)
Example py_string_samples :
  lower "Www.Example.COM" = "www.example.com"
  /\ rstrip "." "a.b.." = "a.b"
  /\ lstrip "*." "*.*.a.b" = "a.b"
  /\ strip "  x y " = "x y"
  /\ split ":" "a:b:c" = ["a"; "b"; "c"]
  /\ split ":" "" = [""]
  /\ split_max ":" 1 "Host: h:80" = ["Host"; " h:80"]
  /\ split CRLF ("ab" ++ CRLF ++ "cd" ++ CRLF) = ["ab"; "cd"; ""]
  /\ endswith "www.a.com" ".a.com" = true
  /\ endswith "xa.com" ".a.com" = false.
Proof. repeat split; by vm_compute. Qed.

Example security_samples :
  str_of_int 150000 = "150000"
  /\ int " +1_000 " = Ret 1000%Z
  /\ int "1__0" = Raise
  /\ int "" = Raise
  /\ hex [Byte.x41; Byte.x5a] = "415a"
  /\ fromhex "41 5A" = Ret [Byte.x41; Byte.x5a]
  /\ fromhex "4" = Raise
  /\ verify_password toy_kdf "admin123" "admin123" = false.
Proof. repeat split; by vm_compute. Qed.

(** [_resolve_and_store_ips], which the loop never calls, stores what
    the lookup returns as it is. *)
Example resolve_and_store_ips_sample :
  tbl_blocked_ips
    (_resolve_and_store_ips dns_google_resolver thread_facebook
       world_dns_google "dns.google").2 !! "8.8.8.8" = Some null_row.
Proof. by vm_compute. Qed.

End Instances.


(** * Further properties of the code *)

(** ** Accounts: core/security.py and db/storage.py *)

Section AccountFacts.
Import Py Security Storage.

Lemma split_go_length (x : ascii) (s cur : string) :
  length (split_go (String x EmptyString) None 0 cur s) = S (count_char x s).
Proof.
  revert cur. induction s as [|c s IH]; intros cur; [reflexivity|].
  cbn [split_go startswith count_char]. rewrite andb_true_r.
  cbn [andb String.length Nat.sub fmap option_fmap option_map].
  destruct (Ascii.eqb x c); cbn [length]; by rewrite IH.
Qed.

Lemma has_admin_spec (users : gmap string User) :
  has_admin users = true
  <-> exists k u, users !! k = Some u /\ role u = "admin".
Proof.
  unfold has_admin. rewrite existsb_exists. split.
  - intros ([k u] & Hin & Hr). exists k, u. split.
    + by apply elem_of_map_to_list, list_elem_of_In.
    + by apply String.eqb_eq.
  - intros (k & u & Hl & Hr). exists (k, u). split.
    + by apply list_elem_of_In, elem_of_map_to_list.
    + by apply String.eqb_eq.
Qed.

Variable pbkdf2_sha256 : list byte -> list byte -> Z -> list byte.

Lemma verify_password_field_count (stored candidate : string) :
  count_char "$" stored <> 2 ->
  verify_password pbkdf2_sha256 stored candidate = false.
Proof.
  intros H. unfold verify_password, split.
  pose proof (split_go_length "$" stored EmptyString) as Hlen.
  destruct (split_go _ _ _ _ stored) as [|p0 [|p1 [|p2 [|p3 l]]]];
    try reflexivity.
  cbn [length] in Hlen. congruence.
Qed.

(** X1.  A stored string that does not consist of exactly three
    [$]-separated fields (a plain-text password of an old row, for one)
    is rejected for every candidate password, without an exception. *)
Theorem verify_password_needs_three_fields (stored candidate : string) :
  count_char "$" stored <> 2 ->
  verify_password pbkdf2_sha256 stored candidate = false.
Proof.
  intros H. unfold verify_password, split.
  assert (length (split_go "$" None 0 EmptyString stored) <> 3) as Hlen
    by (rewrite split_go_length; lia).
  destruct (split_go _ _ _ _ stored) as [|p0 [|p1 [|p2 [|p3 l]]]];
    try reflexivity.
  by destruct Hlen.
Qed.

Lemma stored_hash_validates (salt : list byte) (p candidate : string) :
  verify_password pbkdf2_sha256
    ("150000" ++ "$" ++ hex salt ++ "$"
     ++ hex (pbkdf2_sha256 (encode p) salt 150000)) candidate
  = compare_digest (pbkdf2_sha256 (encode p) salt 150000)
      (pbkdf2_sha256 (encode candidate) salt 150000).
Proof.
  exact (verify_password_stored pbkdf2_sha256 salt _ 150000 candidate
           ltac:(unfold INT_MAX; lia)).
Qed.

Lemma compare_digest_false (x y : list byte) :
  x <> y -> compare_digest x y = false.
Proof.
  intros H. unfold compare_digest.
  destruct (bytes_eqb x y) eqn:E; [|reflexivity].
  by apply bytes_eqb_eq in E.
Qed.

(** X2.  Creating a user under a free name with a non-empty password
    succeeds; the new account validates with that password, is an
    administrator exactly when its role reads "admin" in any case, and
    no other row changes. *)
Theorem create_user_then_validate (salt : list byte) (u p r : string)
    (users : gmap string User) :
  p <> EmptyString -> users !! u = None ->
  exists users',
    create_user pbkdf2_sha256 salt u p r users = Ret (true, users')
    /\ validate_user pbkdf2_sha256 u p users' = true
    /\ is_admin u users' = String.eqb (lower r) "admin"
    /\ forall v, v <> u -> users' !! v = users !! v.
Proof.
  intros Hp Hu. unfold create_user.
  rewrite hash_password_default by done. cbn [bind]. rewrite Hu.
  eexists. split; [reflexivity|].
  unfold validate_user, is_admin. rewrite lookup_insert_eq. cbn [password role].
  split; [rewrite stored_hash_validates; apply bytes_eqb_refl|].
  split; [reflexivity|].
  intros v Hv. by rewrite lookup_insert_ne.
Qed.

(** X3.  [create_user] never overwrites: a second call under a
    name that the first call has taken answers [False] and leaves the
    table as the first call left it, so the first password stays in
    force, the second one is rejected (unless the key derivation
    gives both the same key) and the first role is kept; with an
    empty password the call raises before the table is looked at. *)
Theorem create_user_keeps_existing (salt0 salt1 : list byte)
    (u p0 p1 r0 r1 : string) (users : gmap string User) :
  p0 <> EmptyString -> p1 <> EmptyString -> users !! u = None ->
  exists users1,
    create_user pbkdf2_sha256 salt0 u p0 r0 users = Ret (true, users1)
    /\ create_user pbkdf2_sha256 salt1 u p1 r1 users1 = Ret (false, users1)
    /\ validate_user pbkdf2_sha256 u p0 users1 = true
    /\ (pbkdf2_sha256 (encode p0) salt0 150000
          <> pbkdf2_sha256 (encode p1) salt0 150000 ->
        validate_user pbkdf2_sha256 u p1 users1 = false)
    /\ is_admin u users1 = String.eqb (lower r0) "admin"
    /\ create_user pbkdf2_sha256 salt1 u EmptyString r1 users1 = Raise.
Proof.
  intros Hp0 Hp1 Hu. unfold create_user.
  rewrite !hash_password_default by done. cbn [bind]. rewrite Hu.
  eexists. split; [reflexivity|].
  rewrite lookup_insert_eq. split; [reflexivity|].
  unfold validate_user, is_admin. rewrite lookup_insert_eq.
  cbn [password role]. rewrite !stored_hash_validates.
  split; [apply bytes_eqb_refl|].
  split; [apply compare_digest_false|].
  split; reflexivity.
Qed.

(** X4.  [set_password] on an existing user answers [True]; afterwards
    the new password validates, every candidate whose derived key
    differs from the new one (the old password, unless the key
    derivation collides) is rejected, the role is kept and no other row
    changes.  For an unknown user it answers [False] and changes
    nothing. *)
Theorem set_password_replaces_hash (salt : list byte) (u p : string)
    (users : gmap string User) :
  p <> EmptyString ->
  (forall old, users !! u = Some old ->
     exists users',
       set_password pbkdf2_sha256 salt u p users = Ret (true, users')
       /\ validate_user pbkdf2_sha256 u p users' = true
       /\ (forall candidate,
             pbkdf2_sha256 (encode p) salt 150000
               <> pbkdf2_sha256 (encode candidate) salt 150000 ->
             validate_user pbkdf2_sha256 u candidate users' = false)
       /\ is_admin u users' = is_admin u users
       /\ forall v, v <> u -> users' !! v = users !! v)
  /\ (users !! u = None ->
      set_password pbkdf2_sha256 salt u p users = Ret (false, users)).
Proof.
  intros Hp. unfold set_password.
  rewrite hash_password_default by done. cbn [bind]. split.
  - intros old Hu. rewrite Hu. eexists. split; [reflexivity|].
    unfold validate_user, is_admin. rewrite lookup_insert_eq, Hu.
    cbn [password role].
    split; [rewrite stored_hash_validates; apply bytes_eqb_refl|].
    split.
    { intros candidate Hc. rewrite stored_hash_validates.
      by apply compare_digest_false. }
    split; [reflexivity|].
    intros v Hv. by rewrite lookup_insert_ne.
  - by intros ->.
Qed.

(** X5.  On a users database that can be opened,
    [ensure_default_admin] returns, never changes an existing row and
    adds at most the row [admin]; afterwards some account has the
    role admin unless the name [admin] was taken by a user of another
    role, a second call changes nothing, and an account it creates
    validates with the password "admin".  On a users database that
    cannot be opened or read, the sqlite error leaves the function,
    and with it the import of the module. *)
Theorem ensure_default_admin_effect (salt : list byte)
    (users : gmap string User) :
  (exists users',
    ensure_default_admin pbkdf2_sha256 true salt users = Ret users'
    /\ (forall k u, users !! k = Some u -> users' !! k = Some u)
    /\ (forall k, k <> "admin" -> users' !! k = users !! k)
    /\ (has_admin users' = true
        <-> has_admin users = true \/ users !! "admin" = None)
    /\ (has_admin users = false -> users !! "admin" = None ->
        validate_user pbkdf2_sha256 "admin" "admin" users' = true)
    /\ forall salt',
        ensure_default_admin pbkdf2_sha256 true salt' users' = Ret users')
  /\ ensure_default_admin pbkdf2_sha256 false salt users = Raise
  /\ module_init pbkdf2_sha256 false salt users = Raise.
Proof.
  split; [|by split].
  unfold ensure_default_admin. cbn [negb].
  destruct (has_admin users) eqn:Ha.
  { exists users. rewrite Ha. repeat split; try done. by left. }
  rewrite hash_password_default by discriminate. cbn [bind].
  destruct (users !! "admin") as [a|] eqn:Hu.
  { exists users. rewrite Ha.
    repeat split; try done; [intros [H | H]; done|].
    intros salt'. rewrite hash_password_default by discriminate.
    cbn [bind]. by rewrite Hu. }
  eexists. split; [reflexivity|].
  set (row := {| password := _; role := "admin" |}).
  assert (has_admin (<["admin" := row]> users) = true) as Ha'.
  { apply has_admin_spec. exists "admin", row.
    by rewrite lookup_insert_eq. }
  split.
  { intros k u Hk. rewrite lookup_insert_ne; [done|]. by intros <-; congruence. }
  split; [intros k Hk; by rewrite lookup_insert_ne|].
  split; [split; [by right | done]|].
  split.
  { intros _ _. unfold validate_user. rewrite lookup_insert_eq.
    subst row. cbn [password]. rewrite stored_hash_validates.
    apply bytes_eqb_refl. }
  intros salt'. by rewrite Ha'.
Qed.

(** X6.  An account written by the storage helpers keeps its password
    as plain text: [storage.verify_user] accepts it, while
    [security.validate_user], which the login page calls, rejects every
    password for it unless the stored text happens to have two [$].
    The default account admin/admin123 of [init_user_db] is such an
    account. *)
Theorem storage_accounts_fail_hashed_login (u pw r candidate : string)
    (users : gmap string User) :
  count_char "$" pw <> 2 -> users !! u = None ->
  verify_user true u pw (add_user true u pw r users) = Some (u, r)
  /\ validate_user pbkdf2_sha256 u candidate (add_user true u pw r users) = false
  /\ (users !! "admin" = None ->
      verify_user true "admin" "admin123" (init_user_db users)
      = Some ("admin", "admin")
      /\ validate_user pbkdf2_sha256 "admin" candidate (init_user_db users)
         = false).
Proof.
  intros Hpw Hu. unfold add_user, verify_user, validate_user, init_user_db.
  rewrite Hu, !lookup_insert_eq. cbn [password role].
  rewrite String.eqb_refl.
  split; [reflexivity|].
  split; [by apply verify_password_field_count|].
  intros ->. rewrite lookup_insert_eq. cbn [password role].
  split; [reflexivity|].
  by apply verify_password_field_count.
Qed.

End AccountFacts.

(** ** The first-run bootstrap, continued *)

Section BootstrapFacts.
Import Py Security Install.

Variable pbkdf2_sha256 : list byte -> list byte -> Z -> list byte.

(** X7.  When the users table already holds an administrator and no
    user named [admin], the first run does create admin/password: the
    marker says [admin_created = true], the advertised credentials
    validate, and every other account is left as it was. *)
Theorem first_run_with_other_admin (s1 s2 : list byte) (h : Host) :
  marker_file h = None ->
  has_admin (users h) = true ->
  users h !! "admin" = None ->
  let r := ensure_fresh_installation pbkdf2_sha256 s1 s2 h in
  r.1 = fresh
  /\ marker_file r.2
     = Some {| credentials_username := "admin";
               credentials_password := "password";
               admin_created := true |}
  /\ validate_user pbkdf2_sha256 "admin" "password" (users r.2) = true
  /\ is_admin "admin" (users r.2) = true
  /\ forall k, k <> "admin" -> users r.2 !! k = users h !! k.
Proof.
  intros Hm Ha Hu r. subst r.
  unfold ensure_fresh_installation. rewrite Hm.
  assert (exists h1, import_security pbkdf2_sha256 s1 h = Ret h1
                     /\ users h1 = users h) as (h1 & Hi & Hu1).
  { unfold import_security, module_init, ensure_default_admin.
    destruct (security_imported h); [by exists h|].
    rewrite Ha. cbn [bind]. by eexists. }
  unfold _create_default_admin. rewrite Hi. unfold create_user.
  rewrite hash_password_default by discriminate. cbn [bind].
  rewrite Hu1. unfold DEFAULT_ADMIN_username. rewrite Hu.
  cbn [fst snd marker_file users].
  split; [reflexivity|]. split; [reflexivity|].
  unfold validate_user, is_admin. rewrite lookup_insert_eq.
  cbn [password role].
  split; [rewrite stored_hash_validates; apply bytes_eqb_refl|].
  split; [reflexivity|].
  intros k Hk. by rewrite lookup_insert_ne.
Qed.

End BootstrapFacts.

(** ** The DNS proxy, continued *)

Section DNSMoreFacts.
Import Py DNSProxy.

Lemma string_app_assoc (s t u : string) : (s ++ t) ++ u = s ++ t ++ u.
Proof.
  induction s as [|c s IH]; [reflexivity|].
  by rewrite !string_app_cons, IH.
Qed.

Lemma lower_app (s t : string) : lower (s ++ t) = lower s ++ lower t.
Proof.
  induction s as [|c s IH]; [reflexivity|].
  rewrite string_app_cons. cbn [lower]. by rewrite IH, string_app_cons.
Qed.

Lemma rstrip_by_app (p : ascii -> bool) (s t : string) :
  rstrip_by p t <> EmptyString ->
  rstrip_by p (s ++ t) = s ++ rstrip_by p t.
Proof.
  intros Ht. induction s as [|c s IH]; [reflexivity|].
  rewrite !string_app_cons. cbn [rstrip_by]. rewrite IH.
  destruct (s ++ rstrip_by p t) as [|x r] eqn:E; [|reflexivity].
  destruct s; [|discriminate E]. by rewrite string_app_nil in E.
Qed.

Lemma rstrip_by_all (p : ascii -> bool) (t : string) :
  (forall c, occurs c t -> p c = true) -> rstrip_by p t = EmptyString.
Proof.
  induction t as [|c t IH]; [reflexivity|].
  intros H. cbn [rstrip_by]. rewrite IH by (intros; apply H; by right).
  by rewrite (H c) by (by left).
Qed.

Lemma rstrip_by_app_stripped (p : ascii -> bool) (s t : string) :
  (forall c, occurs c t -> p c = true) ->
  rstrip_by p (s ++ t) = rstrip_by p s.
Proof.
  intros Ht. induction s as [|c s IH].
  - rewrite string_app_nil. by apply rstrip_by_all.
  - rewrite string_app_cons. cbn [rstrip_by]. by rewrite IH.
Qed.

Lemma lower_char_dot (c : ascii) :
  mem_char (lower_char c) "." = mem_char c ".".
Proof. destruct c as [[] [] [] [] [] [] [] []]; reflexivity. Qed.

Lemma rstrip_dot_lower (s : string) :
  rstrip "." (lower s) = lower (rstrip "." s).
Proof.
  unfold rstrip. induction s as [|c s IH]; [reflexivity|].
  cbn [lower rstrip_by]. rewrite IH, lower_char_dot.
  destruct (rstrip_by _ s) as [|x r]; cbn [lower]; [|reflexivity].
  by destruct (mem_char c ".").
Qed.

(** X8.  Blocking is closed under subdomains: when a name is blocked
    (and is not the empty root name), every name with further labels in
    front of it is blocked as well. *)
Theorem blocked_names_block_subdomains (cache : gset string)
    (qname label : string) :
  _is_blocked cache qname = true ->
  rstrip "." qname <> EmptyString ->
  _is_blocked cache (label ++ "." ++ qname) = true.
Proof.
  intros Hb Hne. apply is_blocked_spec in Hb as (d & Hd & Hm).
  apply is_blocked_spec. exists d. split; [done|].
  apply domain_matches_spec in Hm as (Hd0 & Hm).
  apply domain_matches_spec. split; [done|]. right.
  assert (rstrip "." (label ++ "." ++ qname)
          = (label ++ ".") ++ rstrip "." qname) as ->.
  { rewrite <- string_app_assoc. by apply rstrip_by_app. }
  rewrite lower_app.
  destruct Hm as [-> | (pre & ->)].
  - exists (lower label). rewrite lower_app. by rewrite string_app_assoc.
  - exists (lower label ++ "." ++ pre).
    rewrite lower_app, !string_app_assoc. reflexivity.
Qed.

(** X9.  The answer does not depend on the case of the query name nor
    on trailing dots: lowercasing the name or adding a final dot gives
    the same verdict. *)
Theorem blocking_ignores_case_and_final_dot (cache : gset string)
    (qname : string) :
  _is_blocked cache (lower qname) = _is_blocked cache qname
  /\ _is_blocked cache (qname ++ ".") = _is_blocked cache qname.
Proof.
  unfold _is_blocked. split.
  - by rewrite rstrip_dot_lower, lower_idem.
  - unfold rstrip. rewrite rstrip_by_app_stripped; [reflexivity|].
    intros c [-> | []]. reflexivity.
Qed.

Lemma refresh_cache_elem_of (rows : list string) (old : gset string)
    (c : string) :
  c ∈ _refresh_cache (Some rows) old
  <-> exists d, d ∈ rows /\ d <> EmptyString /\ c = strip (lower d).
Proof.
  unfold _refresh_cache. rewrite elem_of_list_to_set, list_elem_of_In, in_map_iff.
  split.
  - intros (d & <- & Hin). apply list_elem_of_In, list_elem_of_filter in Hin.
    exists d. tauto.
  - intros (d & Hin & Hne & ->). exists d. split; [done|].
    apply list_elem_of_In, list_elem_of_filter. tauto.
Qed.

(** X10.  Refresh then lookup: after the cache has been refreshed from
    the table, a row that is in the form the proxy compares with
    (non-empty, lowercase, no surrounding whitespace, no leading [*] or
    [.], no trailing dot) is blocked under its own name, whatever the
    cache held before. *)
Theorem refreshed_rows_are_blocked (rows : list string) (old : gset string)
    (d : string) :
  d ∈ rows -> d <> EmptyString ->
  lower d = d -> strip d = d -> lstrip "*." d = d -> rstrip "." d = d ->
  _is_blocked (_refresh_cache (Some rows) old) d = true.
Proof.
  intros Hin Hne Hl Hs Hls Hrs. apply is_blocked_spec. exists d. split.
  - apply refresh_cache_elem_of. exists d. by rewrite Hl, Hs.
  - apply domain_matches_spec. split; [done|]. left.
    by rewrite Hrs, Hl, Hls.
Qed.

End DNSMoreFacts.

(** ** The blocklist store, continued *)

Section StoreMoreFacts.
Import Py Firewall.

Lemma lookup_filter_expired (t : gmap string BlockedIP) (now : Z)
    (ip : string) (row : BlockedIP) :
  filter (fun kv => expired now kv.2 = false) t !! ip = Some row
  <-> t !! ip = Some row /\ expired now row = false.
Proof. by rewrite map_lookup_filter_Some. Qed.

(** X11.  Sweep of expired rows: on an available database a row stays
    exactly when it has no expiry or its expiry lies after the clock,
    and it stays unchanged; the in-memory set is then the key set of
    the table.  On an unavailable database nothing changes. *)
Theorem cleanup_removes_exactly_expired (self : FirewallThread) (w : World)
    (now : Z) :
  (online w = true ->
   (forall ip row,
      tbl_blocked_ips (_cleanup_expired_blocked_ips self w now).2 !! ip = Some row
      <-> tbl_blocked_ips w !! ip = Some row
          /\ (forall e, expires_at row = Some e -> (utc_seconds now < e)%Z))
   /\ blocked_ips (_cleanup_expired_blocked_ips self w now).1
      = dom (tbl_blocked_ips (_cleanup_expired_blocked_ips self w now).2)
   /\ domains (_cleanup_expired_blocked_ips self w now).1 = domains self
   /\ tbl_blocked_domains (_cleanup_expired_blocked_ips self w now).2
      = tbl_blocked_domains w)
  /\ (online w = false -> _cleanup_expired_blocked_ips self w now = (self, w)).
Proof.
  unfold _cleanup_expired_blocked_ips. split; intros Hon; rewrite Hon; [|done].
  cbn [fst snd tbl_blocked_ips with_blocked_ips tbl_blocked_domains].
  split.
  - intros ip row. rewrite lookup_filter_expired. unfold expired.
    split; intros [H1 H2]; (split; [done|]).
    + intros e He. rewrite He in H2. by apply Z.leb_gt in H2.
    + destruct (expires_at row) as [e|]; [|done].
      apply Z.leb_gt. by apply H2.
  - rewrite refresh_blocked_ips_online by done.
    split; [done|]. split; [|done].
    by destruct (refresh_blocked_ips_frame self (with_blocked_ips
         (filter (fun kv => expired now kv.2 = false) (tbl_blocked_ips w)) w)).
Qed.

(** X12.  A temporary block that is accepted (non-empty address
    outside the critical set, database available) writes the row
    (tag, now + ttl, "auto-temp") for that address, replacing whatever
    row was there, leaves every other row alone, and makes the
    in-memory set the key set of the table, so the address is blocked
    from the next packet on.  A refused one (empty or critical address,
    or unavailable database) changes nothing. *)
Theorem add_temporary_block_ip_effect (self : FirewallThread) (w : World)
    (now : Z) (ip tag : string) (ttl : Z) :
  (ip <> EmptyString -> ip ∉ _critical_ips self -> online w = true ->
   tbl_blocked_ips (_add_temporary_block_ip self w now ip tag ttl).2 !! ip
   = Some {| domain := Some tag;
             expires_at := Some (utc_seconds now + ttl)%Z;
             reason := Some "auto-temp" |}
   /\ (forall j, j <> ip ->
         tbl_blocked_ips (_add_temporary_block_ip self w now ip tag ttl).2 !! j
         = tbl_blocked_ips w !! j)
   /\ blocked_ips (_add_temporary_block_ip self w now ip tag ttl).1
      = {[ip]} ∪ dom (tbl_blocked_ips w)
   /\ domains (_add_temporary_block_ip self w now ip tag ttl).1 = domains self)
  /\ (ip = EmptyString \/ ip ∈ _critical_ips self \/ online w = false ->
      _add_temporary_block_ip self w now ip tag ttl = (self, w)).
Proof.
  unfold _add_temporary_block_ip. split.
  - intros Hne Hc Hon.
    destruct (String.eqb ip EmptyString) eqn:E; [by apply String.eqb_eq in E|].
    rewrite bool_decide_eq_false_2 by done. rewrite Hon.
    cbn [fst snd tbl_blocked_ips with_blocked_ips].
    split; [by rewrite lookup_insert_eq|].
    split; [intros j Hj; by rewrite lookup_insert_ne|].
    rewrite refresh_blocked_ips_online by done.
    split; [|done].
    cbn [blocked_ips set_blocked_ips set_lists tbl_blocked_ips with_blocked_ips].
    by rewrite dom_insert_L.
  - intros [-> | [Hc | Hoff]]; [done | |].
    + destruct (String.eqb ip EmptyString); [done|].
      by rewrite bool_decide_eq_true_2.
    + destruct (String.eqb ip EmptyString); [done|].
      case_bool_decide; [done|]. by rewrite Hoff.
Qed.

(** X13.  Lifetime of a temporary block: a sweep before the expiry
    time keeps the row and the address stays blocked in memory; a sweep
    at or after the expiry time deletes the row and the address is no
    longer blocked. *)
Theorem temporary_block_expires (self : FirewallThread) (w : World)
    (t1 t2 : Z) (ip tag : string) (ttl : Z) :
  ip <> EmptyString -> ip ∉ _critical_ips self -> online w = true ->
  let '(self1, w1) := _add_temporary_block_ip self w t1 ip tag ttl in
  let '(self2, w2) := _cleanup_expired_blocked_ips self1 w1 t2 in
  ((utc_seconds t2 < utc_seconds t1 + ttl)%Z ->
     is_Some (tbl_blocked_ips w2 !! ip) /\ ip ∈ blocked_ips self2)
  /\ ((utc_seconds t1 + ttl <= utc_seconds t2)%Z ->
     tbl_blocked_ips w2 !! ip = None /\ ip ∉ blocked_ips self2).
Proof.
  intros Hne Hc Hon. unfold _add_temporary_block_ip.
  destruct (String.eqb ip EmptyString) eqn:E; [by apply String.eqb_eq in E|].
  rewrite bool_decide_eq_false_2 by done. rewrite Hon.
  unfold _cleanup_expired_blocked_ips.
  cbn [online with_blocked_ips]. rewrite Hon.
  rewrite !refresh_blocked_ips_online by done.
  cbn [blocked_ips set_blocked_ips set_lists tbl_blocked_ips with_blocked_ips].
  set (row := {| domain := Some tag; expires_at := _; reason := _ |}).
  set (t := filter _ _).
  assert (forall r, t !! ip = Some r <-> r = row /\ expired t2 row = false) as Ht.
  { intros r. subst t. rewrite lookup_filter_expired, lookup_insert_eq.
    split; [intros [[= <-] H]; done | intros [-> H]; done]. }
  split; intros Hlt.
  - assert (t !! ip = Some row) as Hrow.
    { apply Ht. split; [done|]. unfold expired. subst row. cbn [expires_at].
      by apply Z.leb_gt. }
    split; [by eexists|]. apply elem_of_dom. by eexists.
  - assert (t !! ip = None) as Hnone.
    { apply eq_None_not_Some. intros [r Er].
      apply Ht in Er as [_ Hex]. unfold expired in Hex. subst row.
      cbn [expires_at] in Hex. apply Z.leb_gt in Hex. lia. }
    split; [done|]. by apply not_elem_of_dom.
Qed.

Variable getaddrinfo : string -> option (list string).

Lemma foldl_try_resolve_elem_of (vs : list string) (acc : gset string)
    (x : string) :
  x ∈ foldl (try_resolve getaddrinfo) acc vs
  <-> x ∈ acc
      \/ exists v infos, v ∈ vs /\ getaddrinfo v = Some infos /\ x ∈ infos.
Proof.
  revert acc. induction vs as [|v vs IH]; intros acc; cbn [foldl].
  - split; [by left | intros [H | (v & i & Hv & _)]; [done|]].
    by apply elem_of_nil in Hv.
  - rewrite IH. unfold try_resolve at 1. split.
    + intros [H | (v' & i & Hv & Hg & Hx)].
      * destruct (getaddrinfo v) as [infos|] eqn:Eg; [|by left].
        apply foldl_add_elem_of in H as [H | H]; [by left|].
        right. exists v, infos. split; [left | done].
      * right. exists v', i. split; [by right | done].
    + intros [H | (v' & i & Hv & Hg & Hx)].
      * left. destruct (getaddrinfo v); [|done].
        apply foldl_add_elem_of. by left.
      * apply elem_of_cons in Hv as [-> | Hv].
        -- left. rewrite Hg. apply foldl_add_elem_of. by right.
        -- right. by exists v', i.
Qed.

Lemma resolve_domain_to_ips_elem_of (d ip : string) :
  ip ∈ resolve_domain_to_ips getaddrinfo d
  <-> exists v infos, v ∈ variants d /\ getaddrinfo v = Some infos /\ ip ∈ infos.
Proof.
  unfold resolve_domain_to_ips.
  rewrite elem_of_elements, foldl_try_resolve_elem_of. split.
  - intros [H | H]; [by apply not_elem_of_empty in H | done].
  - intros H. by right.
Qed.

(** X14.  The resolver returns every address once: exactly the
    addresses that the lookup lists for the domain itself or for one of
    its seven prefixed variants (www, m, api, cdn, video, static,
    media); a variant whose lookup fails contributes nothing and does
    not disturb the others. *)
Theorem resolve_domain_to_ips_collects_variants (d ip : string) :
  NoDup (resolve_domain_to_ips getaddrinfo d)
  /\ (ip ∈ resolve_domain_to_ips getaddrinfo d
      <-> exists pre infos,
            pre ∈ [""; "www."; "m."; "api."; "cdn."; "video."; "static.";
                   "media."]
            /\ getaddrinfo (pre ++ d) = Some infos /\ ip ∈ infos).
Proof.
  split; [apply NoDup_elements|].
  rewrite resolve_domain_to_ips_elem_of. unfold variants. split.
  - intros (v & infos & Hv & Hg & Hi).
    rewrite !elem_of_cons in Hv.
    destruct Hv as [-> | [-> | [-> | [-> | [-> | [-> | [-> | [-> | Hv]]]]]]]];
      [exists "" | exists "www." | exists "m." | exists "api." | exists "cdn."
       | exists "video." | exists "static." | exists "media."
       | by apply elem_of_nil in Hv];
      exists infos; (split; [rewrite !elem_of_cons; auto 10 | done]).
  - intros (pre & infos & Hp & Hg & Hi). exists (pre ++ d), infos.
    split; [|done]. rewrite !elem_of_cons in Hp. rewrite !elem_of_cons.
    destruct Hp as [-> | [-> | [-> | [-> | [-> | [-> | [-> | [-> | Hp]]]]]]]];
      auto 10.
    by apply elem_of_nil in Hp.
Qed.

End StoreMoreFacts.

(** ** The per-packet pipeline, continued *)

Section PipelineFacts.
Import Py Firewall.

Variable getaddrinfo : string -> option (list string).
Variable decode_utf8_ignore : list byte -> string.
Variable fnmatch : string -> string -> bool.

Lemma find_some_elem_of {A} (f : A -> bool) (l : list A) (x : A) :
  List.find f l = Some x -> x ∈ l /\ f x = true.
Proof.
  intros H. apply find_some in H as [H1 H2]. split; [|done].
  by apply list_elem_of_In.
Qed.

Lemma find_is_some {A} (f : A -> bool) (l : list A) (x : A) :
  x ∈ l -> f x = true -> exists y, List.find f l = Some y.
Proof.
  intros Hx Hf. destruct (List.find f l) as [y|] eqn:E; [by exists y|].
  apply list_elem_of_In in Hx.
  pose proof (find_none f l E x Hx) as H. congruence.
Qed.

Lemma truthy_Some (s : string) :
  truthy (Some s) = true <-> s <> EmptyString.
Proof.
  unfold truthy. destruct (String.eqb s EmptyString) eqn:E; cbn [negb].
  - apply String.eqb_eq in E. split; [done | intros H; by destruct H].
  - apply String.eqb_neq in E. done.
Qed.

Lemma host_matches_nonempty (h d : string) :
  host_matches h d = true -> d <> EmptyString -> h <> EmptyString.
Proof.
  intros H Hd Hh. apply host_matches_spec in H as [-> | [pre E]]; [done|].
  rewrite E in Hh.
  destruct pre; [rewrite string_app_nil, string_app_cons in Hh
                | rewrite string_app_cons in Hh]; discriminate Hh.
Qed.

Lemma find_domain_hit_blocked (host : option string) (payload : list byte)
    (ds : list string) (d : string) :
  EmptyString ∉ ds -> d ∈ ds ->
  (exists h, host = Some h /\ host_matches h d = true)
  \/ payload_mentions (bytes_lower payload) d = true ->
  exists d', find_domain_hit host payload ds = Some d'
             /\ d' ∈ ds /\ d' <> EmptyString.
Proof.
  intros Hne Hd Hhit.
  assert (forall x, x ∈ ds -> x <> EmptyString) as Hds.
  { intros x Hx ->. done. }
  unfold find_domain_hit.
  destruct (domain_hit_by_host host ds) as [d0|] eqn:E0.
  - unfold domain_hit_by_host in E0. destruct host as [h|]; [|done].
    destruct (truthy (Some h)); [|done].
    apply find_some_elem_of in E0 as [Hd0 _].
    assert (truthy (Some d0) = true) as -> by (apply truthy_Some; auto).
    cbn [negb]. exists d0. auto.
  - cbn [truthy negb].
    destruct Hhit as [(h & -> & Hm) | Hm].
    + exfalso. unfold domain_hit_by_host in E0.
      assert (truthy (Some h) = true) as Ht.
      { apply truthy_Some. eapply host_matches_nonempty; eauto. }
      rewrite Ht in E0.
      destruct (find_is_some (host_matches h) ds d Hd Hm) as [y Hy].
      congruence.
    + destruct (find_is_some _ ds d Hd Hm) as [y Hy].
      exists y. split; [done|].
      apply find_some_elem_of in Hy as [Hy _]. auto.
Qed.

(** X15.  Soundness of the domain rule: when no empty string is
    among the blocked domains, a packet whose extracted host equals a
    blocked domain or lies under it, or whose lowercased payload
    contains a blocked domain, always gets a drop verdict; it is never
    re-injected and its processing does not fail. *)
Theorem blocked_host_is_dropped (self : FirewallThread) (w : World) (t : Z)
    (pkt : Packet) (d : string) :
  EmptyString ∉ domains self -> d ∈ domains self ->
  (exists h, find_host decode_utf8_ignore (default [] (payload pkt)) = Some h
             /\ host_matches h d = true)
  \/ payload_mentions (bytes_lower (default [] (payload pkt))) d = true ->
  exists why,
    (process_packet decode_utf8_ignore fnmatch self w t pkt).1.1 = Drop why
    /\ (why = BlockedIPHit \/ why = QUIC \/ why = DoH
        \/ exists d', why = BlockedDomain d' /\ d' ∈ domains self).
Proof.
  intros Hne Hd Hhit. unfold process_packet.
  destruct (negb _ && bool_decide _); [exists BlockedIPHit; auto|].
  destruct (is_quic pkt); [exists QUIC; auto|].
  destruct (has_doh_fragment _); [exists DoH; auto|].
  destruct (find_domain_hit_blocked _ _ _ d Hne Hd Hhit) as (d' & -> & Hd' & Hn).
  assert (truthy (Some d') = true) as -> by by apply truthy_Some.
  destruct (temp_block_dst _ _ _ _ _) as [self' w'].
  exists (BlockedDomain d'). cbn [fst]. split; [done|]. do 3 right. eauto.
Qed.

Lemma add_temporary_block_ip_blocks (self : FirewallThread) (w : World)
    (t : Z) (ip tag : string) (ttl : Z) :
  ip <> EmptyString -> ip ∉ _critical_ips self -> online w = true ->
  ip ∈ blocked_ips (_add_temporary_block_ip self w t ip tag ttl).1.
Proof.
  intros Hne Hc Hon. unfold _add_temporary_block_ip.
  destruct (String.eqb ip EmptyString) eqn:E; [by apply String.eqb_eq in E|].
  rewrite bool_decide_eq_false_2 by done. rewrite Hon.
  rewrite refresh_blocked_ips_online by done.
  cbn [fst blocked_ips set_blocked_ips set_lists tbl_blocked_ips
       with_blocked_ips].
  apply elem_of_dom. rewrite lookup_insert_eq. by eexists.
Qed.

Lemma temp_block_dst_blocks (self : FirewallThread) (w : World)
    (t : Z) (ip tag : string) :
  ip <> EmptyString -> ip ∉ _critical_ips self -> online w = true ->
  ip ∈ blocked_ips (temp_block_dst self w t ip tag).1.
Proof.
  intros Hne Hc Hon. unfold temp_block_dst.
  destruct (String.eqb ip EmptyString) eqn:E; [by apply String.eqb_eq in E|].
  by apply add_temporary_block_ip_blocks.
Qed.

(** X16.  A drop by the domain rule or by the application rule
    blocks the destination: when the destination address is not empty
    and not critical and the database is available, a packet to that
    address that is handled in the state the drop has left is dropped
    at the first step of the pipeline, whatever it carries and
    whenever it comes, and leaves the database as it is. *)
Theorem dropped_destination_stays_blocked (self : FirewallThread)
    (w : World) (t : Z) (pkt : Packet) (ip : string) :
  dst_addr pkt = Some ip -> ip <> EmptyString ->
  ip ∉ _critical_ips self -> online w = true ->
  ((exists d, (process_packet decode_utf8_ignore fnmatch self w t pkt).1.1
              = Drop (BlockedDomain d))
   \/ (exists app, (process_packet decode_utf8_ignore fnmatch self w t pkt).1.1
                   = Drop (AppBlock app))) ->
  forall (t' : Z) (pkt' : Packet),
    dst_addr pkt' = Some ip ->
    process_packet decode_utf8_ignore fnmatch
      (process_packet decode_utf8_ignore fnmatch self w t pkt).1.2
      (process_packet decode_utf8_ignore fnmatch self w t pkt).2 t' pkt'
    = (Drop BlockedIPHit,
       count_blocked
         (process_packet decode_utf8_ignore fnmatch self w t pkt).1.2 t' ip,
       (process_packet decode_utf8_ignore fnmatch self w t pkt).2).
Proof.
  intros Hdst Hne Hc Hon Hv t' pkt' Hdst'.
  assert (ip ∈ blocked_ips
            (process_packet decode_utf8_ignore fnmatch self w t pkt).1.2) as Hin.
  { pose proof (temp_block_dst_blocks self w t ip) as Hblk.
    revert Hv. unfold process_packet. rewrite Hdst.
    change (default EmptyString (Some ip)) with ip.
    destruct (negb _ && bool_decide _);
      [intros [[? [=]] | [? [=]]]|].
    destruct (is_quic pkt); [intros [[? [=]] | [? [=]]]|].
    destruct (has_doh_fragment _); [intros [[? [=]] | [? [=]]]|].
    assert (forall host,
      ((exists d, (app_stage fnmatch self w t ip host).1.1 = Drop (BlockedDomain d))
       \/ (exists app, (app_stage fnmatch self w t ip host).1.1 = Drop (AppBlock app))) ->
      ip ∈ blocked_ips (app_stage fnmatch self w t ip host).1.2) as Happ.
    { intros host. unfold app_stage.
      destruct (if truthy host then _ else _) as [[[app p]|]|];
        [| intros [[? [=]] | [? [=]]] | intros [[? [=]] | [? [=]]]].
      specialize (Hblk p Hne Hc Hon).
      destruct (temp_block_dst self w t ip p) as [s1 w1]. intros _. exact Hblk. }
    destruct (find_domain_hit _ _ _) as [d|]; [|apply Happ].
    destruct (truthy (Some d)); [|apply Happ].
    specialize (Hblk d Hne Hc Hon).
    destruct (temp_block_dst self w t ip d) as [s1 w1]. intros _. exact Hblk. }
  unfold process_packet at 1. rewrite Hdst'.
  change (default EmptyString (Some ip)) with ip.
  destruct (String.eqb ip EmptyString) eqn:E; [by apply String.eqb_eq in E|].
  by rewrite bool_decide_eq_true_2.
Qed.

Lemma add_temporary_block_ip_frame (self : FirewallThread) (w : World)
    (t : Z) (ip tag : string) (ttl : Z) :
  let r := _add_temporary_block_ip self w t ip tag ttl in
  domains r.1 = domains self
  /\ app_signatures r.1 = app_signatures self
  /\ _blocked_counters r.1 = _blocked_counters self
  /\ timers r.1 = timers self
  /\ tbl_blocked_domains r.2 = tbl_blocked_domains w
  /\ tbl_app_signatures r.2 = tbl_app_signatures w
  /\ online r.2 = online w
  /\ domain_update_event r.2 = domain_update_event w
  /\ forall j, j <> ip -> tbl_blocked_ips r.2 !! j = tbl_blocked_ips w !! j.
Proof.
  unfold _add_temporary_block_ip.
  destruct (String.eqb ip EmptyString); [done|].
  case_bool_decide; [done|]. destruct (online w) eqn:Hon; [|done].
  cbv zeta. cbn [fst snd].
  match goal with
  | |- context [refresh_blocked_ips self ?w'] =>
      destruct (refresh_blocked_ips_frame self w') as (? & ? & _ & ? & ?)
  end.
  repeat (split; [done|]).
  intros j Hj. cbn. by rewrite lookup_insert_ne.
Qed.

Lemma temp_block_dst_frame (self : FirewallThread) (w : World)
    (t : Z) (ip tag : string) :
  let r := temp_block_dst self w t ip tag in
  domains r.1 = domains self
  /\ app_signatures r.1 = app_signatures self
  /\ _blocked_counters r.1 = _blocked_counters self
  /\ timers r.1 = timers self
  /\ tbl_blocked_domains r.2 = tbl_blocked_domains w
  /\ tbl_app_signatures r.2 = tbl_app_signatures w
  /\ online r.2 = online w
  /\ domain_update_event r.2 = domain_update_event w
  /\ forall j, j <> ip -> tbl_blocked_ips r.2 !! j = tbl_blocked_ips w !! j.
Proof.
  unfold temp_block_dst. destruct (String.eqb ip EmptyString); [done|].
  apply add_temporary_block_ip_frame.
Qed.

Lemma count_blocked_frame (self : FirewallThread) (t : Z) (ip : string) :
  domains (count_blocked self t ip) = domains self
  /\ blocked_ips (count_blocked self t ip) = blocked_ips self
  /\ app_signatures (count_blocked self t ip) = app_signatures self
  /\ _critical_ips (count_blocked self t ip) = _critical_ips self.
Proof. unfold count_blocked. by destruct (_ >=? _)%Z. Qed.

Lemma app_stage_frame (self : FirewallThread) (w : World) (t : Z)
    (ip : string) (host : option string) :
  let r := app_stage fnmatch self w t ip host in
  domains r.1.2 = domains self
  /\ app_signatures r.1.2 = app_signatures self
  /\ tbl_blocked_domains r.2 = tbl_blocked_domains w
  /\ tbl_app_signatures r.2 = tbl_app_signatures w
  /\ online r.2 = online w
  /\ domain_update_event r.2 = domain_update_event w
  /\ (forall j, j <> ip -> tbl_blocked_ips r.2 !! j = tbl_blocked_ips w !! j)
  /\ (r.1.1 = Reinject \/ r.1.1 = Failed -> r.1.2 = self /\ r.2 = w).
Proof.
  unfold app_stage.
  destruct (if truthy host then _ else _) as [[[app p]|]|];
    [| cbn; by repeat (split; [done|]) | cbn; by repeat (split; [done|])].
  pose proof (temp_block_dst_frame self w t ip p) as H.
  destruct (temp_block_dst self w t ip p) as [s1 w1]. cbn in *.
  destruct H as (? & ? & ? & ? & ? & ? & ? & ? & ?).
  repeat (split; [done|]). intros [[=] | [=]].
Qed.

(** X17.  What handling a packet can change: the thread's domain
    list and signature list, the blocked-domains and signature tables,
    the availability flag and the reload event are left as they are,
    and so is every [blocked_ips] row of an address other than the
    packet's destination.  A packet that is re-injected, or whose
    processing fails, changes nothing at all. *)
Theorem process_packet_store_effect (self : FirewallThread) (w : World)
    (t : Z) (pkt : Packet) :
  let r := process_packet decode_utf8_ignore fnmatch self w t pkt in
  domains r.1.2 = domains self
  /\ app_signatures r.1.2 = app_signatures self
  /\ tbl_blocked_domains r.2 = tbl_blocked_domains w
  /\ tbl_app_signatures r.2 = tbl_app_signatures w
  /\ online r.2 = online w
  /\ domain_update_event r.2 = domain_update_event w
  /\ (forall j, dst_addr pkt <> Some j ->
        tbl_blocked_ips r.2 !! j = tbl_blocked_ips w !! j)
  /\ (r.1.1 = Reinject \/ r.1.1 = Failed -> r.1.2 = self /\ r.2 = w).
Proof.
  unfold process_packet.
  set (ip := default EmptyString (dst_addr pkt)).
  assert (forall j, dst_addr pkt <> Some j -> j <> ip \/ ip = EmptyString) as Hj.
  { intros j Hne. subst ip. destruct (dst_addr pkt) as [x|]; cbn; [|by right].
    left. congruence. }
  assert (forall s1 w1 tag j, dst_addr pkt <> Some j ->
            tbl_blocked_ips (temp_block_dst s1 w1 t ip tag).2 !! j
            = tbl_blocked_ips w1 !! j) as Hrow.
  { intros s1 w1 tag j Hne. destruct (Hj j Hne) as [H | H].
    - by apply temp_block_dst_frame.
    - unfold temp_block_dst. by rewrite H. }
  destruct (negb _ && bool_decide _).
  { cbn. pose proof (count_blocked_frame self t ip) as (? & ? & ? & ?).
    repeat (split; [done|]). intros [[=] | [=]]. }
  destruct (is_quic pkt).
  { cbn. by repeat (split; [done|]). }
  destruct (has_doh_fragment _).
  { cbn. by repeat (split; [done|]). }
  assert (forall host,
    let r := app_stage fnmatch self w t ip host in
    domains r.1.2 = domains self
    /\ app_signatures r.1.2 = app_signatures self
    /\ tbl_blocked_domains r.2 = tbl_blocked_domains w
    /\ tbl_app_signatures r.2 = tbl_app_signatures w
    /\ online r.2 = online w
    /\ domain_update_event r.2 = domain_update_event w
    /\ (forall j, dst_addr pkt <> Some j ->
          tbl_blocked_ips r.2 !! j = tbl_blocked_ips w !! j)
    /\ (r.1.1 = Reinject \/ r.1.1 = Failed -> r.1.2 = self /\ r.2 = w)) as Happ.
  { intros host r.
    pose proof (app_stage_frame self w t ip host) as
      (? & ? & ? & ? & ? & ? & Hrows & ?).
    repeat (split; [done|]). split; [|done].
    intros j Hne. subst r. unfold app_stage.
    destruct (if truthy host then _ else _) as [[[app p]|]|]; [|done|done].
    specialize (Hrow self w p j Hne).
    destruct (temp_block_dst self w t ip p) as [s1 w1]. exact Hrow. }
  destruct (find_domain_hit _ _ _) as [d|]; [|apply Happ].
  destruct (truthy (Some d)); [|apply Happ].
  pose proof (temp_block_dst_frame self w t ip d) as H.
  specialize (Hrow self w d).
  destruct (temp_block_dst self w t ip d) as [s1 w1]. cbn in *.
  destruct H as (? & ? & ? & ? & ? & ? & ? & ? & ?).
  split_and!; try done. intros [[=] | [=]].
Qed.

(** X18.  The signature list as the database returns it has six
    columns per row while the application stage unpacks five names:
    with at least one stored signature, a packet with a non-empty
    extracted host is never re-injected.  It is dropped by one of the
    first rules (address, QUIC, DoH fragment, domain), or the
    application stage raises and the packet is neither sent nor
    blocked, the thread and the database staying as they were. *)
Theorem fetched_signatures_fail_app_stage (gateway : option string)
    (w0 : World) (self : FirewallThread) (w : World) (t : Z) (pkt : Packet) :
  tbl_app_signatures w0 <> [] ->
  (__init__ gateway w0 = Ret self
   \/ (online w0 = true /\ app_signatures self
                           = map signature_row (tbl_app_signatures w0))) ->
  truthy (find_host decode_utf8_ignore (default [] (payload pkt))) = true ->
  (exists why,
     (process_packet decode_utf8_ignore fnmatch self w t pkt).1.1 = Drop why
     /\ forall app, why <> AppBlock app)
  \/ process_packet decode_utf8_ignore fnmatch self w t pkt = (Failed, self, w).
Proof.
  intros Hsigs Hself Hhost.
  assert (exists g gs, app_signatures self = map signature_row (g :: gs)) as
    (g & gs & Hrows).
  { destruct (tbl_app_signatures w0) as [|g gs] eqn:E; [done|].
    exists g, gs. destruct Hself as [H | [_ H]]; [|done].
    unfold __init__, get_all_signatures in H.
    destruct (online w0); [|done]. cbn in H. injection H as <-.
    cbn [app_signatures]. by rewrite E. }
  unfold process_packet.
  destruct (negb _ && bool_decide _); [left; exists BlockedIPHit; done|].
  destruct (is_quic pkt); [left; exists QUIC; done|].
  destruct (has_doh_fragment _); [left; exists DoH; done|].
  assert (forall ip, app_stage fnmatch self w t ip
                       (find_host decode_utf8_ignore (default [] (payload pkt)))
                     = (Failed, self, w)) as Happ.
  { intros ip. unfold app_stage. rewrite Hhost, Hrows.
    by rewrite app_match_fetched_rows. }
  destruct (find_domain_hit _ _ _) as [d|]; [|right; apply Happ].
  destruct (truthy (Some d)); [|right; apply Happ].
  destruct (temp_block_dst _ _ _ _ _) as [s1 w1].
  left. exists (BlockedDomain d). done.
Qed.

End PipelineFacts.

(** ** Editing the blocklist *)

Section BlocklistFacts.
Import Py Firewall.

Lemma filter_all {A} (P : A -> Prop) `{!forall x, Decision (P x)}
    (l : list A) :
  (forall x, x ∈ l -> P x) -> filter P l = l.
Proof.
  induction l as [|a l IH]; intros Hall; [done|].
  rewrite filter_cons_True by (apply Hall; left).
  f_equal. apply IH. intros x Hx. apply Hall. by right.
Qed.

Lemma foldl_preserves {S A X} (g : S -> X) (f : S -> A -> S) (l : list A) :
  (forall s x, g (f s x) = g s) -> forall s, g (foldl f s l) = g s.
Proof.
  intros H. induction l as [|a l IH]; intros s; cbn [foldl]; [done|].
  by rewrite IH, H.
Qed.

Lemma foldl_invariant {S A} (P : S -> Prop) (f : S -> A -> S) (l : list A) :
  (forall s x, P s -> P (f s x)) -> forall s, P s -> P (foldl f s l).
Proof.
  intros H. induction l as [|a l IH]; intros s Hs; cbn [foldl]; [done|].
  apply IH. by apply H.
Qed.

Variable getaddrinfo : string -> option (list string).

Lemma added_domains_elem_of (ds : list string) (d x : string) :
  x ∈ (if bool_decide (d ∈ ds) then ds else (ds ++ [d])%list)
  <-> x ∈ ds \/ x = d.
Proof.
  case_bool_decide as Hd.
  - split; [by left | intros [H | ->]; done].
  - rewrite elem_of_app, list_elem_of_singleton. done.
Qed.

(** X19.  Adding a domain on an available database stores its
    lowercase form once (an entry that is there is not duplicated, a
    table without duplicates stays so), replaces [blocked_ips] by a
    resync, in which every address the domain resolves to has a row,
    and sets the reload event.  Adding it a second time leaves the
    table of domains as it is and resolves every domain again: the
    rows of [blocked_ips] are then those of the addresses that the
    lookup answers at the second call, whatever it answered at the
    first.  On an unavailable database the call changes nothing and
    the event is not set. *)
Theorem add_blocked_domain_effect (d : string) (w : World) :
  (online w = true ->
   (forall x, x ∈ tbl_blocked_domains (add_blocked_domain getaddrinfo d w)
              <-> x ∈ tbl_blocked_domains w \/ x = lower d)
   /\ (NoDup (tbl_blocked_domains w) ->
       NoDup (tbl_blocked_domains (add_blocked_domain getaddrinfo d w)))
   /\ (forall ip, ip ∈ resolve_domain_to_ips getaddrinfo (lower d) ->
         tbl_blocked_ips (add_blocked_domain getaddrinfo d w) !! ip
         = Some null_row)
   /\ domain_update_event (add_blocked_domain getaddrinfo d w) = true
   /\ (forall getaddrinfo' : string -> option (list string),
         tbl_blocked_domains
           (add_blocked_domain getaddrinfo' d
              (add_blocked_domain getaddrinfo d w))
         = tbl_blocked_domains (add_blocked_domain getaddrinfo d w)
         /\ forall ip row,
             tbl_blocked_ips
               (add_blocked_domain getaddrinfo' d
                  (add_blocked_domain getaddrinfo d w)) !! ip = Some row
             <-> row = null_row
                 /\ exists d',
                      d' ∈ tbl_blocked_domains
                             (add_blocked_domain getaddrinfo d w)
                      /\ ip ∈ resolve_domain_to_ips getaddrinfo' d'))
  /\ (online w = false -> add_blocked_domain getaddrinfo d w = w).
Proof.
  split; intros Hon; [|unfold add_blocked_domain; by rewrite Hon].
  assert (forall g w0, online w0 = true ->
            tbl_blocked_domains (add_blocked_domain g d w0)
            = (if bool_decide (lower d ∈ tbl_blocked_domains w0)
               then tbl_blocked_domains w0
               else (tbl_blocked_domains w0 ++ [lower d])%list)
            /\ online (add_blocked_domain g d w0) = true
            /\ domain_update_event (add_blocked_domain g d w0) = true
            /\ forall ip row,
                 tbl_blocked_ips (add_blocked_domain g d w0) !! ip = Some row
                 <-> row = null_row
                     /\ exists d',
                          d' ∈ tbl_blocked_domains (add_blocked_domain g d w0)
                          /\ ip ∈ resolve_domain_to_ips g d') as Hadd.
  { intros g w0 Hon0. unfold add_blocked_domain. rewrite Hon0.
    set (ds := if bool_decide _ then _ else _).
    destruct (sync_blocked_ips_event g (with_blocked_domains ds w0))
      as (_ & Hds & Hon').
    cbn [tbl_blocked_domains tbl_blocked_ips with_event domain_update_event
         online].
    rewrite Hds, Hon'. cbn [tbl_blocked_domains with_blocked_domains online].
    split; [done|]. split; [done|]. split; [done|].
    intros ip row. by rewrite sync_blocked_ips_lookup by done. }
  destruct (Hadd getaddrinfo w Hon) as (Hds & Hon1 & Hev & Hrows).
  split.
  { intros x. rewrite Hds. apply added_domains_elem_of. }
  split.
  { intros Hnd. rewrite Hds. case_bool_decide as Hd; [done|].
    apply NoDup_app. split; [done|]. split; [|apply NoDup_singleton].
    intros x Hx ->%list_elem_of_singleton. done. }
  split.
  { intros ip Hip. apply Hrows. split; [done|]. exists (lower d).
    split; [|done]. rewrite Hds. apply added_domains_elem_of. by right. }
  split; [done|].
  intros g'.
  destruct (Hadd g' (add_blocked_domain getaddrinfo d w) Hon1)
    as (Hds2 & _ & _ & Hrows2).
  assert (tbl_blocked_domains
            (add_blocked_domain g' d (add_blocked_domain getaddrinfo d w))
          = tbl_blocked_domains (add_blocked_domain getaddrinfo d w)) as Heq.
  { rewrite Hds2. rewrite bool_decide_eq_true_2; [done|].
    rewrite Hds. apply added_domains_elem_of. by right. }
  split; [done|].
  intros ip row. rewrite Hrows2. by rewrite Heq.
Qed.

(** X20.  Removing a domain on an available database deletes its
    lowercase form from the table and nothing else, and the resync
    leaves exactly one row, without expiry, per address that one of
    the remaining domains resolves to; the reload event is set.
    Removing a domain that was just added to a table that did not
    hold it gives the table back, with [blocked_ips] as a resync of
    it. *)
Theorem remove_blocked_domain_effect (d : string) (w : World) :
  online w = true ->
  (forall x, x ∈ tbl_blocked_domains (remove_blocked_domain getaddrinfo d w)
             <-> x ∈ tbl_blocked_domains w /\ x <> lower d)
  /\ (forall ip row,
        tbl_blocked_ips (remove_blocked_domain getaddrinfo d w) !! ip = Some row
        <-> row = null_row
            /\ exists d', d' ∈ tbl_blocked_domains w /\ d' <> lower d
                          /\ ip ∈ resolve_domain_to_ips getaddrinfo d')
  /\ domain_update_event (remove_blocked_domain getaddrinfo d w) = true
  /\ (lower d ∉ tbl_blocked_domains w ->
      remove_blocked_domain getaddrinfo d (add_blocked_domain getaddrinfo d w)
      = with_event true (sync_blocked_ips getaddrinfo w)).
Proof.
  intros Hon. unfold remove_blocked_domain at 1 2 3. rewrite Hon.
  set (ds := filter _ _).
  assert (forall x, x ∈ ds <-> x ∈ tbl_blocked_domains w /\ x <> lower d) as Hds.
  { intros x. subst ds. rewrite list_elem_of_filter. tauto. }
  destruct (sync_blocked_ips_event getaddrinfo (with_blocked_domains ds w))
    as (_ & Hsd & _).
  cbn [tbl_blocked_domains tbl_blocked_ips with_event domain_update_event].
  rewrite Hsd. cbn [tbl_blocked_domains with_blocked_domains].
  split; [done|]. split.
  { intros ip row. rewrite sync_blocked_ips_lookup by done.
    cbn [tbl_blocked_domains with_blocked_domains]. split.
    - intros [-> (d' & Hd' & Hip)]. apply Hds in Hd' as [? ?]. eauto 6.
    - intros [-> (d' & Hd' & Hne & Hip)]. split; [done|]. exists d'.
      split; [|done]. apply Hds. done. }
  split; [done|].
  intros Hnew. unfold remove_blocked_domain, add_blocked_domain. rewrite Hon.
  rewrite bool_decide_eq_false_2 by done.
  destruct (sync_blocked_ips_event getaddrinfo
              (with_blocked_domains (tbl_blocked_domains w ++ [lower d]) w))
    as (_ & Hsd' & Hon').
  cbn [online with_event tbl_blocked_domains]. rewrite Hon', Hsd'.
  cbn [online with_blocked_domains tbl_blocked_domains]. rewrite Hon.
  rewrite filter_app, filter_all by (intros x Hx ->; done).
  rewrite filter_cons_False by (intros H; by apply H).
  rewrite filter_nil, app_nil_r.
  unfold sync_blocked_ips. cbn [online with_blocked_domains with_event].
  rewrite Hon. cbn [online with_blocked_ips with_blocked_domains]. rewrite Hon.
  reflexivity.
Qed.

End BlocklistFacts.

(** ** From an edit of the blocklist to the filter loop *)

Section TurnFacts.
Import Py Firewall.

Variable getaddrinfo : string -> option (list string).
Variable decode_utf8_ignore : list byte -> string.
Variable fnmatch : string -> string -> bool.

Lemma add_temporary_block_ip_keeps (self : FirewallThread) (w : World)
    (t : Z) (ip tag : string) (ttl : Z) (ip0 : string) :
  ip0 ∈ blocked_ips self /\ is_Some (tbl_blocked_ips w !! ip0) ->
  ip0 ∈ blocked_ips (_add_temporary_block_ip self w t ip tag ttl).1
  /\ is_Some (tbl_blocked_ips (_add_temporary_block_ip self w t ip tag ttl).2
              !! ip0).
Proof.
  intros [Hin Hrow]. unfold _add_temporary_block_ip.
  destruct (String.eqb ip EmptyString); [done|].
  case_bool_decide; [done|]. destruct (online w) eqn:Hon; [|done].
  rewrite refresh_blocked_ips_online by done. cbn.
  assert (is_Some (<[ip:=
            {| domain := Some tag; expires_at := Some (utc_seconds t + ttl)%Z;
               reason := Some "auto-temp" |}]> (tbl_blocked_ips w) !! ip0)) as H1.
  { destruct (decide (ip0 = ip)) as [-> | Hne].
    - rewrite lookup_insert_eq. by eexists.
    - by rewrite lookup_insert_ne. }
  split; [|done]. by apply elem_of_dom.
Qed.

Lemma temp_block_dst_keeps (self : FirewallThread) (w : World)
    (t : Z) (ip tag : string) (ip0 : string) :
  ip0 ∈ blocked_ips self /\ is_Some (tbl_blocked_ips w !! ip0) ->
  ip0 ∈ blocked_ips (temp_block_dst self w t ip tag).1
  /\ is_Some (tbl_blocked_ips (temp_block_dst self w t ip tag).2 !! ip0).
Proof.
  intros H. unfold temp_block_dst. destruct (String.eqb ip EmptyString); [done|].
  by apply add_temporary_block_ip_keeps.
Qed.

Lemma process_packet_keeps (self : FirewallThread) (w : World) (t : Z)
    (pkt : Packet) (ip0 : string) :
  ip0 ∈ blocked_ips self /\ is_Some (tbl_blocked_ips w !! ip0) ->
  ip0 ∈ blocked_ips
          (process_packet decode_utf8_ignore fnmatch self w t pkt).1.2
  /\ is_Some (tbl_blocked_ips
                (process_packet decode_utf8_ignore fnmatch self w t pkt).2
              !! ip0).
Proof.
  intros H. unfold process_packet.
  destruct (negb _ && bool_decide _).
  { cbn [fst snd]. split; [|apply H].
    destruct (count_blocked_frame self t
                (default EmptyString (dst_addr pkt))) as (_ & -> & _).
    apply H. }
  destruct (is_quic pkt); [done|].
  destruct (has_doh_fragment _); [done|].
  assert (forall ip host,
    ip0 ∈ blocked_ips (app_stage fnmatch self w t ip host).1.2
    /\ is_Some (tbl_blocked_ips (app_stage fnmatch self w t ip host).2 !! ip0))
    as Happ.
  { intros ip host. unfold app_stage.
    destruct (if truthy host then _ else _) as [[[app p]|]|]; [|done|done].
    pose proof (temp_block_dst_keeps self w t ip p ip0 H) as Hk.
    by destruct (temp_block_dst self w t ip p). }
  destruct (find_domain_hit _ _ _) as [d|]; [|apply Happ].
  destruct (truthy (Some d)); [|apply Happ].
  pose proof (temp_block_dst_keeps self w t
                (default EmptyString (dst_addr pkt)) d ip0 H) as Hk.
  by destruct (temp_block_dst self w t _ d).
Qed.

Lemma process_packet_domains (self : FirewallThread) (w : World) (t : Z)
    (pkt : Packet) :
  domains (process_packet decode_utf8_ignore fnmatch self w t pkt).1.2
  = domains self
  /\ domain_update_event
       (process_packet decode_utf8_ignore fnmatch self w t pkt).2
     = domain_update_event w.
Proof.
  unfold process_packet.
  destruct (negb _ && bool_decide _).
  { cbn [fst snd]. split; [|done]. apply count_blocked_frame. }
  destruct (is_quic pkt); [done|].
  destruct (has_doh_fragment _); [done|].
  assert (forall ip host,
    domains (app_stage fnmatch self w t ip host).1.2 = domains self
    /\ domain_update_event (app_stage fnmatch self w t ip host).2
       = domain_update_event w) as Happ.
  { intros ip host.
    destruct (app_stage_frame fnmatch self w t ip host)
      as (? & _ & _ & _ & _ & ? & _). done. }
  destruct (find_domain_hit _ _ _) as [d|]; [|apply Happ].
  destruct (truthy (Some d)); [|apply Happ].
  destruct (temp_block_dst_frame self w t
              (default EmptyString (dst_addr pkt)) d)
    as (? & _ & _ & _ & _ & _ & _ & ? & _).
  by destruct (temp_block_dst self w t _ d).
Qed.

Lemma resolve_all_keeps (t : Z) (sw : FirewallThread * World) (ip0 : string) :
  ip0 ∈ blocked_ips sw.1 /\ is_Some (tbl_blocked_ips sw.2 !! ip0) ->
  ip0 ∈ blocked_ips (resolve_all getaddrinfo t sw).1
  /\ is_Some (tbl_blocked_ips (resolve_all getaddrinfo t sw).2 !! ip0).
Proof.
  unfold resolve_all.
  apply (foldl_invariant
           (fun s => ip0 ∈ blocked_ips s.1
                     /\ is_Some (tbl_blocked_ips s.2 !! ip0))).
  intros s1 d.
  apply (foldl_invariant
           (fun s => ip0 ∈ blocked_ips s.1
                     /\ is_Some (tbl_blocked_ips s.2 !! ip0))).
  intros s2 ip. apply add_temporary_block_ip_keeps.
Qed.

Lemma resolve_all_domains (t : Z) (sw : FirewallThread * World) :
  domains (resolve_all getaddrinfo t sw).1 = domains sw.1
  /\ domain_update_event (resolve_all getaddrinfo t sw).2
     = domain_update_event sw.2.
Proof.
  unfold resolve_all.
  set (g := fun s : FirewallThread * World =>
              (domains s.1, domain_update_event s.2)).
  assert (g (foldl (fun s d =>
               foldl (fun s ip =>
                        _add_temporary_block_ip s.1 s.2 t ip d
                          TEMP_BLOCK_TTL_SECONDS)
                     s (resolve_domain_to_ips getaddrinfo d))
             sw (domains sw.1)) = g sw) as H.
  { apply foldl_preserves. intros s1 d. apply foldl_preserves. intros s2 ip.
    subst g. cbv beta.
    destruct (add_temporary_block_ip_frame s2.1 s2.2 t ip d
                TEMP_BLOCK_TTL_SECONDS)
      as (Hd & _ & _ & _ & _ & _ & _ & He & _).
    by rewrite Hd, He. }
  subst g. cbv beta in H. by injection H.
Qed.

Lemma maintain_cleanup_keeps (t : Z) (sw : FirewallThread * World)
    (ip0 : string) :
  ip0 ∈ blocked_ips sw.1 ->
  (exists row, tbl_blocked_ips sw.2 !! ip0 = Some row
               /\ expired t row = false) ->
  ip0 ∈ blocked_ips (maintain_cleanup t sw).1
  /\ is_Some (tbl_blocked_ips (maintain_cleanup t sw).2 !! ip0).
Proof.
  intros Hin (row & Hrow & Hex). destruct sw as [self w]. cbn [fst snd] in *.
  unfold maintain_cleanup.
  destruct (_ >? _)%Z; [|cbn [fst snd]; split; [done | by eexists]].
  unfold _cleanup_expired_blocked_ips.
  destruct (online w) eqn:Hon; [|cbn [fst snd]; split; [done | by eexists]].
  rewrite refresh_blocked_ips_online by done. cbn.
  assert (filter (fun kv => expired t kv.2 = false) (tbl_blocked_ips w) !! ip0
          = Some row) as H1 by by apply map_lookup_filter_Some.
  split; [apply elem_of_dom|]; by eexists.
Qed.

Lemma maintain_cleanup_domains (t : Z) (sw : FirewallThread * World) :
  domains (maintain_cleanup t sw).1 = domains sw.1
  /\ domain_update_event (maintain_cleanup t sw).2 = domain_update_event sw.2.
Proof.
  destruct sw as [self w]. unfold maintain_cleanup.
  destruct (_ >? _)%Z; [|done]. unfold _cleanup_expired_blocked_ips.
  destruct (online w); [|done]. cbn [fst snd]. split; [|done].
  apply refresh_blocked_ips_frame.
Qed.

Lemma maintain_signatures_frame (t : Z) (sw : FirewallThread * World) :
  domains (maintain_signatures t sw).1 = domains sw.1
  /\ blocked_ips (maintain_signatures t sw).1 = blocked_ips sw.1
  /\ (maintain_signatures t sw).2 = sw.2.
Proof.
  destruct sw as [self w]. unfold maintain_signatures.
  destruct (_ >? _)%Z; [|done]. by destruct (get_all_signatures w).
Qed.

Lemma maintain_resolve_keeps (t : Z) (sw : FirewallThread * World)
    (ip0 : string) :
  ip0 ∈ blocked_ips sw.1 /\ is_Some (tbl_blocked_ips sw.2 !! ip0) ->
  ip0 ∈ blocked_ips (maintain_resolve getaddrinfo t sw).1
  /\ is_Some (tbl_blocked_ips (maintain_resolve getaddrinfo t sw).2 !! ip0).
Proof.
  intros H. destruct sw as [self w]. unfold maintain_resolve.
  destruct (_ >? _)%Z; [|done].
  pose proof (resolve_all_keeps t (self, w) ip0 H) as Hk.
  by destruct (resolve_all getaddrinfo t (self, w)).
Qed.

Lemma maintain_resolve_domains (t : Z) (sw : FirewallThread * World) :
  domains (maintain_resolve getaddrinfo t sw).1 = domains sw.1
  /\ domain_update_event (maintain_resolve getaddrinfo t sw).2
     = domain_update_event sw.2.
Proof.
  destruct sw as [self w]. unfold maintain_resolve.
  destruct (_ >? _)%Z; [|done].
  pose proof (resolve_all_domains t (self, w)) as Hk.
  by destruct (resolve_all getaddrinfo t (self, w)).
Qed.

Lemma run_turn_after_reload (sw : FirewallThread * World) (i : Turn) :
  db_online i = true ->
  domain_update_event sw.2 || reload_signal i = true ->
  domains (run_turn getaddrinfo decode_utf8_ignore fnmatch sw i).2.1
  = map lower (tbl_blocked_domains sw.2)
  /\ domain_update_event
       (run_turn getaddrinfo decode_utf8_ignore fnmatch sw i).2.2 = false
  /\ forall ip row,
       tbl_blocked_ips sw.2 !! ip = Some row -> expired (now i) row = false ->
       ip ∈ blocked_ips
              (run_turn getaddrinfo decode_utf8_ignore fnmatch sw i).2.1.
Proof.
  intros Hon Hev. destruct sw as [self w]. cbn [fst snd] in *.
  unfold run_turn. cbn [fst snd].
  set (s1 := maintain_reload (now i) (self, meet i w)).
  assert (domains s1.1 = map lower (tbl_blocked_domains w)
          /\ domain_update_event s1.2 = false
          /\ blocked_ips s1.1 = dom (tbl_blocked_ips w)
          /\ tbl_blocked_ips s1.2 = tbl_blocked_ips w) as (Hd1 & He1 & Hb1 & Ht1).
  { subst s1. unfold maintain_reload, meet.
    cbn [domain_update_event]. rewrite Hev. cbn [orb].
    unfold _reload_lists, reload_blocked_domains, get_blocked_ips.
    cbn. by rewrite Hon. }
  set (s2 := maintain_cleanup (now i) s1).
  destruct (maintain_cleanup_domains (now i) s1) as (Hd2 & He2).
  fold s2 in Hd2, He2.
  set (s3 := maintain_signatures (now i) s2).
  destruct (maintain_signatures_frame (now i) s2) as (Hd3 & Hb3 & Hw3).
  fold s3 in Hd3, Hb3, Hw3.
  set (s4 := maintain_resolve getaddrinfo (now i) s3).
  destruct (maintain_resolve_domains (now i) s3) as (Hd4 & He4).
  fold s4 in Hd4, He4.
  assert (forall ip row,
            tbl_blocked_ips w !! ip = Some row -> expired (now i) row = false ->
            ip ∈ blocked_ips s4.1 /\ is_Some (tbl_blocked_ips s4.2 !! ip)) as Hk4.
  { intros ip row Hrow Hex. subst s4. apply maintain_resolve_keeps.
    rewrite Hb3, Hw3. subst s2. apply maintain_cleanup_keeps.
    - rewrite Hb1. apply elem_of_dom. by eexists.
    - exists row. by rewrite Ht1. }
  destruct (received i) as [pkt|]; cbn [snd].
  - pose proof (process_packet_domains s4.1 s4.2 (now i) pkt) as (Hd5 & He5).
    pose proof (fun ip0 H => proj1 (process_packet_keeps s4.1 s4.2 (now i) pkt ip0 H))
      as Hk5.
    destruct (process_packet decode_utf8_ignore fnmatch s4.1 s4.2 (now i) pkt)
      as [[v s5] w5]. cbn [fst snd] in *.
    split; [congruence|]. split; [congruence|].
    intros ip row Hrow Hex. apply Hk5. by eapply Hk4.
  - split; [congruence|]. split; [congruence|].
    intros ip row Hrow Hex. by eapply Hk4.
Qed.

(** X21.  An edit of the blocklist reaches the filter at its next
    turn, the database being available: after [add_blocked_domain]
    the thread's domain list holds the domain (lowercased) and its
    blocked set holds every address the domain resolves to, whatever
    the timers and whatever packet is handled in that turn, and the
    reload event is cleared; after [remove_blocked_domain] on a table
    of lowercase entries the domain is no longer in the thread's
    list. *)
Theorem blocklist_edit_reaches_next_turn (self : FirewallThread) (w : World)
    (d : string) (i : Turn) :
  online w = true -> db_online i = true ->
  (lower d ∈ domains
     (run_turn getaddrinfo decode_utf8_ignore fnmatch
        (self, add_blocked_domain getaddrinfo d w) i).2.1
   /\ (forall ip, ip ∈ resolve_domain_to_ips getaddrinfo (lower d) ->
         ip ∈ blocked_ips
                (run_turn getaddrinfo decode_utf8_ignore fnmatch
                   (self, add_blocked_domain getaddrinfo d w) i).2.1)
   /\ domain_update_event
        (run_turn getaddrinfo decode_utf8_ignore fnmatch
           (self, add_blocked_domain getaddrinfo d w) i).2.2 = false)
  /\ ((forall x, x ∈ tbl_blocked_domains w -> lower x = x) ->
      lower d ∉ domains
        (run_turn getaddrinfo decode_utf8_ignore fnmatch
           (self, remove_blocked_domain getaddrinfo d w) i).2.1).
Proof.
  intros Hon Hdb. split.
  - destruct (run_turn_after_reload
                (self, add_blocked_domain getaddrinfo d w) i Hdb)
      as (Hd & He & Hk).
    { unfold add_blocked_domain. by rewrite Hon. }
    cbn [snd] in Hd, Hk.
    set (ds := if bool_decide (lower d ∈ tbl_blocked_domains w)
               then tbl_blocked_domains w
               else (tbl_blocked_domains w ++ [lower d])%list).
    assert (add_blocked_domain getaddrinfo d w
            = with_event true
                (sync_blocked_ips getaddrinfo (with_blocked_domains ds w))) as Eadd.
    { unfold add_blocked_domain. by rewrite Hon. }
    destruct (sync_blocked_ips_event getaddrinfo (with_blocked_domains ds w))
      as (_ & Hds & _).
    assert (lower d ∈ ds) as Hin by (apply added_domains_elem_of; by right).
    split; [|split; [|done]].
    + rewrite Hd, Eadd. cbn [tbl_blocked_domains with_event]. rewrite Hds.
      cbn [tbl_blocked_domains with_blocked_domains].
      apply list_elem_of_fmap. exists (lower d). by rewrite lower_idem.
    + intros ip Hip. apply (Hk ip null_row); [|done].
      rewrite Eadd. cbn [tbl_blocked_ips with_event].
      apply sync_blocked_ips_lookup; [done|]. split; [done|].
      exists (lower d). done.
  - intros Hlow.
    destruct (run_turn_after_reload
                (self, remove_blocked_domain getaddrinfo d w) i Hdb)
      as (Hd & _ & _).
    { unfold remove_blocked_domain. by rewrite Hon. }
    rewrite Hd. cbn [snd]. unfold remove_blocked_domain. rewrite Hon.
    destruct (sync_blocked_ips_event getaddrinfo
      (with_blocked_domains
         (filter (fun x => x <> lower d) (tbl_blocked_domains w)) w))
      as (_ & Hds & _).
    cbn [tbl_blocked_domains with_event]. rewrite Hds.
    cbn [tbl_blocked_domains with_blocked_domains].
    intros (y & Hy & Hf)%list_elem_of_fmap.
    apply list_elem_of_filter in Hf as [Hne Hyin].
    apply Hne. rewrite <- (Hlow y Hyin). done.
Qed.

End TurnFacts.

(** ** The domain normalizer of the network-control tab *)

Section NormalizeFacts.
Import Py NetworkControl.

Lemma contains_char (x : ascii) (s : string) :
  contains (String x EmptyString) s = true <-> occurs x s.
Proof.
  induction s as [|c s IH]; cbn [contains occurs startswith].
  - split; [discriminate | done].
  - rewrite orb_true_iff, IH, andb_true_r, Ascii.eqb_eq. done.
Qed.

Lemma contains_char_false (x : ascii) (s : string) :
  contains (String x EmptyString) s = false <-> ~ occurs x s.
Proof. rewrite <- contains_char. symmetry. apply not_true_iff_false. Qed.

Lemma occurs_split (x : ascii) (s : string) :
  occurs x s ->
  exists pre post, s = pre ++ String x post /\ ~ occurs x pre.
Proof.
  induction s as [|c s IH]; cbn [occurs]; [done|]. intros H.
  destruct (Ascii.eqb x c) eqn:E.
  - apply Ascii.eqb_eq in E as ->. exists EmptyString, s.
    rewrite string_app_nil. split; [done | intros []].
  - apply Ascii.eqb_neq in E. destruct H as [H | H]; [done|].
    destruct (IH H) as (pre & post & -> & Hno).
    exists (String c pre), post. rewrite string_app_cons. split; [done|].
    cbn [occurs]. intros [? | ?]; done.
Qed.

Lemma split_go_nocut (x : ascii) (limit : option nat) (s cur : string) :
  ~ occurs x s ->
  split_go (String x EmptyString) limit 0 cur s
  = [rev_string EmptyString cur ++ s].
Proof.
  revert cur. induction s as [|c s IH]; intros cur Hno.
  - simpl. by rewrite string_app_empty.
  - simpl in Hno. simpl.
    destruct (Ascii.eqb x c) eqn:E.
    + apply Ascii.eqb_eq in E. tauto.
    + rewrite andb_false_r. rewrite IH by tauto. f_equal.
      rewrite !rev_string_app. reflexivity.
Qed.

Lemma split_go_cut (x : ascii) (n : nat) (pre post cur : string) :
  ~ occurs x pre ->
  split_go (String x EmptyString) (Some (S n)) 0 cur (pre ++ String x post)
  = (rev_string EmptyString cur ++ pre)
      :: split_go (String x EmptyString) (Some n) 0 EmptyString post.
Proof.
  revert cur. induction pre as [|c pre IH]; intros cur Hno.
  - rewrite string_app_nil, string_app_empty. simpl.
    by rewrite Ascii.eqb_refl.
  - simpl in Hno. rewrite string_app_cons. simpl.
    destruct (Ascii.eqb x c) eqn:E.
    + apply Ascii.eqb_eq in E. tauto.
    + simpl. rewrite IH by tauto. f_equal.
      rewrite !rev_string_app. reflexivity.
Qed.

Lemma split_go_no_limit_left (sep cur s : string) :
  split_go sep (Some 0) 0 cur s = [rev_string EmptyString cur ++ s].
Proof.
  revert cur. induction s as [|c s IH]; intros cur.
  - simpl. by rewrite string_app_empty.
  - simpl. rewrite IH. f_equal. rewrite !rev_string_app. reflexivity.
Qed.

(** [cut_at] on a one-character separator never raises: it returns
    the part of [s] before the first separator, or [s] itself. *)
Lemma cut_at_spec (x : ascii) (s : string) :
  exists pre post,
    cut_at (String x EmptyString) s = Ret pre
    /\ s = pre ++ post /\ ~ occurs x pre.
Proof.
  unfold cut_at. destruct (contains _ s) eqn:E.
  - apply contains_char in E. apply occurs_split in E as (pre & post & -> & Hno).
    exists pre, (String x post). split; [|done].
    unfold split_max. rewrite split_go_cut by done. reflexivity.
  - apply contains_char_false in E. exists s, EmptyString.
    by rewrite string_app_empty.
Qed.

Lemma startswith_spec (s p : string) :
  startswith s p = true <-> exists rest, s = p ++ rest.
Proof.
  revert s. induction p as [|a p IH]; intros s.
  - cbn [startswith]. split; [|done]. intros _. exists s.
    by rewrite string_app_nil.
  - destruct s as [|c s]; cbn [startswith].
    + split; [done|]. intros [rest E]. by rewrite string_app_cons in E.
    + rewrite andb_true_iff, Ascii.eqb_eq, IH. split.
      * intros [-> [rest ->]]. exists rest. by rewrite string_app_cons.
      * intros [rest E]. rewrite string_app_cons in E.
        injection E as -> ->. eauto.
Qed.

(** The scheme is cut off without an error. *)
Lemma strip_scheme (s : string) :
  exists rest,
    (if startswith s "http://" || startswith s "https://"
     then index (split_max "://" 1 s) 1 else Ret s) = Ret rest
    /\ ((startswith s "http://" = true /\ s = "http://" ++ rest)
        \/ (startswith s "https://" = true /\ s = "https://" ++ rest)
        \/ (startswith s "http://" = false /\ startswith s "https://" = false
            /\ s = rest)).
Proof.
  destruct (startswith s "http://") eqn:E1.
  - apply startswith_spec in E1 as [rest ->]. exists rest.
    split; [|by left]. cbn [orb]. unfold split_max.
    rewrite !string_app_cons, string_app_nil. simpl.
    by rewrite split_go_no_limit_left.
  - destruct (startswith s "https://") eqn:E2.
    + apply startswith_spec in E2 as [rest ->]. exists rest.
      split; [|right; by left]. cbn [orb]. unfold split_max.
      rewrite !string_app_cons, string_app_nil. simpl.
      by rewrite split_go_no_limit_left.
    + exists s. split; [done|]. right; right. done.
Qed.

Lemma occurs_lstrip_by (p : ascii -> bool) (s : string) (c : ascii) :
  occurs c (lstrip_by p s) -> occurs c s.
Proof.
  induction s as [|a s IH]; cbn [lstrip_by occurs]; [done|].
  destruct (p a); [right; by apply IH | done].
Qed.

Lemma occurs_rstrip_by (p : ascii -> bool) (s : string) (c : ascii) :
  occurs c (rstrip_by p s) -> occurs c s.
Proof.
  induction s as [|a s IH]; cbn [rstrip_by occurs]; [done|].
  destruct (rstrip_by p s) as [|b r].
  - destruct (p a); cbn [occurs]; [done | intros [-> | []]; by left].
  - cbn [occurs] in *. intros [-> | H]; [by left | right; by apply IH].
Qed.

Lemma occurs_lower (s : string) (c : ascii) :
  occurs c (lower s) -> lower_char c = c.
Proof.
  induction s as [|a s IH]; cbn [lower occurs]; [done|].
  intros [-> | H]; [apply lower_char_idem | by apply IH].
Qed.

Lemma lower_fixed (s : string) :
  (forall c, occurs c s -> lower_char c = c) -> lower s = s.
Proof.
  induction s as [|a s IH]; cbn [lower occurs]; [done|].
  intros H. rewrite (H a) by (by left). f_equal. apply IH.
  intros c Hc. apply H. by right.
Qed.

Lemma lstrip_by_first (p : ascii -> bool) (s : string) :
  match s with
  | EmptyString => True
  | String c _ => p c = false
  end ->
  lstrip_by p s = s.
Proof. destruct s as [|c s]; cbn [lstrip_by]; [done|]. by intros ->. Qed.

Lemma lstrip_by_head (p : ascii -> bool) (s : string) :
  match lstrip_by p s with
  | EmptyString => True
  | String c _ => p c = false
  end.
Proof.
  induction s as [|a s IH]; cbn [lstrip_by]; [done|].
  by destruct (p a) eqn:E.
Qed.

Lemma rstrip_by_head (p : ascii -> bool) (s : string) (c : ascii) (r : string) :
  s = String c r -> p c = false -> exists r', rstrip_by p s = String c r'.
Proof.
  intros -> Hc. cbn [rstrip_by]. destruct (rstrip_by p r); [|by eexists].
  rewrite Hc. by eexists.
Qed.

Lemma rstrip_by_last (p : ascii -> bool) (s pre : string) (c : ascii) :
  rstrip_by p s = pre ++ String c EmptyString -> p c = false.
Proof.
  revert pre. induction s as [|a s IH]; intros pre; cbn [rstrip_by].
  - intros E. destruct pre; [rewrite string_app_nil in E
                            | rewrite string_app_cons in E]; discriminate E.
  - destruct (rstrip_by p s) as [|b r] eqn:Er.
    + destruct (p a) eqn:Ea.
      * intros E. destruct pre; [rewrite string_app_nil in E
                                | rewrite string_app_cons in E]; discriminate E.
      * intros E. destruct pre as [|x pre].
        -- rewrite string_app_nil in E. by injection E as ->.
        -- rewrite string_app_cons in E. injection E as _ E.
           destruct pre; [rewrite string_app_nil in E
                         | rewrite string_app_cons in E]; discriminate E.
    + intros E. destruct pre as [|x pre].
      * rewrite string_app_nil in E. discriminate E.
      * rewrite string_app_cons in E. injection E as _ E. by apply (IH pre).
Qed.

(** X22.  The normalizer never raises, and what it accepts is a
    host-like token: not empty, in lowercase, with a dot inside but
    not at either end, and free of spaces and of the characters
    [/ ? # :], so no scheme, path, query, fragment or port is ever
    stored. *)
Theorem normalize_domain_output (raw : string) :
  exists o,
    _normalize_domain raw = Ret o
    /\ forall r, o = Some r ->
         r <> EmptyString
         /\ lower r = r
         /\ occurs "."%char r
         /\ startswith r "." = false
         /\ endswith r "." = false
         /\ ~ occurs " "%char r /\ ~ occurs "/"%char r /\ ~ occurs "?"%char r
         /\ ~ occurs "#"%char r /\ ~ occurs ":"%char r.
Proof.
  unfold _normalize_domain.
  destruct (String.eqb raw EmptyString); [by exists None|].
  destruct (strip_scheme (lower (strip raw))) as (s1 & -> & Hs1).
  cbn [bind].
  destruct (cut_at_spec "/" s1) as (s2 & p2 & -> & E2 & H2). cbn [bind].
  destruct (cut_at_spec "?" s2) as (s3 & p3 & -> & E3 & H3). cbn [bind].
  destruct (cut_at_spec "#" s3) as (s4 & p4 & -> & E4 & H4). cbn [bind].
  destruct (cut_at_spec ":" s4) as (s5 & p5 & -> & E5 & H5). cbn [bind].
  set (r := strip_chars "." (strip s5)).
  destruct (String.eqb r EmptyString) eqn:Er; [by exists None|].
  destruct (contains " " r) eqn:Esp; [by exists None|].
  destruct (contains "." r) eqn:Edot; [|by exists None].
  cbn [orb negb]. exists (Some r). split; [done|]. intros ? [= <-].
  apply String.eqb_neq in Er. apply contains_char in Edot.
  apply contains_char_false in Esp.
  assert (forall c, occurs c r -> occurs c s5) as Hr5.
  { intros c Hc. subst r. unfold strip_chars, rstrip, lstrip, strip in Hc.
    by repeat (apply occurs_rstrip_by in Hc || apply occurs_lstrip_by in Hc). }
  assert (forall c, occurs c s5 -> occurs c s4) as H54.
  { intros c Hc. rewrite E5. apply occurs_app. by left. }
  assert (forall c, occurs c s4 -> occurs c s3) as H43.
  { intros c Hc. rewrite E4. apply occurs_app. by left. }
  assert (forall c, occurs c s3 -> occurs c s2) as H32.
  { intros c Hc. rewrite E3. apply occurs_app. by left. }
  assert (forall c, occurs c s2 -> occurs c s1) as H21.
  { intros c Hc. rewrite E2. apply occurs_app. by left. }
  assert (forall c, occurs c s1 -> occurs c (lower (strip raw))) as H10.
  { intros c Hc.
    destruct Hs1 as [[_ ->] | [[_ ->] | (_ & _ & ->)]]; [| |done];
      apply occurs_app; by right. }
  split; [done|]. split.
  { apply lower_fixed. intros c Hc. apply (occurs_lower (strip raw)). auto 10. }
  split; [done|]. split.
  { subst r. unfold strip_chars, rstrip, lstrip in *.
    pose proof (lstrip_by_head (fun c => mem_char c ".") (strip s5)) as Hh.
    destruct (lstrip_by _ (strip s5)) as [|c t] eqn:El; [done|].
    destruct (rstrip_by_head (fun c => mem_char c ".") _ c t eq_refl Hh)
      as [r' Hr']. rewrite Hr'. cbn [startswith].
    cbn [mem_char] in Hh. rewrite orb_false_r in Hh.
    rewrite Ascii.eqb_sym, Hh. done. }
  split.
  { apply not_true_iff_false. intros He.
    apply endswith_spec in He as [pre He]. subst r.
    unfold strip_chars, rstrip in He. by apply rstrip_by_last in He. }
  split; [done|].
  split; [intros Hc; apply H2; auto 10|].
  split; [intros Hc; apply H3; auto 10|].
  split; [intros Hc; apply H4; auto 10|].
  intros Hc; apply H5; auto 10.
Qed.

Lemma cut_at_app (x : ascii) (d tail : string) :
  ~ occurs x d ->
  exists tail' post,
    cut_at (String x EmptyString) (d ++ tail) = Ret (d ++ tail')
    /\ tail = tail' ++ post /\ ~ occurs x tail'.
Proof.
  intros Hd. unfold cut_at.
  destruct (contains (String x EmptyString) tail) eqn:E.
  - apply contains_char in E.
    pose proof E as (t1 & post & -> & Hno)%occurs_split.
    exists t1, (String x post).
    assert (contains (String x EmptyString) (d ++ t1 ++ String x post) = true)
      as ->.
    { apply contains_char. apply occurs_app. by right. }
    split; [|done]. unfold split_max.
    rewrite <- string_app_assoc, split_go_cut.
    + cbn [rev_string index lookup list_lookup of_option].
      by rewrite string_app_nil.
    + rewrite occurs_app. tauto.
  - apply contains_char_false in E. exists tail, EmptyString.
    assert (contains (String x EmptyString) (d ++ tail) = false) as ->.
    { apply contains_char_false. rewrite occurs_app. tauto. }
    by rewrite string_app_empty.
Qed.

Lemma prefix_keeps_head (c : ascii) (t post : string) :
  (t ++ post = EmptyString \/ exists u, t ++ post = String c u) ->
  t = EmptyString \/ exists u, t = String c u.
Proof.
  destruct t as [|a t]; [by left|]. rewrite string_app_cons.
  intros [[=] | [u [= -> _]]]. right. by eexists.
Qed.

Lemma startswith_app_occurs (d tail a b : string) (x : ascii) :
  startswith (d ++ tail) (a ++ String x b) = true ->
  ~ occurs x d -> forall c, occurs c d -> occurs c a.
Proof.
  revert d. induction a as [|y a IH]; intros d Hs Hx c Hc.
  - destruct d as [|e d]; [done|].
    rewrite string_app_nil, string_app_cons in Hs. cbn [startswith] in Hs.
    apply andb_true_iff in Hs as [->%Ascii.eqb_eq _].
    exfalso. apply Hx. by left.
  - destruct d as [|e d]; [done|].
    rewrite !string_app_cons in Hs. cbn [startswith] in Hs.
    apply andb_true_iff in Hs as [->%Ascii.eqb_eq Hs].
    cbn [occurs] in *. destruct Hc as [-> | Hc]; [by left|].
    right. apply (IH d); tauto.
Qed.

Lemma scheme_cut (scheme rest : string) :
  scheme ∈ [""; "http://"; "https://"] ->
  (scheme = "" -> startswith rest "http://" = false
                  /\ startswith rest "https://" = false) ->
  (if startswith (scheme ++ rest) "http://"
      || startswith (scheme ++ rest) "https://"
   then index (split_max "://" 1 (scheme ++ rest)) 1
   else Ret (scheme ++ rest)) = Ret rest.
Proof.
  rewrite !elem_of_cons. intros [-> | [-> | [-> | H]]] Hrest.
  - rewrite string_app_nil. by destruct Hrest as [-> ->].
  - unfold split_max. rewrite !string_app_cons, string_app_nil. simpl.
    by rewrite split_go_no_limit_left.
  - unfold split_max. rewrite !string_app_cons, string_app_nil. simpl.
    by rewrite split_go_no_limit_left.
  - by apply elem_of_nil in H.
Qed.

Lemma rstrip_dot_keeps (s : string) :
  endswith s "." = false -> rstrip "." s = s.
Proof.
  unfold rstrip. induction s as [|c s IH]; [done|].
  cbn [endswith]. intros [H1 H2]%orb_false_iff.
  cbn [rstrip_by]. rewrite IH by done. destruct s as [|a s]; [|done].
  cbn [mem_char]. rewrite orb_false_r.
  destruct (Ascii.eqb c ".") eqn:E; [|done].
  apply Ascii.eqb_eq in E as ->. discriminate H1.
Qed.

(** X23.  On a clean domain the normalizer is exact: when the input,
    trimmed and lowercased, reads as an optional [http://] or
    [https://], then a domain [d] without whitespace and without
    [/ ? # :], holding a dot but not at its ends, then nothing more or
    a path, query, fragment or port, the result is [d] itself. *)
Theorem normalize_domain_clean (raw scheme d tail : string) :
  raw <> EmptyString ->
  lower (strip raw) = scheme ++ d ++ tail ->
  scheme ∈ [""; "http://"; "https://"] ->
  (forall c, occurs c d -> is_space c = false /\ mem_char c "/?#:" = false) ->
  occurs "."%char d ->
  startswith d "." = false -> endswith d "." = false ->
  (tail = EmptyString
   \/ exists c t, tail = String c t /\ mem_char c "/?#:" = true) ->
  _normalize_domain raw = Ret (Some d).
Proof.
  intros Hraw Hlow Hscheme Hclean Hdot Hfirst Hlast Htail.
  assert (forall x, mem_char x "/?#:" = true -> ~ occurs x d) as Hno.
  { intros x Hx Hc. apply Hclean in Hc as [_ Hc]. congruence. }
  unfold _normalize_domain.
  apply String.eqb_neq in Hraw. rewrite Hraw, Hlow.
  rewrite scheme_cut; [|done|]; cycle 1.
  { intros _. split; apply not_true_iff_false; intros Hs.
    - pose proof (startswith_app_occurs d tail "http" "//" ":" Hs
                    (Hno ":"%char eq_refl) "."%char Hdot) as Hc.
      cbn in Hc. intuition discriminate.
    - pose proof (startswith_app_occurs d tail "https" "//" ":" Hs
                    (Hno ":"%char eq_refl) "."%char Hdot) as Hc.
      cbn in Hc. intuition discriminate. }
  cbn [bind].
  assert (exists c, mem_char c "/?#:" = true
                    /\ (tail = EmptyString \/ exists u, tail = String c u))
    as (c0 & Hc0 & Hq1).
  { destruct Htail as [-> | (c & t & -> & Hc)].
    - exists "/"%char. split; [done | by left].
    - exists c. split; [done | right; by eexists]. }
  destruct (cut_at_app "/" d tail (Hno "/"%char eq_refl)) as (t2 & p2 & -> & E2 & N2).
  cbn [bind].
  destruct (cut_at_app "?" d t2 (Hno "?"%char eq_refl)) as (t3 & p3 & -> & E3 & N3).
  cbn [bind].
  destruct (cut_at_app "#" d t3 (Hno "#"%char eq_refl)) as (t4 & p4 & -> & E4 & N4).
  cbn [bind].
  destruct (cut_at_app ":" d t4 (Hno ":"%char eq_refl)) as (t5 & p5 & -> & E5 & N5).
  cbn [bind].
  assert (t5 = EmptyString) as ->.
  { subst tail t2 t3 t4.
    apply prefix_keeps_head in Hq1. apply prefix_keeps_head in Hq1.
    apply prefix_keeps_head in Hq1. apply prefix_keeps_head in Hq1.
    destruct Hq1 as [-> | [u ->]]; [done|]. exfalso.
    repeat rewrite string_app_cons in N2.
    repeat rewrite string_app_cons in N3.
    repeat rewrite string_app_cons in N4. cbn [occurs] in *.
    cbn [mem_char] in Hc0. rewrite !orb_true_iff, !Ascii.eqb_eq in Hc0.
    destruct Hc0 as [-> | [-> | [-> | [-> | [=]]]]]; tauto. }
  rewrite string_app_empty.
  rewrite strip_none by (intros c Hc; by apply Hclean).
  unfold strip_chars. unfold lstrip.
  rewrite lstrip_by_first; cycle 1.
  { destruct d as [|a d']; [done|]. cbn [startswith] in Hfirst.
    rewrite andb_true_r, Ascii.eqb_sym in Hfirst.
    cbn [mem_char]. by rewrite orb_false_r. }
  rewrite rstrip_dot_keeps by done.
  assert (String.eqb d EmptyString = false) as ->.
  { apply String.eqb_neq. intros ->. done. }
  assert (contains " " d = false) as ->.
  { apply contains_char_false. intros Hc. by apply Hclean in Hc as [[=] _]. }
  assert (contains "." d = true) as -> by by apply contains_char.
  reflexivity.
Qed.

End NormalizeFacts.

(** ** The HTTP host extractor on a well-formed request *)

Section HttpHostFacts.
Import Py Firewall NetworkControl.

Lemma split_crlf_line (line rest cur : string) :
  contains CRLF line = false ->
  split_go CRLF None 0 cur (line ++ CRLF ++ rest)
  = (rev_string EmptyString cur ++ line)
      :: split_go CRLF None 0 EmptyString rest.
Proof.
  revert cur. induction line as [|c l IH]; intros cur Hno.
  - unfold CRLF. rewrite string_app_nil, string_app_empty.
    rewrite !string_app_cons, string_app_nil. reflexivity.
  - cbn [contains] in Hno. apply orb_false_iff in Hno as [H1 H2].
    rewrite string_app_cons. cbn [split_go andb].
    assert (startswith (String c (l ++ CRLF ++ rest)) CRLF = false) as ->.
    { unfold CRLF in *. cbn [startswith] in *.
      destruct l as [|x l'].
      - rewrite string_app_nil, !string_app_cons. cbn [startswith].
        by rewrite andb_false_r.
      - rewrite string_app_cons. cbn [startswith]. exact H1. }
    rewrite IH by done. f_equal. rewrite !rev_string_app. reflexivity.
Qed.

Lemma split_crlf_lines (before : list string) (text : string) :
  Forall (fun l => contains CRLF l = false) before ->
  split CRLF (foldr (fun l acc => l ++ CRLF ++ acc) text before)
  = (before ++ split CRLF text)%list.
Proof.
  unfold split. induction 1 as [|l before Hl _ IH]; [done|].
  cbn [foldr]. rewrite split_crlf_line by done.
  cbn [rev_string]. rewrite string_app_nil, IH. done.
Qed.

Lemma host_of_lines_skip (before rest : list string) :
  Forall (fun l => startswith (lower l) "host:" = false) before ->
  host_of_lines (before ++ rest) = host_of_lines rest.
Proof.
  induction 1 as [|l before Hl _ IH]; [done|].
  cbn [app host_of_lines]. by rewrite Hl.
Qed.

Lemma occurs_lower_char (c : ascii) (s : string) :
  occurs c s -> occurs (lower_char c) (lower s).
Proof.
  induction s as [|a s IH]; cbn [lower occurs]; [done|].
  intros [-> | H]; [by left | right; by apply IH].
Qed.

(** X24.  On a well-formed request the extractor finds the Host
    header: when the payload starts with one of the five methods and
    its text is a sequence of CRLF-terminated lines none of which
    begins with [host:] (in any case), followed by a line
    [Host: value] (the header name in any case), then the result is
    the header's value, trimmed, cut before [:] (the port) and
    lowercased. *)
Theorem extract_http_host_finds_header (payload : list byte)
    (before : list string) (key value rest host tail : string) :
  existsb (bytes_startswith payload) http_methods = true ->
  decode_latin1 payload
  = foldr (fun l acc => l ++ CRLF ++ acc)
      (key ++ ":" ++ value ++ CRLF ++ rest) before ->
  Forall (fun l => contains CRLF l = false
                   /\ startswith (lower l) "host:" = false) before ->
  lower key = "host" ->
  contains CRLF (key ++ ":" ++ value) = false ->
  strip value = host ++ tail -> ~ occurs ":"%char host ->
  (tail = EmptyString \/ exists t, tail = String ":"%char t) ->
  extract_http_host payload = Some (lower host).
Proof.
  intros Hm Htext Hbefore Hkey Hline Hval Hhost Htail.
  unfold extract_http_host, extract_http_host_body.
  destruct payload as [|x payload']; [discriminate Hm|].
  rewrite Hm. cbn [negb]. rewrite Htext.
  assert (key ++ ":" ++ value ++ CRLF ++ rest
          = (key ++ ":" ++ value) ++ CRLF ++ rest) as ->.
  { by rewrite !string_app_assoc. }
  rewrite split_crlf_lines; cycle 1.
  { eapply Forall_impl; [exact Hbefore|]. by intros l [? _]. }
  rewrite host_of_lines_skip; cycle 1.
  { eapply Forall_impl; [exact Hbefore|]. by intros l [_ ?]. }
  unfold split. rewrite split_crlf_line by done.
  cbn [rev_string host_of_lines]. rewrite string_app_nil.
  assert (startswith (lower (key ++ ":" ++ value)) "host:" = true) as ->.
  { apply startswith_spec. exists (lower value).
    rewrite !lower_app, Hkey. reflexivity. }
  assert (~ occurs ":"%char key) as Hk.
  { intros Hc. apply occurs_lower_char in Hc. rewrite Hkey in Hc.
    cbn in Hc. intuition discriminate. }
  unfold split_max.
  change (":" ++ value) with (String ":"%char (EmptyString ++ value)).
  rewrite string_app_nil, split_go_cut by done.
  rewrite split_go_no_limit_left.
  cbn [rev_string index lookup list_lookup of_option bind].
  rewrite !string_app_nil, Hval. cbn [bind].
  destruct Htail as [-> | [t ->]].
  - rewrite string_app_empty. unfold split.
    rewrite split_go_nocut by done.
    cbn [rev_string index lookup list_lookup of_option bind catch].
    by rewrite string_app_nil.
  - unfold split. rewrite (split_go_field ":" host t EmptyString) by done.
    cbn [rev_string index lookup list_lookup of_option bind catch].
    by rewrite string_app_nil.
Qed.

End HttpHostFacts.

(** ** The DNS rule and the packet rule on the same table *)

Section AgreementFacts.
Import Py DNSProxy Firewall.

(** X25.  The two matchers agree on a table of plain entries: when
    every blocked domain is stored non-empty, in lowercase, without
    surrounding whitespace and without a leading [*] or [.], a
    lowercase host without a trailing dot is refused by the DNS proxy
    (its cache refreshed from the table) exactly when the packet
    filter's host rule finds a blocked domain for it in the list it
    reloads from the same table. *)
Theorem dns_rule_agrees_with_host_rule (w : World) (old : gset string)
    (h : string) :
  online w = true ->
  (forall d, d ∈ tbl_blocked_domains w ->
     d <> EmptyString /\ lower d = d /\ strip d = d /\ lstrip "*." d = d) ->
  lower h = h -> rstrip "." h = h ->
  exists ds,
    reload_blocked_domains w = Ret ds
    /\ (_is_blocked (_refresh_cache (Some (tbl_blocked_domains w)) old) h = true
        <-> exists d, d ∈ ds /\ host_matches h d = true).
Proof.
  intros Hon Hclean Hlow Hdot. eexists.
  split; [by apply reload_blocked_domains_online|].
  rewrite is_blocked_spec, Hdot, Hlow. split.
  - intros (c & (d & Hd & Hne & ->)%refresh_cache_elem_of & Hm).
    destruct (Hclean d Hd) as (_ & Hl & Hs & Hw).
    rewrite Hl, Hs in Hm. apply domain_matches_spec in Hm as [_ Hm].
    rewrite Hl, Hw in Hm. exists d. split.
    + apply list_elem_of_fmap. exists d. by rewrite Hl.
    + by apply host_matches_spec.
  - intros (d' & (d & -> & Hd)%list_elem_of_fmap & Hm).
    destruct (Hclean d Hd) as (Hne & Hl & Hs & Hw).
    rewrite Hl in Hm. apply host_matches_spec in Hm.
    exists d. split.
    + apply refresh_cache_elem_of. exists d. by rewrite Hl, Hs.
    + apply domain_matches_spec. by rewrite Hl, Hw.
Qed.

End AgreementFacts.

(** ** The SNI parser on a well-formed ClientHello *)

Section SniFacts.
Import Py Firewall ClientHello.

Local Open Scope nat_scope.

Variable decode_utf8_ignore : list byte -> string.

Lemma byte_code_of_nat (n : nat) :
  n < 256 -> byte_code (byte_of_ascii (ascii_of_nat n)) = n.
Proof.
  intros Hn. unfold byte_code.
  pose proof (byte_of_ascii_via_N (ascii_of_nat n)) as H.
  symmetry in H. apply Byte.to_of_N in H. rewrite H.
  by apply nat_ascii_embedding.
Qed.

Lemma unpack_H_u16 (n : nat) : n < 256 * 256 -> unpack_H (u16 n) = Ret n.
Proof.
  intros Hn. unfold u16, unpack_H.
  rewrite !byte_code_of_nat.
  - f_equal. pose proof (Nat.div_mod_eq n 256). lia.
  - apply Nat.mod_upper_bound. lia.
  - apply Nat.Div0.div_lt_upper_bound. lia.
Qed.

Lemma byte_at_eq (P pre post : list byte) (x : byte) (o : nat) :
  P = (pre ++ x :: post)%list -> o = length pre ->
  byte_at P o = Ret (byte_code x).
Proof.
  intros -> ->. unfold byte_at, index.
  by rewrite list_lookup_middle.
Qed.

Lemma slice_eq (P pre mid post : list byte) (lo hi : nat) :
  P = (pre ++ mid ++ post)%list -> lo = length pre ->
  hi = lo + length mid -> slice P lo hi = mid.
Proof.
  intros -> -> ->. unfold slice.
  replace (length pre + length mid - length pre) with (length mid) by lia.
  by rewrite drop_app_length, take_app_length.
Qed.

Lemma split_first_no_colon (s : string) :
  ~ occurs ":"%char s -> index (split ":" s) 0 = Ret s.
Proof.
  intros H. unfold split. rewrite (split_go_last ":" s EmptyString H).
  cbn. by rewrite string_app_nil.
Qed.

Lemma length_u16 (n : nat) : length (u16 n) = 2.
Proof. reflexivity. Qed.

Lemma length_extension_bytes (e : Extension) :
  length (extension_bytes e) = 4 + length (ext_data e).
Proof. unfold extension_bytes. rewrite !length_app, !length_u16. lia. Qed.

Lemma extension_block_cons (e : Extension) (l : list Extension) :
  extension_block (e :: l) = (extension_bytes e ++ extension_block l)%list.
Proof. reflexivity. Qed.

Lemma extension_block_app (l k : list Extension) :
  extension_block (l ++ k) = (extension_block l ++ extension_block k)%list.
Proof.
  induction l as [|e l IH]; [done|].
  change ((e :: l) ++ k)%list with (e :: (l ++ k))%list.
  by rewrite !extension_block_cons, IH, app_assoc.
Qed.

Lemma length_extension_block (l : list Extension) :
  length l <= length (extension_block l).
Proof.
  induction l as [|e l IH]; [done|].
  rewrite extension_block_cons, length_app, length_extension_bytes.
  cbn [length]. lia.
Qed.

(** The inner loop on a list that starts with a host_name entry. *)
Lemma sn_loop_first_name (P pre post name : list byte)
    (fuel offset sn_end : nat) :
  P = (pre ++ u8 0 ++ u16 (length name) ++ name ++ post)%list ->
  offset = length pre ->
  length name < 256 * 256 ->
  ~ occurs ":"%char (decode_utf8_ignore name) ->
  offset + 3 + length name <= sn_end ->
  sn_loop decode_utf8_ignore (S fuel) P offset sn_end
  = Some (Ret (Some (lower (decode_utf8_ignore name)))).
Proof.
  intros HP Ho Hn Hc Hend. cbn [sn_loop].
  rewrite (proj2 (Nat.leb_le _ _)) by lia.
  rewrite (byte_at_eq P pre (u16 (length name) ++ name ++ post)
             (byte_of_ascii (ascii_of_nat 0)) offset HP Ho).
  cbn [and_then].
  rewrite (slice_eq P (pre ++ u8 0) (u16 (length name)) (name ++ post)
             (offset + 1) (offset + 3)); cycle 1.
  { rewrite HP. by rewrite <- !app_assoc. }
  { rewrite length_app. cbn [length u8]. lia. }
  { rewrite length_u16. lia. }
  rewrite unpack_H_u16 by done. cbn [and_then]. cbv zeta.
  rewrite (proj2 (Nat.ltb_ge _ _)) by lia.
  rewrite byte_code_of_nat by lia. cbn [Nat.eqb].
  rewrite (slice_eq P (pre ++ u8 0 ++ u16 (length name)) name post
             (offset + 3) (offset + 3 + length name)); cycle 1.
  { rewrite HP. by rewrite <- !app_assoc. }
  { rewrite !length_app, length_u16. cbn [length u8]. lia. }
  { lia. }
  rewrite split_first_no_colon by done. reflexivity.
Qed.

(** The outer loop skips the extensions of other types and reads
    the server name. *)
Lemma ext_loop_finds (before : list Extension) :
  forall (P pre post name : list byte) (fuel offset end_ext : nat),
    P = (pre ++ extension_block before
         ++ extension_bytes (server_name name) ++ post)%list ->
    offset = length pre ->
    Forall (fun e => ext_type e <> 0 /\ ext_type e < 256 * 256
                     /\ length (ext_data e) < 256 * 256) before ->
    length before < fuel ->
    5 + length name < 256 * 256 ->
    ~ occurs ":"%char (decode_utf8_ignore name) ->
    offset + length (extension_block before)
      + length (extension_bytes (server_name name)) <= end_ext ->
    ext_loop decode_utf8_ignore fuel P offset end_ext
    = Some (Ret (Some (lower (decode_utf8_ignore name)))).
Proof.
  induction before as [|e before IH];
    intros P pre post name fuel offset end_ext HP Ho Hok Hfuel Hn Hc Hend.
  - destruct fuel as [|fuel]; [cbn in Hfuel; lia|].
    rewrite length_extension_bytes in Hend.
    cbn [extension_block map concat app length server_name ext_data] in HP, Hend.
    rewrite !length_app, !length_u16 in Hend. cbn [length u8] in Hend.
    unfold extension_bytes in HP. cbn [server_name ext_type ext_data] in HP.
    set (data := (u16 (3 + length name) ++ u8 0 ++ u16 (length name)
                  ++ name)%list) in *.
    assert (length data = 5 + length name) as Hdata.
    { subst data. rewrite !length_app, !length_u16. cbn [length u8]. lia. }
    cbn [ext_loop].
    rewrite (proj2 (Nat.leb_le _ _)) by lia.
    rewrite (slice_eq P pre (u16 0) (u16 (length data) ++ data ++ post)
               offset (offset + 2)); cycle 1.
    { rewrite HP. by rewrite <- !app_assoc. }
    { done. }
    { by rewrite length_u16. }
    rewrite unpack_H_u16 by lia. cbn [and_then].
    rewrite (slice_eq P (pre ++ u16 0) (u16 (length data)) (data ++ post)
               (offset + 2) (offset + 4)); cycle 1.
    { rewrite HP. by rewrite <- !app_assoc. }
    { rewrite length_app, length_u16. lia. }
    { rewrite length_u16. lia. }
    rewrite unpack_H_u16 by lia. cbn [and_then]. cbv zeta. cbn [Nat.eqb].
    rewrite (proj2 (Nat.ltb_ge _ _)) by lia.
    rewrite (slice_eq P (pre ++ u16 0 ++ u16 (length data))
               (u16 (3 + length name))
               (u8 0 ++ u16 (length name) ++ name ++ post)
               (offset + 4) (offset + 4 + 2)); cycle 1.
    { rewrite HP. subst data. by rewrite <- !app_assoc. }
    { rewrite !length_app, !length_u16. lia. }
    { by rewrite length_u16. }
    rewrite unpack_H_u16 by lia. cbn [and_then].
    apply (sn_loop_first_name P
             (pre ++ u16 0 ++ u16 (length data) ++ u16 (3 + length name))
             post name).
    + rewrite HP. subst data. by rewrite <- !app_assoc.
    + rewrite !length_app, !length_u16. lia.
    + lia.
    + done.
    + lia.
  - destruct fuel as [|fuel]; [cbn in Hfuel; lia|].
    apply Forall_cons in Hok as [(Ht0 & Ht & Hd) Hok].
    rewrite extension_block_cons in HP, Hend.
    rewrite length_app, length_extension_bytes in Hend.
    rewrite length_extension_bytes in Hend.
    unfold extension_bytes at 1 in HP.
    cbn [ext_loop].
    rewrite (proj2 (Nat.leb_le _ _)) by lia.
    rewrite (slice_eq P pre (u16 (ext_type e))
               (u16 (length (ext_data e)) ++ ext_data e
                ++ extension_block before
                ++ extension_bytes (server_name name) ++ post)
               offset (offset + 2)); cycle 1.
    { rewrite HP. by rewrite <- !app_assoc. }
    { done. }
    { by rewrite length_u16. }
    rewrite unpack_H_u16 by done. cbn [and_then].
    rewrite (slice_eq P (pre ++ u16 (ext_type e)) (u16 (length (ext_data e)))
               (ext_data e ++ extension_block before
                ++ extension_bytes (server_name name) ++ post)
               (offset + 2) (offset + 4)); cycle 1.
    { rewrite HP. by rewrite <- !app_assoc. }
    { rewrite length_app, length_u16. lia. }
    { rewrite length_u16. lia. }
    rewrite unpack_H_u16 by done. cbn [and_then]. cbv zeta.
    rewrite (proj2 (Nat.eqb_neq _ _)) by done.
    apply (IH P (pre ++ extension_bytes e)%list post name).
    + rewrite HP. unfold extension_bytes at 2. by rewrite <- !app_assoc.
    + rewrite length_app, length_extension_bytes. lia.
    + done.
    + cbn [length] in Hfuel. lia.
    + done.
    + done.
    + rewrite length_extension_bytes. lia.
Qed.

(** X26.  On a well-formed ClientHello the parser returns the server
    name: for a handshake record laid out as in [client_hello], whose
    extensions before the server_name extension have other types,
    and whose first server-name entry is a host name without [:],
    the result is that name, decoded and lowercased, whatever session
    id, cipher suites, compression methods and further extensions the
    message carries. *)
Theorem extract_tls_sni_finds_server_name
    (record_rest handshake_len version_random sid cs comp name : list byte)
    (before after : list Extension) :
  length record_rest = 4 -> length handshake_len = 3 ->
  length version_random = 34 ->
  length sid < 256 -> length cs < 256 * 256 -> length comp < 256 ->
  length (extension_block (before ++ server_name name :: after)) < 256 * 256 ->
  Forall (fun e => ext_type e <> 0 /\ ext_type e < 256 * 256
                   /\ length (ext_data e) < 256 * 256) before ->
  ~ occurs ":"%char (decode_utf8_ignore name) ->
  extract_tls_sni decode_utf8_ignore
    (client_hello record_rest handshake_len version_random sid cs comp
       (before ++ server_name name :: after))
  = Some (lower (decode_utf8_ignore name)).
Proof.
  intros Hrec Hhs Hvr Hsid Hcs Hcomp Hblk Hok Hc.
  set (exts := (before ++ server_name name :: after)%list) in *.
  set (P := client_hello record_rest handshake_len version_random sid cs comp
              exts).
  assert (extension_block exts
          = (extension_block before ++ extension_bytes (server_name name)
             ++ extension_block after)%list) as Hexts.
  { subst exts. by rewrite extension_block_app, extension_block_cons. }
  assert (length (extension_bytes (server_name name)) = 9 + length name) as Hsni.
  { rewrite length_extension_bytes. cbn [server_name ext_data].
    rewrite !length_app, !length_u16. cbn [length u8]. lia. }
  assert (length (extension_block exts)
          = length (extension_block before) + (9 + length name)
            + length (extension_block after)) as Hblen.
  { rewrite Hexts, !length_app, Hsni. lia. }
  set (fixed := ([Byte.x16] ++ record_rest ++ [Byte.x01] ++ handshake_len
                 ++ version_random)%list).
  assert (length fixed = 43) as Hfixed.
  { subst fixed. rewrite !length_app. cbn [length]. lia. }
  assert (P = (fixed ++ u8 (length sid) ++ sid ++ u16 (length cs) ++ cs
               ++ u8 (length comp) ++ comp
               ++ u16 (length (extension_block exts))
               ++ extension_block exts)%list) as HP.
  { subst P fixed. unfold client_hello. by rewrite <- !app_assoc. }
  assert (length P = 43 + 1 + length sid + 2 + length cs + 1 + length comp
                     + 2 + length (extension_block exts)) as HlenP.
  { rewrite HP, !length_app, !length_u16, Hfixed. cbn [length u8]. lia. }
  unfold extract_tls_sni, extract_tls_sni_body. fold P. cbv zeta.
  rewrite (proj2 (Nat.ltb_ge (length P) 5)) by lia.
  rewrite (byte_at_eq P [] (record_rest ++ [Byte.x01] ++ handshake_len
             ++ version_random ++ u8 (length sid) ++ sid ++ u16 (length cs)
             ++ cs ++ u8 (length comp) ++ comp
             ++ u16 (length (extension_block exts))
             ++ extension_block exts) Byte.x16 0); cycle 1.
  { rewrite HP. subst fixed. by rewrite <- !app_assoc. }
  { done. }
  cbn [and_then]. change (byte_code Byte.x16) with 22. cbn [Nat.eqb negb].
  rewrite (proj2 (Nat.ltb_ge (length P) 6)) by lia.
  rewrite (byte_at_eq P ([Byte.x16] ++ record_rest)
             (handshake_len ++ version_random ++ u8 (length sid) ++ sid
              ++ u16 (length cs) ++ cs ++ u8 (length comp) ++ comp
              ++ u16 (length (extension_block exts))
              ++ extension_block exts) Byte.x01 5); cycle 1.
  { rewrite HP. subst fixed. by rewrite <- !app_assoc. }
  { rewrite length_app. cbn [length]. lia. }
  cbn [and_then]. change (byte_code Byte.x01) with 1. cbn [Nat.eqb negb].
  rewrite (proj2 (Nat.ltb_ge (length P) (5 + 4 + 34))) by lia.
  rewrite (proj2 (Nat.ltb_ge (length P) (5 + 4 + 34 + 1))) by lia.
  rewrite (byte_at_eq P fixed
             (sid ++ u16 (length cs) ++ cs ++ u8 (length comp) ++ comp
              ++ u16 (length (extension_block exts))
              ++ extension_block exts)
             (byte_of_ascii (ascii_of_nat (length sid))) (5 + 4 + 34));
    cycle 1.
  { exact HP. }
  { by rewrite Hfixed. }
  cbn [and_then]. rewrite byte_code_of_nat by done.
  rewrite (proj2 (Nat.ltb_ge (length P) _)) by lia.
  rewrite (slice_eq P (fixed ++ u8 (length sid) ++ sid) (u16 (length cs))
             (cs ++ u8 (length comp) ++ comp
              ++ u16 (length (extension_block exts))
              ++ extension_block exts)
             (5 + 4 + 34 + 1 + length sid)
             (5 + 4 + 34 + 1 + length sid + 2)); cycle 1.
  { rewrite HP. by rewrite <- !app_assoc. }
  { rewrite !length_app, Hfixed. cbn [length u8]. lia. }
  { by rewrite length_u16. }
  rewrite unpack_H_u16 by done. cbn [and_then].
  rewrite (proj2 (Nat.ltb_ge (length P) _)) by lia.
  rewrite (byte_at_eq P
             (fixed ++ u8 (length sid) ++ sid ++ u16 (length cs) ++ cs)
             (comp ++ u16 (length (extension_block exts))
              ++ extension_block exts)
             (byte_of_ascii (ascii_of_nat (length comp)))
             (5 + 4 + 34 + 1 + length sid + 2 + length cs)); cycle 1.
  { rewrite HP. by rewrite <- !app_assoc. }
  { rewrite !length_app, length_u16, Hfixed. cbn [length u8]. lia. }
  cbn [and_then]. rewrite byte_code_of_nat by done.
  rewrite (proj2 (Nat.ltb_ge (length P) _)) by lia.
  rewrite (slice_eq P
             (fixed ++ u8 (length sid) ++ sid ++ u16 (length cs) ++ cs
              ++ u8 (length comp) ++ comp)
             (u16 (length (extension_block exts)))
             (extension_block exts)
             (5 + 4 + 34 + 1 + length sid + 2 + length cs + 1 + length comp)
             (5 + 4 + 34 + 1 + length sid + 2 + length cs + 1 + length comp
              + 2)); cycle 1.
  { rewrite HP. by rewrite <- !app_assoc. }
  { rewrite !length_app, length_u16, Hfixed. cbn [length u8]. lia. }
  { by rewrite length_u16. }
  rewrite unpack_H_u16 by done. cbn [and_then].
  rewrite (proj2 (Nat.ltb_ge (length P) _)) by lia.
  rewrite (ext_loop_finds before P
             (fixed ++ u8 (length sid) ++ sid ++ u16 (length cs) ++ cs
              ++ u8 (length comp) ++ comp
              ++ u16 (length (extension_block exts)))
             (extension_block after) name).
  - reflexivity.
  - rewrite HP, Hexts. by rewrite <- !app_assoc.
  - rewrite !length_app, !length_u16, Hfixed. cbn [length u8]. lia.
  - done.
  - pose proof (length_extension_block before). lia.
  - lia.
  - done.
  - rewrite Hsni. lia.
Qed.

End SniFacts.

(** ** Instances of the further properties *)

Section MoreInstances.
Import Py Security Install Storage DNSProxy Firewall NetworkControl.
Import ClientHello Samples MoreSamples.

Lemma verify_password_needs_three_fields_witness :
  verify_password toy_kdf "admin123" "admin123" = false.
Proof.
  assert (count_char "$" "admin123" <> 2) as H by (vm_compute; lia).
  exact (verify_password_needs_three_fields toy_kdf "admin123" "admin123" H).
Defined.

Lemma create_user_then_validate_witness :
  exists users',
    create_user toy_kdf salt_a "alice" "secret" "Admin" users_root
    = Ret (true, users')
    /\ validate_user toy_kdf "alice" "secret" users' = true
    /\ is_admin "alice" users' = String.eqb (lower "Admin") "admin"
    /\ forall v, v <> "alice" -> users' !! v = users_root !! v.
Proof.
  assert ("secret" <> EmptyString) as H1 by done.
  assert (users_root !! "alice" = None) as H2 by (vm_compute; reflexivity).
  exact (create_user_then_validate toy_kdf salt_a "alice" "secret" "Admin"
           users_root H1 H2).
Defined.

Lemma create_user_keeps_existing_witness :
  exists users1,
    create_user toy_kdf salt_a "alice" "secret" "user" users_root
    = Ret (true, users1)
    /\ create_user toy_kdf salt_b "alice" "other" "admin" users1
       = Ret (false, users1)
    /\ validate_user toy_kdf "alice" "secret" users1 = true
    /\ validate_user toy_kdf "alice" "other" users1 = false.
Proof.
  assert ("secret" <> EmptyString) as H1 by done.
  assert ("other" <> EmptyString) as H2 by done.
  assert (users_root !! "alice" = None) as H3 by (vm_compute; reflexivity).
  destruct (create_user_keeps_existing toy_kdf salt_a salt_b "alice" "secret"
              "other" "user" "admin" users_root H1 H2 H3)
    as (users1 & Ha & Hb & Hc & Hd & _).
  exists users1. split; [exact Ha|]. split; [exact Hb|]. split; [exact Hc|].
  apply Hd. vm_compute. intros [=].
Defined.

Lemma set_password_replaces_hash_witness :
  exists users',
    set_password toy_kdf salt_a "root" "secret" users_root = Ret (true, users')
    /\ validate_user toy_kdf "root" "secret" users' = true
    /\ is_admin "root" users' = is_admin "root" users_root.
Proof.
  assert ("secret" <> EmptyString) as H1 by done.
  assert (users_root !! "root"
          = Some {| password := "150000$00$00"; role := "admin" |}) as H2
    by (vm_compute; reflexivity).
  destruct (set_password_replaces_hash toy_kdf salt_a "root" "secret"
              users_root H1) as [Ha _].
  destruct (Ha _ H2) as (users' & Hs & Hv & _ & Hr & _).
  exists users'. split; [exact Hs|]. split; [exact Hv | exact Hr].
Defined.

Lemma storage_accounts_fail_hashed_login_witness :
  verify_user true "bob" "hunter2" (add_user true "bob" "hunter2" "user" users_root)
  = Some ("bob", "user")
  /\ validate_user toy_kdf "bob" "hunter2"
       (add_user true "bob" "hunter2" "user" users_root) = false.
Proof.
  assert (count_char "$" "hunter2" <> 2) as H1 by (vm_compute; lia).
  assert (users_root !! "bob" = None) as H2 by (vm_compute; reflexivity).
  destruct (storage_accounts_fail_hashed_login toy_kdf "bob" "hunter2" "user"
              "hunter2" users_root H1 H2) as (Ha & Hb & _).
  split; [exact Ha | exact Hb].
Defined.

Lemma first_run_with_other_admin_witness :
  (ensure_fresh_installation toy_kdf salt_a salt_b first_run_with_root).1 = fresh
  /\ validate_user toy_kdf "admin" "password"
       (users (ensure_fresh_installation toy_kdf salt_a salt_b
                 first_run_with_root).2) = true.
Proof.
  assert (marker_file first_run_with_root = None) as H1 by reflexivity.
  assert (has_admin (users first_run_with_root) = true) as H2
    by (vm_compute; reflexivity).
  assert (users first_run_with_root !! "admin" = None) as H3
    by (vm_compute; reflexivity).
  destruct (first_run_with_other_admin toy_kdf salt_a salt_b
              first_run_with_root H1 H2 H3) as (Ha & _ & Hb & _).
  split; [exact Ha | exact Hb].
Defined.

Lemma blocked_names_block_subdomains_witness :
  _is_blocked {["facebook.com"]} ("www" ++ "." ++ "facebook.com") = true.
Proof.
  assert (_is_blocked {["facebook.com"]} "facebook.com" = true) as H1
    by (vm_compute; reflexivity).
  assert (rstrip "." "facebook.com" <> EmptyString) as H2 by (vm_compute; done).
  exact (blocked_names_block_subdomains {["facebook.com"]} "facebook.com"
           "www" H1 H2).
Defined.

Lemma refreshed_rows_are_blocked_witness :
  _is_blocked (_refresh_cache (Some ["facebook.com"]) ∅) "facebook.com" = true.
Proof.
  assert ("facebook.com" ∈ ["facebook.com"]) as H1 by apply list_elem_of_here.
  assert ("facebook.com" <> EmptyString) as H2 by done.
  exact (refreshed_rows_are_blocked ["facebook.com"] ∅ "facebook.com" H1 H2
           eq_refl eq_refl eq_refl eq_refl).
Defined.

Lemma cleanup_removes_exactly_expired_witness :
  blocked_ips
    (_cleanup_expired_blocked_ips thread_facebook world_with_temp_row 5000).1
  = dom (tbl_blocked_ips
           (_cleanup_expired_blocked_ips thread_facebook world_with_temp_row
              5000).2).
Proof.
  destruct (cleanup_removes_exactly_expired thread_facebook world_with_temp_row
              5000) as [Ha _].
  destruct (Ha eq_refl) as (_ & Hb & _). exact Hb.
Defined.

Lemma add_temporary_block_ip_effect_witness :
  tbl_blocked_ips
    (_add_temporary_block_ip thread_facebook world_facebook 5000
       "93.184.216.34" "facebook.com" 300).2 !! "93.184.216.34"
  = Some {| domain := Some "facebook.com";
            expires_at := Some (utc_seconds 5000 + 300)%Z;
            reason := Some "auto-temp" |}.
Proof.
  assert ("93.184.216.34" <> EmptyString) as H1 by done.
  assert ("93.184.216.34" ∉ _critical_ips thread_facebook) as H2.
  { apply (bool_decide_eq_false_1
             ("93.184.216.34" ∈ _critical_ips thread_facebook)).
    vm_compute. reflexivity. }
  destruct (add_temporary_block_ip_effect thread_facebook world_facebook 5000
              "93.184.216.34" "facebook.com" 300) as [Ha _].
  destruct (Ha H1 H2 eq_refl) as [Hb _]. exact Hb.
Defined.

Lemma temporary_block_expires_witness :
  let '(self1, w1) := _add_temporary_block_ip thread_facebook world_facebook
                        5000 "93.184.216.34" "facebook.com" 300 in
  let '(self2, w2) := _cleanup_expired_blocked_ips self1 w1 400000 in
  ((utc_seconds 400000 < utc_seconds 5000 + 300)%Z ->
     is_Some (tbl_blocked_ips w2 !! "93.184.216.34")
     /\ "93.184.216.34" ∈ blocked_ips self2)
  /\ ((utc_seconds 5000 + 300 <= utc_seconds 400000)%Z ->
     tbl_blocked_ips w2 !! "93.184.216.34" = None
     /\ "93.184.216.34" ∉ blocked_ips self2).
Proof.
  assert ("93.184.216.34" <> EmptyString) as H1 by done.
  assert ("93.184.216.34" ∉ _critical_ips thread_facebook) as H2.
  { apply (bool_decide_eq_false_1
             ("93.184.216.34" ∈ _critical_ips thread_facebook)).
    vm_compute. reflexivity. }
  exact (temporary_block_expires thread_facebook world_facebook 5000 400000
           "93.184.216.34" "facebook.com" 300 H1 H2 eq_refl).
Defined.

Lemma blocked_host_is_dropped_witness :
  exists why,
    (process_packet decode_ascii no_fnmatch thread_facebook world_facebook
       5000 pkt_share).1.1 = Drop why
    /\ (why = BlockedIPHit \/ why = QUIC \/ why = DoH
        \/ exists d', why = BlockedDomain d' /\ d' ∈ domains thread_facebook).
Proof.
  assert (EmptyString ∉ domains thread_facebook) as H1.
  { apply not_elem_of_cons. split; [done | apply not_elem_of_nil]. }
  assert ("facebook.com" ∈ domains thread_facebook) as H2
    by apply list_elem_of_here.
  assert (payload_mentions (bytes_lower (default [] (payload pkt_share)))
            "facebook.com" = true) as H3 by (vm_compute; reflexivity).
  exact (blocked_host_is_dropped decode_ascii no_fnmatch thread_facebook
           world_facebook 5000 pkt_share "facebook.com" H1 H2
           (or_intror H3)).
Defined.

Lemma dropped_destination_stays_blocked_witness :
  process_packet decode_ascii no_fnmatch
    (process_packet decode_ascii no_fnmatch thread_facebook world_facebook
       5000 pkt_share).1.2
    (process_packet decode_ascii no_fnmatch thread_facebook world_facebook
       5000 pkt_share).2 6000 pkt_quic
  = (Drop BlockedIPHit,
     count_blocked
       (process_packet decode_ascii no_fnmatch thread_facebook world_facebook
          5000 pkt_share).1.2 6000 "93.184.216.34",
     (process_packet decode_ascii no_fnmatch thread_facebook world_facebook
        5000 pkt_share).2).
Proof.
  assert ("93.184.216.34" <> EmptyString) as H1 by done.
  assert ("93.184.216.34" ∉ _critical_ips thread_facebook) as H2.
  { apply (bool_decide_eq_false_1
             ("93.184.216.34" ∈ _critical_ips thread_facebook)).
    vm_compute. reflexivity. }
  assert ((process_packet decode_ascii no_fnmatch thread_facebook
             world_facebook 5000 pkt_share).1.1
          = Drop (BlockedDomain "facebook.com")) as H3
    by (vm_compute; reflexivity).
  exact (dropped_destination_stays_blocked decode_ascii no_fnmatch
           thread_facebook world_facebook 5000 pkt_share "93.184.216.34"
           eq_refl H1 H2 eq_refl (or_introl (ex_intro _ _ H3))
           6000 pkt_quic eq_refl).
Defined.

Lemma fetched_signatures_fail_app_stage_witness :
  (exists why,
     (process_packet decode_ascii no_fnmatch thread_signature world_signature
        5000 pkt_share).1.1 = Drop why
     /\ forall app, why <> AppBlock app)
  \/ process_packet decode_ascii no_fnmatch thread_signature world_signature
       5000 pkt_share
     = (Failed, thread_signature, world_signature).
Proof.
  assert (tbl_app_signatures world_signature <> []) as H1 by done.
  assert (online world_signature = true
          /\ app_signatures thread_signature
             = map signature_row (tbl_app_signatures world_signature)) as H2
    by (split; reflexivity).
  assert (truthy (find_host decode_ascii (default [] (payload pkt_share)))
          = true) as H3 by (vm_compute; reflexivity).
  exact (fetched_signatures_fail_app_stage decode_ascii no_fnmatch None
           world_signature thread_signature world_signature 5000 pkt_share
           H1 (or_intror H2) H3).
Defined.

Lemma add_blocked_domain_effect_witness :
  tbl_blocked_ips (add_blocked_domain dns_google_resolver "DNS.Google"
                     world_facebook) !! "8.8.4.4" = Some null_row
  /\ domain_update_event (add_blocked_domain dns_google_resolver "DNS.Google"
                            world_facebook) = true
  /\ tbl_blocked_domains
       (add_blocked_domain no_resolver "DNS.Google"
          (add_blocked_domain dns_google_resolver "DNS.Google" world_facebook))
     = tbl_blocked_domains
         (add_blocked_domain dns_google_resolver "DNS.Google" world_facebook)
  /\ tbl_blocked_ips
       (add_blocked_domain no_resolver "DNS.Google"
          (add_blocked_domain dns_google_resolver "DNS.Google" world_facebook))
       !! "8.8.4.4" = None.
Proof.
  destruct (add_blocked_domain_effect dns_google_resolver "DNS.Google"
              world_facebook) as [Ha _].
  destruct (Ha eq_refl) as (_ & _ & Hb & Hc & Hd).
  split; [apply Hb; vm_compute; apply list_elem_of_here|].
  split; [exact Hc|].
  split; [exact (proj1 (Hd no_resolver)) | by vm_compute].
Defined.

Lemma remove_blocked_domain_effect_witness :
  (forall x, x ∈ tbl_blocked_domains
                   (remove_blocked_domain dns_google_resolver "DNS.Google"
                      world_dns_google)
             <-> x ∈ tbl_blocked_domains world_dns_google
                 /\ x <> lower "DNS.Google")
  /\ domain_update_event (remove_blocked_domain dns_google_resolver
                            "DNS.Google" world_dns_google) = true.
Proof.
  destruct (remove_blocked_domain_effect dns_google_resolver "DNS.Google"
              world_dns_google eq_refl) as (Ha & _ & Hb & _).
  split; [exact Ha | exact Hb].
Defined.

Lemma blocklist_edit_reaches_next_turn_witness :
  lower "DNS.Google"
    ∈ domains (run_turn dns_google_resolver decode_ascii no_fnmatch
                 (thread_facebook,
                  add_blocked_domain dns_google_resolver "DNS.Google"
                    world_facebook) turn_idle).2.1
  /\ "8.8.4.4"
      ∈ blocked_ips (run_turn dns_google_resolver decode_ascii no_fnmatch
                       (thread_facebook,
                        add_blocked_domain dns_google_resolver "DNS.Google"
                          world_facebook) turn_idle).2.1.
Proof.
  destruct (blocklist_edit_reaches_next_turn dns_google_resolver decode_ascii
              no_fnmatch thread_facebook world_facebook "DNS.Google" turn_idle
              eq_refl eq_refl) as [(Ha & Hb & _) _].
  split; [exact Ha|]. apply Hb. vm_compute. apply list_elem_of_here.
Defined.

Lemma normalize_domain_output_witness :
  exists o,
    _normalize_domain "https://www.Youtube.com/watch?v=1" = Ret o
    /\ forall r, o = Some r ->
         r <> EmptyString /\ lower r = r /\ occurs "."%char r
         /\ startswith r "." = false /\ endswith r "." = false
         /\ ~ occurs " "%char r /\ ~ occurs "/"%char r /\ ~ occurs "?"%char r
         /\ ~ occurs "#"%char r /\ ~ occurs ":"%char r.
Proof.
  exact (normalize_domain_output "https://www.Youtube.com/watch?v=1").
Defined.

Lemma normalize_domain_clean_witness :
  _normalize_domain " HTTPS://www.YouTube.com/watch?v=1 "
  = Ret (Some "www.youtube.com").
Proof.
  assert (" HTTPS://www.YouTube.com/watch?v=1 " <> EmptyString) as H1 by done.
  assert (lower (strip " HTTPS://www.YouTube.com/watch?v=1 ")
          = "https://" ++ "www.youtube.com" ++ "/watch?v=1") as H2
    by (vm_compute; reflexivity).
  assert ("https://" ∈ [EmptyString; "http://"; "https://"]) as H3.
  { do 2 apply list_elem_of_further. apply list_elem_of_here. }
  assert (forall c, occurs c "www.youtube.com" ->
            is_space c = false /\ mem_char c "/?#:" = false) as H4.
  { intros c Hc. cbn [occurs] in Hc.
    repeat (destruct Hc as [-> | Hc]; [by vm_compute|]). destruct Hc. }
  assert (occurs "."%char "www.youtube.com") as H5.
  { cbn [occurs]. do 3 right. by left. }
  assert ("/watch?v=1" = EmptyString
          \/ exists c t, "/watch?v=1" = String c t
                         /\ mem_char c "/?#:" = true) as H6.
  { right. exists "/"%char, "watch?v=1". split; reflexivity. }
  exact (normalize_domain_clean " HTTPS://www.YouTube.com/watch?v=1 "
           "https://" "www.youtube.com" "/watch?v=1"
           H1 H2 H3 H4 H5 eq_refl eq_refl H6).
Defined.

Lemma extract_http_host_finds_header_witness :
  extract_http_host http_share_request = Some (lower "example.org").
Proof.
  assert (existsb (bytes_startswith http_share_request) http_methods = true)
    as H1 by (vm_compute; reflexivity).
  assert (decode_latin1 http_share_request
          = foldr (fun l acc => l ++ CRLF ++ acc)
              ("Host" ++ ":" ++ " example.org" ++ CRLF ++ CRLF)
              ["GET /share?u=facebook.com HTTP/1.1"]) as H2
    by (vm_compute; reflexivity).
  assert (Forall (fun l => contains CRLF l = false
                           /\ startswith (lower l) "host:" = false)
            ["GET /share?u=facebook.com HTTP/1.1"]) as H3.
  { apply Forall_cons; repeat split; by vm_compute. }
  assert (contains CRLF ("Host" ++ ":" ++ " example.org") = false) as H4
    by (vm_compute; reflexivity).
  assert (strip " example.org" = "example.org" ++ EmptyString) as H5
    by (vm_compute; reflexivity).
  assert (~ occurs ":"%char "example.org") as H6.
  { apply contains_char_false. vm_compute. reflexivity. }
  exact (extract_http_host_finds_header http_share_request
           ["GET /share?u=facebook.com HTTP/1.1"] "Host" " example.org" CRLF
           "example.org" EmptyString H1 H2 H3 eq_refl H4 H5 H6
           (or_introl eq_refl)).
Defined.

Lemma dns_rule_agrees_with_host_rule_witness :
  exists ds,
    reload_blocked_domains world_facebook = Ret ds
    /\ (_is_blocked
          (_refresh_cache (Some (tbl_blocked_domains world_facebook)) ∅)
          "www.facebook.com" = true
        <-> exists d, d ∈ ds /\ host_matches "www.facebook.com" d = true).
Proof.
  assert (forall d, d ∈ tbl_blocked_domains world_facebook ->
            d <> EmptyString /\ lower d = d /\ strip d = d
            /\ lstrip "*." d = d) as H.
  { intros d ->%list_elem_of_singleton. split; [done|].
    split; [|split]; vm_compute; reflexivity. }
  exact (dns_rule_agrees_with_host_rule world_facebook ∅ "www.facebook.com"
           eq_refl H eq_refl eq_refl).
Defined.

Lemma extract_tls_sni_finds_server_name_witness :
  extract_tls_sni decode_ascii
    (client_hello (bytes_of_nats [3; 1; 0; 80]) (bytes_of_nats [0; 0; 76])
       (repeat Byte.x07 34) [] (bytes_of_nats [19; 1]) (bytes_of_nats [0])
       ([{| ext_type := 10; ext_data := bytes_of_nats [0; 2; 0; 29] |}]
        ++ server_name (b "Video.YouTube.com")
        :: [{| ext_type := 11; ext_data := bytes_of_nats [1; 0] |}]))
  = Some (lower (decode_ascii (b "Video.YouTube.com"))).
Proof.
  assert (length (extension_block
            ([{| ext_type := 10; ext_data := bytes_of_nats [0; 2; 0; 29] |}]
             ++ server_name (b "Video.YouTube.com")
             :: [{| ext_type := 11; ext_data := bytes_of_nats [1; 0] |}]))
          < 256 * 256)%nat as H1.
  { apply Nat.ltb_lt. vm_compute. reflexivity. }
  assert (Forall (fun e => ext_type e <> 0 /\ ext_type e < 256 * 256
                           /\ length (ext_data e) < 256 * 256)%nat
            [{| ext_type := 10; ext_data := bytes_of_nats [0; 2; 0; 29] |}])
    as H2.
  { apply Forall_cons_2; [|apply Forall_nil_2].
    split; [cbn [ext_type]; lia|].
    split; apply Nat.ltb_lt; vm_compute; reflexivity. }
  assert (~ occurs ":"%char (decode_ascii (b "Video.YouTube.com"))) as H3.
  { apply contains_char_false. vm_compute. reflexivity. }
  assert (0 < 256)%nat as H4 by lia.
  assert (2 < 256 * 256)%nat as H5 by lia.
  assert (1 < 256)%nat as H6 by lia.
  exact (extract_tls_sni_finds_server_name decode_ascii
           (bytes_of_nats [3; 1; 0; 80]) (bytes_of_nats [0; 0; 76])
           (repeat Byte.x07 34) [] (bytes_of_nats [19; 1]) (bytes_of_nats [0])
           (b "Video.YouTube.com")
           [{| ext_type := 10; ext_data := bytes_of_nats [0; 2; 0; 29] |}]
           [{| ext_type := 11; ext_data := bytes_of_nats [1; 0] |}]
           eq_refl eq_refl eq_refl H4 H5 H6 H1 H2 H3).
Defined.

(** The parser on the ClientHello of the earlier examples, and the
    normalizer on the inputs its docstring lists. *)
Example further_samples :
  extract_tls_sni decode_ascii
    (client_hello (bytes_of_nats [3; 1; 0; 0]) (bytes_of_nats [0; 0; 0])
       (repeat Byte.x07 34) [] (bytes_of_nats [19; 1]) (bytes_of_nats [0])
       [server_name (b "Video.YouTube.com")])
  = Some "video.youtube.com"
  /\ _normalize_domain "https://www.youtube.com/watch?v=123"
     = Ret (Some "www.youtube.com")
  /\ _normalize_domain "www.facebook.com/" = Ret (Some "www.facebook.com")
  /\ _normalize_domain "facebook.com:443" = Ret (Some "facebook.com")
  /\ _normalize_domain "localhost" = Ret None.
Proof. repeat split; vm_compute; reflexivity. Qed.

End MoreInstances.
